(** * QR-code attendance: scan validation and attendance recording

    A shallow embedding of the scan path of the attendance tracker:
    [services/qrCodeService.js], the three Mongoose models it works on
    ([Lecture], [QRCode], [Attendance]) and the routes that issue a code,
    scan one and override a status: their handlers, and the chains of
    middleware the handlers are mounted behind.

    Conventions of the embedding
    - a JavaScript [Date] is its time value, a [Z] of milliseconds since the
      epoch; an invalid date (time value NaN) is [None];
    - counters are integers ([Z]); an ObjectId is an opaque [N];
    - an [async] function is a computation in the monad [M]: it reads and
      writes the database and either returns or throws;
    - what a call takes from its environment is an argument: the instant
      [new Date()] gives, the ObjectId of a new document, the UUID and the
      rendered image of a code;
    - the host's local time zone is UTC, so [setHours] works on the UTC day;
    - a text is a string of ASCII characters: [trim] and [toUpperCase] are
      the JavaScript functions on such texts;
    - a document in memory is a [Document]: its [_id], the values it was
      loaded with, its current values and Mongoose's [isNew] flag; [save]
      validates the document, inserts it when it is new and otherwise
      writes the paths that changed.

    Left out: the paths no function of the scan path reads ([createdAt],
    [location], [locationRestricted], [allowedCoordinates], timestamps), the
    store's removal of expired QRCode documents (the TTL index on
    [expiresAt], which runs in the background), the two authentication
    middlewares ([middleware/auth] is not among the sources: a route is
    taken from the point where they have let the request pass, with
    [req.user] set), and requests served at the same time: operations run
    one after the other. *)

From Stdlib Require Import ZArith String Ascii List Bool Lia.
From stdpp Require Import base option gmap strings.
Import ListNotations.

Local Open Scope string_scope.
Local Open Scope Z_scope.

(** ** JavaScript values and control flow *)

Definition ObjectId := N.
Definition Date := Z.

(** An error object: its [name], the driver's numeric [code] when it has one,
    and its [message]. *)
Record JSError := mkError {
  name : string;
  code : option Z;
  message : string
}.

(** [new Error(msg)] *)
Definition Error (msg : string) : JSError :=
  {| name := "Error"; code := None; message := msg |}.

Inductive Outcome (A : Type) : Type :=
| Return (a : A)
| Throw (e : JSError).
Arguments Return {A} a.
Arguments Throw {A} e.

(** [Number(s)] on strings, for the decimal integers; [None] is NaN.  The
    other numeric literals of JavaScript (fractions, exponents, hexadecimal,
    surrounding blanks) are not covered: the strings this program converts
    are the two halves of an HH:MM time and the literal ['$maxScans']. *)
Definition digit (c : ascii) : option Z :=
  let n := Z.of_nat (nat_of_ascii c) in
  if (48 <=? n) && (n <=? 57) then Some (n - 48) else None.

Fixpoint digits (acc : Z) (s : string) : option Z :=
  match s with
  | EmptyString => Some acc
  | String c r =>
      match digit c with
      | Some d => digits (10 * acc + d) r
      | None => None
      end
  end.

Definition Number (s : string) : option Z :=
  match s with
  | EmptyString => Some 0
  | String c r =>
      if Ascii.eqb c "-" then
        match r with EmptyString => None | _ => Z.opp <$> digits 0 r end
      else if Ascii.eqb c "+" then
        match r with EmptyString => None | _ => digits 0 r end
      else digits 0 s
  end.

(** [s.split(':')] *)
Fixpoint split_colon (cur : string) (s : string) : list string :=
  match s with
  | EmptyString => [cur]
  | String c r =>
      if Ascii.eqb c ":" then cur :: split_colon EmptyString r
      else split_colon (cur ++ String c EmptyString) r
  end.

Definition split (s : string) : list string := split_colon EmptyString s.

(** ** Dates *)

Definition msPerMinute : Z := 60000.
Definition msPerHour : Z := 3600000.
Definition msPerDay : Z := 86400000.

(** [d.setHours(h, m, 0, 0)]: the hours, minutes, seconds and milliseconds of
    the day of [d] are replaced.  An argument that converts to NaN makes the
    date invalid. *)
Definition setHours (d : Date) (h m : option Z) : option Date :=
  match h, m with
  | Some h, Some m => Some (d / msPerDay * msPerDay + h * msPerHour + m * msPerMinute)
  | _, _ => None
  end.

(** [a.getTime() + k], NaN when [a] is invalid *)
Definition addMs (a : option Date) (k : Z) : option Date := (fun t => t + k) <$> a.

(** [a < b] and [a > b] on a valid date [a]; a comparison with an invalid
    date is false *)
Definition date_lt (a : Date) (b : option Date) : bool :=
  match b with Some b => a <? b | None => false end.
Definition date_gt (a : Date) (b : option Date) : bool :=
  match b with Some b => b <? a | None => false end.

(** The instant of a wall-clock time "HH:MM" on the day of [day]:
    [t = new Date(day); p = time.split(':'); t.setHours(p[0], p[1], 0, 0)].
    A missing part is [undefined], which converts to NaN. *)
Definition atTime (day : Date) (time : string) : option Date :=
  let p := split time in
  setHours day (nth_error p 0 ≫= Number) (nth_error p 1 ≫= Number).


(** ** Strings: the schema's setters and matchers *)

Definition isSpace (c : ascii) : bool :=
  let n := nat_of_ascii c in
  (Nat.eqb n 32 || ((9 <=? n)%nat && (n <=? 13)%nat))%bool.

Fixpoint trimStart (s : string) : string :=
  match s with
  | String c r => if isSpace c then trimStart r else s
  | EmptyString => EmptyString
  end.

Fixpoint rev_string (acc s : string) : string :=
  match s with
  | EmptyString => acc
  | String c r => rev_string (String c acc) r
  end.

(** [s.trim()] (ASCII white space) *)
Definition trim (s : string) : string :=
  rev_string EmptyString (trimStart (rev_string EmptyString (trimStart s))).

Definition upper (c : ascii) : ascii :=
  let n := nat_of_ascii c in
  if ((97 <=? n) && (n <=? 122))%nat then ascii_of_nat (n - 32) else c.

(** [s.toUpperCase()] (ASCII letters) *)
Fixpoint toUpperCase (s : string) : string :=
  match s with
  | EmptyString => EmptyString
  | String c r => String (upper c) (toUpperCase r)
  end.

Definition inRange (lo hi c : ascii) : bool :=
  ((nat_of_ascii lo <=? nat_of_ascii c) && (nat_of_ascii c <=? nat_of_ascii hi))%nat.

(** The regular expression [/^([0-1]?[0-9]|2[0-3]):[0-5][0-9]$/] of the
    [startTime] and [endTime] paths: one or two characters for the hour, a
    colon and two for the minutes. *)
Definition matchesHHMM (s : string) : bool :=
  match s with
  | String h (String c (String m1 (String m2 EmptyString))) =>
      inRange "0" "9" h && Ascii.eqb c ":" && inRange "0" "5" m1 && inRange "0" "9" m2
  | String h1 (String h2 (String c (String m1 (String m2 EmptyString)))) =>
      ((inRange "0" "1" h1 && inRange "0" "9" h2)
       || (Ascii.eqb h1 "2" && inRange "0" "3" h2))
      && Ascii.eqb c ":" && inRange "0" "5" m1 && inRange "0" "9" m2
  | _ => false
  end.

(** ** Documents

    The values of a document as it sits in its collection are a record [t];
    the object the program holds is a [Document t], which carries the
    [_id]. *)

Record Document (T : Type) := mkDocument {
  _id : ObjectId;
  isNew : bool;   (* not yet inserted *)
  loaded : T;     (* the values when it was loaded or last saved *)
  this : T        (* the values now *)
}.
Arguments mkDocument {T}.
Arguments _id {T}.
Arguments isNew {T}.
Arguments loaded {T}.
Arguments this {T}.

(** [new Model(values)] and a document read from the collection *)
Definition fresh {T} (id : ObjectId) (v : T) : Document T := mkDocument id true v v.
Definition hydrate {T} (id : ObjectId) (v : T) : Document T := mkDocument id false v v.
(** an assignment [doc.path = ...] *)
Definition assign {T} (f : T -> T) (d : Document T) : Document T :=
  mkDocument (_id d) (isNew d) (loaded d) (f (this d)).

(** What [save] writes for a path of a loaded document: the path is sent
    only when its value differs from the loaded one, so a path the program
    left alone keeps what is stored. *)
Definition delta {A} `{EqDecision A} (was now stored : A) : A :=
  if decide (now = was) then stored else now.

(** A validation failure of a path: the path and the schema's message *)
Definition PathError : Type := string * string.

Fixpoint joinErrors (es : list PathError) : string :=
  match es with
  | [] => EmptyString
  | [(p, m)] => p ++ ": " ++ m
  | (p, m) :: r => p ++ ": " ++ m ++ ", " ++ joinErrors r
  end.

(** Mongoose's [ValidationError] of a model *)
Definition ValidationError (model : string) (es : list PathError) : JSError :=
  {| name := "ValidationError"; code := None;
     message := model ++ " validation failed: " ++ joinErrors es |}.

(** The driver's duplicate-key error (its code is 11000); the message names
    the collection and the index, the real one also prints the database
    name and the key *)
Definition DuplicateKeyError (collection index : string) : JSError :=
  {| name := "MongoServerError"; code := Some 11000;
     message := "E11000 duplicate key error collection: " ++ collection
                ++ " index: " ++ index |}.

(** Mongoose's error for saving a loaded document that is no longer stored
    (the real message also prints the query) *)
Definition DocumentNotFoundError (model : string) : JSError :=
  {| name := "DocumentNotFoundError"; code := None;
     message := "No document found for query on model " ++ model |}.

(** [s] between double quotes *)
Definition quoted (s : string) : string :=
  String "034" (s ++ String "034" EmptyString).

(** Mongoose's [CastError] for a string a path of type Number cannot take *)
Definition CastError (value path model : string) : JSError :=
  {| name := "CastError"; code := None;
     message := "Cast to Number failed for value " ++ quoted value
                ++ " (type string) at path " ++ quoted path
                ++ " for model " ++ quoted model |}.

Definition required (path msg value : string) : list PathError :=
  if String.eqb value EmptyString then [(path, msg)] else [].

Definition check (ok : bool) (path msg : string) : list PathError :=
  if ok then [] else [(path, msg)].

(** *** models/Lecture.js *)

Module Lecture.

Inductive Status := scheduled | ongoing | completed | cancelled.
#[global] Instance Status_eq_dec : EqDecision Status.
Proof. solve_decision. Defined.

Record t := mk {
  lecturerId : ObjectId;
  lecturerName : string;
  unitName : string;
  unitCode : string;
  date : Date;
  startTime : string;
  endTime : string;
  venue : string;
  qrCodeId : option ObjectId;
  status : Status;
  attendanceCount : Z;
  totalStudents : Z;
  description : string;
  isActive : bool
}.

(** The object a caller passes to [new Lecture(...)]; [status] is the one
    path with a default that callers may leave out. *)
Record Data := mkData {
  d_lecturerId : ObjectId;
  d_lecturerName : string;
  d_unitName : string;
  d_unitCode : string;
  d_date : Date;
  d_startTime : string;
  d_endTime : string;
  d_venue : string;
  d_totalStudents : Z;
  d_description : string;
  d_status : option Status
}.

(** [new Lecture(data)]: setters ([trim], [uppercase]) and defaults *)
Definition new (id : ObjectId) (d : Data) : Document t :=
  fresh id
        {| lecturerId := d_lecturerId d;
           lecturerName := d_lecturerName d;
           unitName := trim (d_unitName d);
           unitCode := trim (toUpperCase (d_unitCode d));
           date := d_date d;
           startTime := d_startTime d;
           endTime := d_endTime d;
           venue := trim (d_venue d);
           qrCodeId := None;
           status := default scheduled (d_status d);
           attendanceCount := 0;
           totalStudents := d_totalStudents d;
           description := d_description d;
           isActive := true |}.

(** The [match] validator lets the empty string through ([required]
    catches it). *)
Definition matchTime (s : string) : bool :=
  if String.eqb s EmptyString then true else matchesHHMM s.

Definition validate (l : t) : list PathError :=
  required "lecturerName" "Lecturer name is required" (lecturerName l)
  ++ required "unitName" "Unit name is required" (unitName l)
  ++ required "unitCode" "Unit code is required" (unitCode l)
  ++ required "startTime" "Start time is required" (startTime l)
  ++ check (matchTime (startTime l)) "startTime" "Please provide valid time format (HH:MM)"
  ++ required "endTime" "End time is required" (endTime l)
  ++ check (matchTime (endTime l)) "endTime" "Please provide valid time format (HH:MM)"
  ++ required "venue" "Venue is required" (venue l)
  ++ check (0 <=? attendanceCount l) "attendanceCount"
       "Path `attendanceCount` is less than minimum allowed value (0)."
  ++ check (0 <=? totalStudents l) "totalStudents"
       "Path `totalStudents` is less than minimum allowed value (0)."
  ++ check (Nat.leb (String.length (description l)) 500) "description"
       "Description cannot exceed 500 characters".

(** What [new Lecture(data)] keeps for the path [date] when [data.date] is
    an Invalid Date: the cast to the Date path fails, the path stays unset
    and the failure is reported by the validation, before those of the
    validators. *)
Definition invalidDate : PathError :=
  ("date", "Cast to date failed for value " ++ quoted "Invalid Date"
           ++ " (type Date) at path " ++ quoted "date").

(** the stored values after a save of a loaded document *)
Definition merge (was now stored : t) : t :=
  {| lecturerId := delta (lecturerId was) (lecturerId now) (lecturerId stored);
     lecturerName := delta (lecturerName was) (lecturerName now) (lecturerName stored);
     unitName := delta (unitName was) (unitName now) (unitName stored);
     unitCode := delta (unitCode was) (unitCode now) (unitCode stored);
     date := delta (date was) (date now) (date stored);
     startTime := delta (startTime was) (startTime now) (startTime stored);
     endTime := delta (endTime was) (endTime now) (endTime stored);
     venue := delta (venue was) (venue now) (venue stored);
     qrCodeId := delta (qrCodeId was) (qrCodeId now) (qrCodeId stored);
     status := delta (status was) (status now) (status stored);
     attendanceCount := delta (attendanceCount was) (attendanceCount now) (attendanceCount stored);
     totalStudents := delta (totalStudents was) (totalStudents now) (totalStudents stored);
     description := delta (description was) (description now) (description stored);
     isActive := delta (isActive was) (isActive now) (isActive stored) |}.

Definition lectureStart (l : t) : option Date := atTime (date l) (startTime l).
Definition lectureEnd (l : t) : option Date := atTime (date l) (endTime l).

End Lecture.

(** *** models/QRCode.js *)

Module QRCodeModel.

Record t := mk {
  lectureId : ObjectId;
  uniqueCode : string;
  qrCodeImage : string;
  expiresAt : Date;
  isActive : bool;
  scanCount : Z;
  maxScans : Z
}.

(** [new QRCodeModel({lectureId, uniqueCode, qrCodeImage, expiresAt,
    maxScans})]: [isActive] and [scanCount] take their defaults *)
Definition new (id lecture : ObjectId) (code image : string)
    (expires : Date) (max : Z) : Document t :=
  fresh id
        {| lectureId := lecture; uniqueCode := code;
           qrCodeImage := image; expiresAt := expires;
           isActive := true; scanCount := 0; maxScans := max |}.

Definition validate (q : t) : list PathError :=
  required "uniqueCode" "Unique code is required" (uniqueCode q)
  ++ required "qrCodeImage" "QR code image is required" (qrCodeImage q)
  ++ check (0 <=? scanCount q) "scanCount"
       "Path `scanCount` is less than minimum allowed value (0)."
  ++ check (1 <=? maxScans q) "maxScans"
       "Path `maxScans` is less than minimum allowed value (1).".

Definition merge (was now stored : t) : t :=
  {| lectureId := delta (lectureId was) (lectureId now) (lectureId stored);
     uniqueCode := delta (uniqueCode was) (uniqueCode now) (uniqueCode stored);
     qrCodeImage := delta (qrCodeImage was) (qrCodeImage now) (qrCodeImage stored);
     expiresAt := delta (expiresAt was) (expiresAt now) (expiresAt stored);
     isActive := delta (isActive was) (isActive now) (isActive stored);
     scanCount := delta (scanCount was) (scanCount now) (scanCount stored);
     maxScans := delta (maxScans was) (maxScans now) (maxScans stored) |}.

(** The operand of a comparison as the program wrote it, before the
    schema casts it to the type of the path. *)
Inductive Operand :=
| ONumber (n : Z)
| OString (s : string).

(** The conditions of a filter on this collection.  In a filter a string
    is a string, also when it starts with a dollar sign: a reference to
    another field of the document exists only under [$expr]. *)
Inductive Condition :=
| uniqueCode_eq (s : string)
| isActive_eq (b : bool)
| expiresAt_gt (d : Date)
| scanCount_lt (v : Operand).

Definition Filter : Type := list Condition.

(** Mongoose casts the operand of a Number path: the empty string becomes
    [null], any other string goes through [Number(...)], and NaN is
    refused. *)
Inductive Cast :=
| CastTo (n : Z)
| CastNull
| CastFails.

Definition castNumber (v : Operand) : Cast :=
  match v with
  | ONumber n => CastTo n
  | OString EmptyString => CastNull
  | OString s =>
      match Number s with
      | Some n => CastTo n
      | None => CastFails
      end
  end.

Definition operandText (v : Operand) : string :=
  match v with
  | ONumber _ => EmptyString
  | OString s => s
  end.

(** The first operand of the filter that its path cannot take *)
Fixpoint castFilter (f : Filter) : option JSError :=
  match f with
  | [] => None
  | scanCount_lt v :: r =>
      match castNumber v with
      | CastFails => Some (CastError (operandText v) "scanCount" "QRCode")
      | _ => castFilter r
      end
  | _ :: r => castFilter r
  end.

(** Whether a document satisfies a condition of a filter that casts; no
    number is less than [null]. *)
Definition holds (q : t) (c : Condition) : bool :=
  match c with
  | uniqueCode_eq s => String.eqb (uniqueCode q) s
  | isActive_eq b => Bool.eqb (isActive q) b
  | expiresAt_gt d => d <? expiresAt q
  | scanCount_lt v =>
      match castNumber v with
      | CastTo n => scanCount q <? n
      | _ => false
      end
  end.

Definition matches (f : Filter) (q : t) : bool := forallb (holds q) f.

End QRCodeModel.

(** *** models/Attendance.js *)

Module Attendance.

Inductive Status := present | late | absent | excused.
#[global] Instance Status_eq_dec : EqDecision Status.
Proof. solve_decision. Defined.

Record DeviceInfo := mkDeviceInfo {
  browser : option string;
  os : option string;
  device : option string;
  userAgent : option string;
  ip : option string
}.
#[global] Instance DeviceInfo_eq_dec : EqDecision DeviceInfo.
Proof. solve_decision. Defined.

Definition noDevice : DeviceInfo := mkDeviceInfo None None None None None.

Record t := mk {
  studentId : ObjectId;
  lectureId : ObjectId;
  qrCodeId : ObjectId;
  scanTime : Date;
  status : Status;
  deviceInfo : DeviceInfo;
  isVerified : bool;
  notes : option string
}.

(** [new Attendance({studentId, lectureId, qrCodeId, deviceInfo,
    scanTime})]: [status] defaults to ['present'], [isVerified] to [true] *)
Definition new (id student lecture qr : ObjectId) (dev : DeviceInfo)
    (time : Date) : Document t :=
  fresh id
        {| studentId := student; lectureId := lecture;
           qrCodeId := qr; scanTime := time; status := present;
           deviceInfo := dev; isVerified := true; notes := None |}.

Definition validate (a : t) : list PathError :=
  check (Nat.leb (String.length (default EmptyString (notes a))) 200) "notes"
    "Notes cannot exceed 200 characters".

Definition merge (was now stored : t) : t :=
  {| studentId := delta (studentId was) (studentId now) (studentId stored);
     lectureId := delta (lectureId was) (lectureId now) (lectureId stored);
     qrCodeId := delta (qrCodeId was) (qrCodeId now) (qrCodeId stored);
     scanTime := delta (scanTime was) (scanTime now) (scanTime stored);
     status := delta (status was) (status now) (status stored);
     deviceInfo := delta (deviceInfo was) (deviceInfo now) (deviceInfo stored);
     isVerified := delta (isVerified was) (isVerified now) (isVerified stored);
     notes := delta (notes was) (notes now) (notes stored) |}.

(** The status the pre-save hook computes from the scan time and the
    lecture's start and end: later than the end is absent, later than
    fifteen minutes after the start is late, anything else present. *)
Definition classify (scan : Date) (lectureStart lectureEnd : option Date) : Status :=
  let lateThreshold := addMs lectureStart (15 * msPerMinute) in
  if date_gt scan lectureEnd then absent
  else if date_gt scan lateThreshold then late
  else present.

End Attendance.

(** ** The database and the monad of asynchronous functions *)

Record DB := mkDB {
  lectures : gmap ObjectId Lecture.t;
  qrcodes : gmap ObjectId QRCodeModel.t;
  attendances : gmap ObjectId Attendance.t
}.

(** the database with one document written *)
Definition withLecture (db : DB) (id : ObjectId) (l : Lecture.t) : DB :=
  mkDB (<[id := l]> (lectures db)) (qrcodes db) (attendances db).
Definition withQRCode (db : DB) (id : ObjectId) (q : QRCodeModel.t) : DB :=
  mkDB (lectures db) (<[id := q]> (qrcodes db)) (attendances db).
Definition withAttendance (db : DB) (id : ObjectId) (a : Attendance.t) : DB :=
  mkDB (lectures db) (qrcodes db) (<[id := a]> (attendances db)).

Definition M (A : Type) : Type := DB -> Outcome A * DB.

Definition ret {A} (a : A) : M A := fun db => (Return a, db).
Definition throw {A} (e : JSError) : M A := fun db => (Throw e, db).

Definition bind {A B} (m : M A) (k : A -> M B) : M B :=
  fun db =>
    match m db with
    | (Return a, db') => k a db'
    | (Throw e, db') => (Throw e, db')
    end.

(** [try { m } catch (error) { h error }] *)
Definition try_catch {A} (m : M A) (h : JSError -> M A) : M A :=
  fun db =>
    match m db with
    | (Return a, db') => (Return a, db')
    | (Throw e, db') => h e db'
    end.

Notation "'let*' x ':=' c 'in' k" := (bind c (fun x => k))
  (at level 10, x name, c at level 100, k at level 200).
Notation "c ';;' k" := (bind c (fun _ => k))
  (at level 100, k at level 200, right associativity).

Definition get : M DB := fun db => (Return db, db).
Definition put (db : DB) : M unit := fun _ => (Return tt, db).

(** the first document of a collection that satisfies [p] *)
Definition findFirst {T} (p : T -> bool) (m : gmap ObjectId T) : option (Document T) :=
  (fun kv => hydrate (fst kv) (snd kv)) <$> List.find (fun kv => p (snd kv)) (map_to_list m).

(** [if (errors) throw new ValidationError(...)] *)
Definition validated (model : string) (es : list PathError) : M unit :=
  match es with
  | [] => ret tt
  | _ => throw (ValidationError model es)
  end.

#[global] Instance Lecture_eq_dec : EqDecision Lecture.t.
Proof. solve_decision. Defined.
#[global] Instance QRCode_eq_dec : EqDecision QRCodeModel.t.
Proof. solve_decision. Defined.
#[global] Instance Attendance_eq_dec : EqDecision Attendance.t.
Proof. solve_decision. Defined.

(** *** Lecture: [findById] and [save] *)

Definition Lecture_findById (id : ObjectId) : M (option (Document Lecture.t)) :=
  let* db := get in
  ret (hydrate id <$> lectures db !! id).

Definition Lecture_save (d : Document Lecture.t) : M (Document Lecture.t) :=
  validated "Lecture" (Lecture.validate (this d));;
  let* db := get in
  let id := _id d in
  if isNew d then
    match lectures db !! id with
    | Some _ => throw (DuplicateKeyError "lectures" "_id_")
    | None =>
        put (withLecture db id (this d));;
        ret (hydrate id (this d))
    end
  else if decide (this d = loaded d) then ret d
  else
    match lectures db !! id with
    | None => throw (DocumentNotFoundError "Lecture")
    | Some stored =>
        put (withLecture db id (Lecture.merge (loaded d) (this d) stored));;
        ret (hydrate id (this d))
    end.

(** *** QRCode: [findOne], [findById] and [save]

    [findOne] casts the filter first; a filter that does not cast rejects
    with the [CastError] and the collection is not read. *)

Definition QRCodeModel_findOne (f : QRCodeModel.Filter) : M (option (Document QRCodeModel.t)) :=
  match QRCodeModel.castFilter f with
  | Some e => throw e
  | None =>
      let* db := get in
      ret (findFirst (QRCodeModel.matches f) (qrcodes db))
  end.

Definition QRCodeModel_findById (id : ObjectId) : M (option (Document QRCodeModel.t)) :=
  let* db := get in
  ret (hydrate id <$> qrcodes db !! id).

Definition QRCodeModel_save (d : Document QRCodeModel.t) : M (Document QRCodeModel.t) :=
  validated "QRCode" (QRCodeModel.validate (this d));;
  let* db := get in
  let id := _id d in
  if isNew d then
    match qrcodes db !! id with
    | Some _ => throw (DuplicateKeyError "qrcodes" "_id_")
    | None =>
        match findFirst (fun q => String.eqb (QRCodeModel.uniqueCode q)
                                    (QRCodeModel.uniqueCode (this d))) (qrcodes db) with
        | Some _ => throw (DuplicateKeyError "qrcodes" "uniqueCode_1")
        | None =>
            put (withQRCode db id (this d));;
            ret (hydrate id (this d))
        end
    end
  else if decide (this d = loaded d) then ret d
  else
    match qrcodes db !! id with
    | None => throw (DocumentNotFoundError "QRCode")
    | Some stored =>
        put (withQRCode db id (QRCodeModel.merge (loaded d) (this d) stored));;
        ret (hydrate id (this d))
    end.

(** *** Attendance: [findOne], [findById], the pre-save hook and [save] *)

Definition samePair (student lecture : ObjectId) (a : Attendance.t) : bool :=
  N.eqb (Attendance.studentId a) student && N.eqb (Attendance.lectureId a) lecture.

(** [Attendance.findOne({ studentId, lectureId })] *)
Definition Attendance_findOne (student lecture : ObjectId) : M (option (Document Attendance.t)) :=
  let* db := get in
  ret (findFirst (samePair student lecture) (attendances db)).

Definition Attendance_findById (id : ObjectId) : M (option (Document Attendance.t)) :=
  let* db := get in
  ret (hydrate id <$> attendances db !! id).

Definition setStatus (s : Attendance.Status) (a : Attendance.t) : Attendance.t :=
  Attendance.mk (Attendance.studentId a) (Attendance.lectureId a)
    (Attendance.qrCodeId a) (Attendance.scanTime a) s (Attendance.deviceInfo a)
    (Attendance.isVerified a) (Attendance.notes a).

(** [AttendanceSchema.pre('save', ...)].  [findById] is the lookup the hook
    makes, [mongoose.model('Lecture').findById]; an exception inside the
    [try] is logged and dropped, and [next()] is called in every case. *)
Definition Attendance_preSaveWith
    (findById : ObjectId -> M (option (Document Lecture.t)))
    (d : Document Attendance.t) : M (Document Attendance.t) :=
  if isNew d then
    try_catch
      (let* lecture := findById (Attendance.lectureId (this d)) in
       match lecture with
       | Some lecture =>
           ret (assign (setStatus
                  (Attendance.classify (Attendance.scanTime (this d))
                     (Lecture.lectureStart (this lecture))
                     (Lecture.lectureEnd (this lecture)))) d)
       | None => ret d
       end)
      (fun _ => ret d)
  else ret d.

(** the write of [save], after validation and the hook *)
Definition Attendance_write (d : Document Attendance.t) : M (Document Attendance.t) :=
  let* db := get in
  let id := _id d in
  if isNew d then
    match attendances db !! id with
    | Some _ => throw (DuplicateKeyError "attendances" "_id_")
    | None =>
        match findFirst (samePair (Attendance.studentId (this d))
                                  (Attendance.lectureId (this d))) (attendances db) with
        | Some _ => throw (DuplicateKeyError "attendances" "studentId_1_lectureId_1")
        | None =>
            put (withAttendance db id (this d));;
            ret (hydrate id (this d))
        end
    end
  else if decide (this d = loaded d) then ret d
  else
    match attendances db !! id with
    | None => throw (DocumentNotFoundError "Attendance")
    | Some stored =>
        put (withAttendance db id (Attendance.merge (loaded d) (this d) stored));;
        ret (hydrate id (this d))
    end.

Definition Attendance_saveWith
    (findById : ObjectId -> M (option (Document Lecture.t)))
    (d : Document Attendance.t) : M (Document Attendance.t) :=
  validated "Attendance" (Attendance.validate (this d));;
  let* d' := Attendance_preSaveWith findById d in
  Attendance_write d'.

Definition Attendance_save : Document Attendance.t -> M (Document Attendance.t) :=
  Attendance_saveWith Lecture_findById.

(** ** services/qrCodeService.js *)

Module QRCodeService.

(** What the environment supplies to an issuance: the ObjectIds of the
    two new documents, the UUID and the rendered image. *)
Record Issue := mkIssue {
  lectureOid : ObjectId;
  qrOid : ObjectId;
  uuid : string;
  image : string
}.

Record Generated := mkGenerated {
  g_lectureId : ObjectId;
  g_qrCodeId : ObjectId;
  g_qrCodeImage : string;
  g_uniqueCode : string;
  g_expiresAt : Date;
  g_lecture : Lecture.t
}.

(** [generateQRCode(lectureData, durationMinutes)] at the instant [now] *)
Definition generateQRCode (env : Issue) (now : Date)
    (lectureData : Lecture.Data) (durationMinutes : Z) : M Generated :=
  try_catch
    (let* lecture := Lecture_save (Lecture.new (lectureOid env) lectureData) in
     let uniqueCode := uuid env in
     let expiresAt := now + durationMinutes * msPerMinute in
     let qrCodeImage := image env in
     let total := Lecture.totalStudents (this lecture) in
     let* qrCode :=
       QRCodeModel_save (QRCodeModel.new (qrOid env) (_id lecture)
                      uniqueCode qrCodeImage expiresAt
                      (if total =? 0 then 100 else total)) in
     let lecture :=
       assign (fun l => Lecture.mk (Lecture.lecturerId l)
                 (Lecture.lecturerName l) (Lecture.unitName l) (Lecture.unitCode l)
                 (Lecture.date l) (Lecture.startTime l) (Lecture.endTime l)
                 (Lecture.venue l) (Some (_id qrCode))
                 (Lecture.status l) (Lecture.attendanceCount l)
                 (Lecture.totalStudents l) (Lecture.description l)
                 (Lecture.isActive l)) lecture in
     let* lecture := Lecture_save lecture in
     ret {| g_lectureId := _id lecture;
            g_qrCodeId := _id qrCode;
            g_qrCodeImage := qrCodeImage;
            g_uniqueCode := uniqueCode;
            g_expiresAt := expiresAt;
            g_lecture := this lecture |})
    (fun error => throw (Error ("Failed to generate QR code: " ++ message error))).

(** [generateQRCode(lectureData, durationMinutes)] on lecture data whose
    [date] is an Invalid Date, a value [Lecture.Data] has no place for;
    [lectureData] gives the other paths.  The first [lecture.save()]
    rejects with the ValidationError of the document, the failed cast of
    [date] in front, before anything is written, and the catch rethrows
    it as it rethrows every error. *)
Definition generateQRCodeInvalidDate (env : Issue) (lectureData : Lecture.Data)
    : M Generated :=
  try_catch
    (let lecture := Lecture.new (lectureOid env) lectureData in
     throw (ValidationError "Lecture"
              (Lecture.invalidDate :: Lecture.validate (this lecture))))
    (fun error => throw (Error ("Failed to generate QR code: " ++ message error))).

(** The result of a validation: [{ valid: false, message }] or
    [{ valid: true, qrCode, lecture }] *)
Inductive Validation :=
| Invalid (msg : string)
| Valid (qrCode : Document QRCodeModel.t) (lecture : Document Lecture.t).

Definition msgExhausted : string :=
  "QR code is invalid, expired, or has reached maximum scans".
Definition msgNoLecture : string := "Lecture is not available".
Definition msgAlready : string := "Attendance already marked for this lecture".
Definition msgWindow : string :=
  "QR code can only be scanned during lecture time (±30 minutes)".

(** The filter of the lookup, as written:
    [{ uniqueCode: code, isActive: true, expiresAt: { $gt: new Date() },
       scanCount: { $lt: '$maxScans' } }] *)
Definition activeCode (code : string) (now : Date) : QRCodeModel.Filter :=
  [ QRCodeModel.uniqueCode_eq code;
    QRCodeModel.isActive_eq true;
    QRCodeModel.expiresAt_gt now;
    QRCodeModel.scanCount_lt (QRCodeModel.OString "$maxScans") ].

(** "Check lecture time": scanning is allowed from 30 minutes before the
    start to 15 minutes after the end *)
Definition outsideScanWindow (now : Date) (lecture : Lecture.t) : bool :=
  let scanStart := addMs (Lecture.lectureStart lecture) (- (30 * msPerMinute)) in
  let scanEnd := addMs (Lecture.lectureEnd lecture) (15 * msPerMinute) in
  date_lt now scanStart || date_gt now scanEnd.

(** The rest of the body of [validateQRCode], from the test of
    [qrCode.lectureId] on: what the function goes on to do with a document
    [findOne] has returned, [lecture] being what [populate('lectureId')]
    put in its place.  It is a part of [validateQRCode] and has no caller
    of its own; with the filter [activeCode] the lookup returns no
    document, so [validateQRCode] does not come to it. *)
Definition checkFound (studentId : ObjectId) (now : Date)
    (qrCode : Document QRCodeModel.t) (lecture : option (Document Lecture.t))
    : M Validation :=
  match lecture with
  | None => ret (Invalid msgNoLecture)
  | Some lecture =>
      if negb (Lecture.isActive (this lecture)) then ret (Invalid msgNoLecture)
      else
        let* existingAttendance :=
          Attendance_findOne studentId (_id lecture) in
        match existingAttendance with
        | Some _ => ret (Invalid msgAlready)
        | None =>
            if outsideScanWindow now (this lecture) then ret (Invalid msgWindow)
            else ret (Valid qrCode lecture)
        end
  end.

(** [validateQRCode(code, studentId)] at the instant [now] *)
Definition validateQRCode (code : string) (studentId : ObjectId) (now : Date)
    : M Validation :=
  try_catch
    (let* qrCode := QRCodeModel_findOne (activeCode code now) in
     match qrCode with
     | None => ret (Invalid msgExhausted)
     | Some qrCode =>
         let* lecture := Lecture_findById (QRCodeModel.lectureId (this qrCode)) in
         checkFound studentId now qrCode lecture
     end)
    (fun error => throw (Error ("QR code validation failed: " ++ message error))).

Record Recorded := mkRecorded {
  r_attendanceId : ObjectId;
  r_lectureId : ObjectId;
  r_scanTime : Date;
  r_status : Attendance.Status
}.

(** [qrCode.scanCount += 1; if (qrCode.scanCount >= qrCode.maxScans)
    qrCode.isActive = false] *)
Definition countScan (q : QRCodeModel.t) : QRCodeModel.t :=
  let n := QRCodeModel.scanCount q + 1 in
  QRCodeModel.mk (QRCodeModel.lectureId q)
    (QRCodeModel.uniqueCode q) (QRCodeModel.qrCodeImage q) (QRCodeModel.expiresAt q)
    (if QRCodeModel.maxScans q <=? n then false else QRCodeModel.isActive q)
    n (QRCodeModel.maxScans q).

(** [lecture.attendanceCount += 1] *)
Definition countAttendance (l : Lecture.t) : Lecture.t :=
  Lecture.mk (Lecture.lecturerId l) (Lecture.lecturerName l)
    (Lecture.unitName l) (Lecture.unitCode l) (Lecture.date l) (Lecture.startTime l)
    (Lecture.endTime l) (Lecture.venue l) (Lecture.qrCodeId l) (Lecture.status l)
    (Lecture.attendanceCount l + 1) (Lecture.totalStudents l)
    (Lecture.description l) (Lecture.isActive l).

(** [recordAttendance(validationResult, studentId, deviceInfo)] at the
    instant [now]; [oid] is the ObjectId of the new entry.  A result
    without [qrCode] and [lecture] makes [lecture._id] a TypeError. *)
Definition recordAttendance (oid : ObjectId) (now : Date)
    (validationResult : Validation) (studentId : ObjectId)
    (deviceInfo : Attendance.DeviceInfo) : M Recorded :=
  try_catch
    (match validationResult with
     | Invalid _ =>
         throw (mkError "TypeError" None
                  "Cannot read properties of undefined (reading '_id')")
     | Valid qrCode lecture =>
         let attendance :=
           Attendance.new oid studentId (_id lecture) (_id qrCode) deviceInfo now in
         let* attendance := Attendance_save attendance in
         QRCodeModel_save (assign countScan qrCode);;
         Lecture_save (assign countAttendance lecture);;
         ret {| r_attendanceId := _id attendance;
                r_lectureId := _id lecture;
                r_scanTime := Attendance.scanTime (this attendance);
                r_status := Attendance.status (this attendance) |}
     end)
    (fun error => throw (Error ("Failed to record attendance: " ++ message error))).

(** [qrCode.isActive = false; qrCode.expiresAt = new Date()] *)
Definition expireNow (now : Date) (q : QRCodeModel.t) : QRCodeModel.t :=
  QRCodeModel.mk (QRCodeModel.lectureId q)
    (QRCodeModel.uniqueCode q) (QRCodeModel.qrCodeImage q) now false
    (QRCodeModel.scanCount q) (QRCodeModel.maxScans q).

(** [deactivateQRCode(qrCodeId)] at the instant [now] *)
Definition deactivateQRCode (qrCodeId : ObjectId) (now : Date) : M bool :=
  try_catch
    (let* qrCode := QRCodeModel_findById qrCodeId in
     match qrCode with
     | None => throw (Error "QR code not found")
     | Some qrCode =>
         QRCodeModel_save (assign (expireNow now) qrCode);;
         ret true
     end)
    (fun error => throw (Error ("Failed to deactivate QR code: " ++ message error))).

End QRCodeService.

(** ** Route handlers *)

(** The JSON body of a response: [{ success: true, message, data }],
    [{ success: false, error }] or [{ success: false, errors: [...] }] *)
Inductive Body (A : Type) : Type :=
| Success (msg : string) (data : A)
| Failure (error : string)
| Rejected (errors : list PathError).
Arguments Success {A} msg data.
Arguments Failure {A} error.
Arguments Rejected {A} errors.

Record Response (A : Type) := mkResponse {
  statusCode : Z;
  body : Body A
}.
Arguments mkResponse {A}.
Arguments statusCode {A}.
Arguments body {A}.

(** [req.user] *)
Record User := mkUser {
  user_id : ObjectId;
  user_name : string
}.

(** ** Routes as Express runs them *)

Module Express.

(** What a middleware does with a request: it answers it, it calls
    [next()], or it returns having done neither. *)
Inductive Step (A : Type) : Type :=
| Respond (r : Response A)
| Next
| Neither.
Arguments Respond {A} r.
Arguments Next {A}.
Arguments Neither {A}.

(** What becomes of the request: it is answered, or it is left without an
    answer (Express sends nothing on its own, the connection stays open). *)
Inductive Reply (A : Type) : Type :=
| Answered (r : Response A)
| NoAnswer.
Arguments Answered {A} r.
Arguments NoAnswer {A}.

(** [router.METHOD(path, m1, ..., mn, handler)]: the functions are called
    in order, each one only when the one before it has called [next()]. *)
Fixpoint route {A} (middlewares : list (M (Step A))) (handler : M (Response A))
    : M (Reply A) :=
  match middlewares with
  | [] => let* r := handler in ret (Answered r)
  | m :: rest =>
      let* s := m in
      match s with
      | Respond r => ret (Answered r)
      | Next => route rest handler
      | Neither => ret NoAnswer
      end
  end.

(** An array of express-validator chains in the place of a middleware:
    each chain runs its rule on the request, keeps what it finds in the
    request and calls [next()]. *)
Definition chains {A} : M (Step A) := ret Next.

(** [validate(validations)] ([middleware/validation]): the middleware that
    runs the rules and answers 400 with their failures, or calls [next()]
    when there is none; [errors] is what the rules find in the request. *)
Definition validate {A} (errors : list PathError) : M (Step A) :=
  match errors with
  | [] => ret Next
  | (_ :: _) as errors => ret (Respond (mkResponse 400 (Rejected errors)))
  end.

(** [validate] itself in the place of a middleware, where no
    [validate(rules)] is written: Express calls [validate(req, res, next)].
    The call takes [req] for [validations], builds the inner function and
    returns it, and Express drops what a middleware returns.  The inner
    function is not run: no rule is looked at, [next] is not called and
    [res] is not used. *)
Definition validateUncalled {A} : M (Step A) := ret Neither.

End Express.

Module Student.

(** A request to [POST /api/student/scan] with what the environment
    supplies while it is served: the instants of the two calls and the
    ObjectId of the entry. *)
Record ScanRequest := mkScan {
  code : string;
  user : User;
  deviceInfo : Attendance.DeviceInfo;
  validatedAt : Date;
  recordedAt : Date;
  entryOid : ObjectId
}.

(** The handler of [POST /api/student/scan]: the function that is the last
    argument of [router.post('/scan', ...)].  The route that mounts it is
    [postScan]. *)
Definition scan (req : ScanRequest) : M (Response QRCodeService.Recorded) :=
  try_catch
    (let* validation :=
       QRCodeService.validateQRCode (code req) (user_id (user req)) (validatedAt req) in
     match validation with
     | QRCodeService.Invalid msg => ret (mkResponse 400 (Failure msg))
     | QRCodeService.Valid _ _ =>
         let* result :=
           QRCodeService.recordAttendance (entryOid req) (recordedAt req) validation
             (user_id (user req)) (deviceInfo req) in
         ret (mkResponse 200 (Success "Attendance marked successfully" result))
     end)
    (fun error => ret (mkResponse 400 (Failure (message error)))).

(** [POST /api/student/scan] as it is mounted: the array of the two rules,
    then [validate] (not [validate(rules)]), then the handler. *)
Definition postScan (req : ScanRequest) : M (Express.Reply QRCodeService.Recorded) :=
  Express.route [Express.chains; Express.validateUncalled] (scan req).

(** a run of scan requests served by the handler, one after the other *)
Fixpoint scans (reqs : list ScanRequest) (db : DB) : DB :=
  match reqs with
  | [] => db
  | r :: rest => scans rest (snd (scan r db))
  end.

End Student.

Module Lecturer.

(** What the route reads of the text of [date]: whether [isISO8601]
    accepts it, and the value of [new Date(text)], [None] for an Invalid
    Date.  Neither follows from the other: the week date '2024-W40-5' is
    ISO 8601 and [new Date] does not parse it. *)
Record DateText := mkDateText {
  isISO8601 : bool;
  parsed : option Date
}.

(** The body of [POST /api/lecturer/generate-qr].  A string that is
    missing is the empty string. *)
Record GenerateBody := mkGenerateBody {
  unitName : string;
  unitCode : string;
  date : DateText;
  startTime : string;
  endTime : string;
  venue : string;
  totalStudents : option Z;
  description : option string;
  duration : option Z
}.

Definition inOpt (lo : Z) (hi : option Z) (v : option Z) : bool :=
  match v with
  | None => true
  | Some n => (lo <=? n) && match hi with Some h => n <=? h | None => true end
  end.

(** [generateQRValidation], run by the [validate] middleware *)
Definition generateQRValidation (b : GenerateBody) : list PathError :=
  check (negb (String.eqb (trim (unitName b)) EmptyString)) "unitName" "Unit name is required"
  ++ check (negb (String.eqb (trim (unitCode b)) EmptyString)) "unitCode" "Unit code is required"
  ++ check (isISO8601 (date b)) "date" "Valid date is required"
  ++ check (matchesHHMM (startTime b)) "startTime" "Valid start time is required"
  ++ check (matchesHHMM (endTime b)) "endTime" "Valid end time is required"
  ++ check (negb (String.eqb (trim (venue b)) EmptyString)) "venue" "Venue is required"
  ++ check (inOpt 1 None (totalStudents b)) "totalStudents"
       "Total students must be a positive number"
  ++ check (inOpt 5 (Some 240) (duration b)) "duration"
       "Duration must be between 5 and 240 minutes".

(** [x || y] on a number *)
Definition orElse (x : option Z) (y : Z) : Z :=
  match x with
  | Some n => if n =? 0 then y else n
  | None => y
  end.

(** [lectureData] of the handler, for the value [date] of
    [new Date(req.body.date)] *)
Definition lectureData (user : User) (b : GenerateBody) (date : Date) : Lecture.Data :=
  {| Lecture.d_lecturerId := user_id user;
     Lecture.d_lecturerName := user_name user;
     Lecture.d_unitName := trim (unitName b);
     Lecture.d_unitCode := toUpperCase (trim (unitCode b));
     Lecture.d_date := date;
     Lecture.d_startTime := startTime b;
     Lecture.d_endTime := endTime b;
     Lecture.d_venue := trim (venue b);
     Lecture.d_totalStudents := orElse (totalStudents b) 0;
     Lecture.d_description := default EmptyString (trim <$> description b);
     Lecture.d_status := Some Lecture.ongoing |}.

(** The handler of [POST /api/lecturer/generate-qr]; [configured] is
    [process.env.QR_CODE_DURATION].  When [new Date(req.body.date)] is an
    Invalid Date the handler hands it to the service all the same: see
    [QRCodeService.generateQRCodeInvalidDate]. *)
Definition generateQRHandler (env : QRCodeService.Issue) (now : Date)
    (configured : option Z) (user : User) (b : GenerateBody)
    : M (Response QRCodeService.Generated) :=
  try_catch
    (let duration := orElse (duration b) (orElse configured 60) in
     let* result :=
       match parsed (date b) with
       | Some date =>
           QRCodeService.generateQRCode env now (lectureData user b date) duration
       | None =>
           QRCodeService.generateQRCodeInvalidDate env (lectureData user b 0)
       end in
     ret (mkResponse 200 (Success "QR code generated successfully" result)))
    (fun error => ret (mkResponse 400 (Failure (message error)))).

(** [POST /api/lecturer/generate-qr], the answer of the route: the
    middleware [validate(generateQRValidation)] answers 400 when a rule
    fails, else the handler runs. *)
Definition generateQR (env : QRCodeService.Issue) (now : Date) (configured : option Z)
    (user : User) (b : GenerateBody) : M (Response QRCodeService.Generated) :=
  match generateQRValidation b with
  | (_ :: _) as errors => ret (mkResponse 400 (Rejected errors))
  | [] => generateQRHandler env now configured user b
  end.

(** [POST /api/lecturer/generate-qr] as it is mounted: the middleware
    [validate(generateQRValidation)], then the handler. *)
Definition postGenerateQR (env : QRCodeService.Issue) (now : Date)
    (configured : option Z) (user : User) (b : GenerateBody)
    : M (Express.Reply QRCodeService.Generated) :=
  Express.route [Express.validate (generateQRValidation b)]
    (generateQRHandler env now configured user b).

(** [attendance.status = status; if (notes) attendance.notes = notes;
    attendance.isVerified = false] *)
Definition override (status : Attendance.Status) (notes : option string)
    (a : Attendance.t) : Attendance.t :=
  Attendance.mk (Attendance.studentId a) (Attendance.lectureId a)
    (Attendance.qrCodeId a) (Attendance.scanTime a) status (Attendance.deviceInfo a)
    false
    (match notes with
     | Some n => if String.eqb n EmptyString then Attendance.notes a else Some n
     | None => Attendance.notes a
     end).

(** The handler of [PUT /api/lecturer/attendance/:id/status]: the function
    that is the last argument of [router.put('/attendance/:id/status',
    ...)]; the lecture is the populated [lectureId], [null] when it is
    gone.  The route that mounts it is [putAttendanceStatus]. *)
Definition updateStatus (user : User) (attendanceId : ObjectId)
    (status : Attendance.Status) (notes : option string)
    : M (Response Attendance.t) :=
  try_catch
    (let* attendance := Attendance_findById attendanceId in
     match attendance with
     | None => ret (mkResponse 404 (Failure "Attendance record not found"))
     | Some attendance =>
         let* lecture := Lecture_findById (Attendance.lectureId (this attendance)) in
         match lecture with
         | None =>
             throw (mkError "TypeError" None
                      "Cannot read properties of null (reading 'lecturerId')")
         | Some lecture =>
             if negb (N.eqb (Lecture.lecturerId (this lecture)) (user_id user))
             then ret (mkResponse 403 (Failure "Access denied to this attendance record"))
             else
               let* saved := Attendance_save (assign (override status notes) attendance) in
               ret (mkResponse 200
                      (Success "Attendance status updated successfully" (this saved)))
         end
     end)
    (fun error => ret (mkResponse 400 (Failure (message error)))).

(** [PUT /api/lecturer/attendance/:id/status] as it is mounted: the array
    of the rule on [status], then [validate] (not [validate(rules)]), then
    the handler. *)
Definition putAttendanceStatus (user : User) (attendanceId : ObjectId)
    (status : Attendance.Status) (notes : option string)
    : M (Express.Reply Attendance.t) :=
  Express.route [Express.chains; Express.validateUncalled]
    (updateStatus user attendanceId status notes).

End Lecturer.

(** ** Auxiliary definitions of the statements *)

(** the error of the lookup in [validateQRCode] *)
Definition lookupError : JSError := CastError "$maxScans" "scanCount" "QRCode".

(** every token is within its budget *)
Definition withinBudget (db : DB) : Prop :=
  forall id q, qrcodes db !! id = Some q -> QRCodeModel.scanCount q <= QRCodeModel.maxScans q.

(** One step of the system: a scan request served by the handler, a
    recording on what an accepting validation hands over (the stored token
    with its count below its limit), an issuance, a revocation or the
    override of a status. *)
Inductive step : DB -> DB -> Prop :=
| step_scan req db :
    step db (snd (Student.scan req db))
| step_record oid now qid q lid l student dev db :
    qrcodes db !! qid = Some q ->
    QRCodeModel.scanCount q < QRCodeModel.maxScans q ->
    step db (snd (QRCodeService.recordAttendance oid now
                    (QRCodeService.Valid (hydrate qid q) (hydrate lid l))
                    student dev db))
| step_issue env now lectureData durationMinutes db :
    step db (snd (QRCodeService.generateQRCode env now lectureData durationMinutes db))
| step_revoke qrCodeId now db :
    step db (snd (QRCodeService.deactivateQRCode qrCodeId now db))
| step_override user attendanceId status notes db :
    step db (snd (Lecturer.updateStatus user attendanceId status notes db)).

(** ** Sample data

    A lecture from 09:00 to 10:00 on day 20000 of the epoch with its token,
    a ten-minute lecture, and a lecture from 23:00 to 01:00. *)

Definition day : Date := 20000 * msPerDay.
Definition at_ (h m : Z) : Date := day + h * msPerHour + m * msPerMinute.

Definition lectureAt (startTime endTime : string) : Lecture.t :=
  {| Lecture.lecturerId := 7%N; Lecture.lecturerName := "Dr A";
     Lecture.unitName := "Logic"; Lecture.unitCode := "CS101";
     Lecture.date := day; Lecture.startTime := startTime; Lecture.endTime := endTime;
     Lecture.venue := "Hall 1"; Lecture.qrCodeId := Some 2%N;
     Lecture.status := Lecture.ongoing; Lecture.attendanceCount := 0;
     Lecture.totalStudents := 2; Lecture.description := EmptyString;
     Lecture.isActive := true |}.

Definition morning : Lecture.t := lectureAt "09:00" "10:00".
Definition short : Lecture.t := lectureAt "09:00" "09:10".
Definition overnight : Lecture.t := lectureAt "23:00" "01:00".

Definition token (count max : Z) (active : bool) : QRCodeModel.t :=
  {| QRCodeModel.lectureId := 1%N; QRCodeModel.uniqueCode := "abc";
     QRCodeModel.qrCodeImage := "data:image/png;base64,AAAA";
     QRCodeModel.expiresAt := at_ 11 0; QRCodeModel.isActive := active;
     QRCodeModel.scanCount := count; QRCodeModel.maxScans := max |}.

Definition entry (student : ObjectId) (time : Date) (s : Attendance.Status) : Attendance.t :=
  {| Attendance.studentId := student; Attendance.lectureId := 1%N;
     Attendance.qrCodeId := 2%N; Attendance.scanTime := time; Attendance.status := s;
     Attendance.deviceInfo := Attendance.noDevice; Attendance.isVerified := true;
     Attendance.notes := None |}.

(** lecture 1 with token 2 and no entry *)
Definition campus (l : Lecture.t) (q : QRCodeModel.t) : DB :=
  mkDB {[ 1%N := l ]} {[ 2%N := q ]} ∅.

(** the same with the entry 9 of student 50 *)
Definition attended (l : Lecture.t) (q : QRCodeModel.t) : DB :=
  mkDB {[ 1%N := l ]} {[ 2%N := q ]} {[ 9%N := entry 50%N (at_ 9 5) Attendance.present ]}.

Definition lecturer : User := mkUser 7%N "Dr A".
Definition student50 : User := mkUser 50%N "Student".

(** a request to issue with the start time 25:00, and the lecture the
    handler would build from it *)
Definition body2500 : Lecturer.GenerateBody :=
  {| Lecturer.unitName := "Logic"; Lecturer.unitCode := "cs101";
     Lecturer.date := Lecturer.mkDateText true (Some day);
     Lecturer.startTime := "25:00";
     Lecturer.endTime := "10:00"; Lecturer.venue := "Hall 1";
     Lecturer.totalStudents := Some 2; Lecturer.description := None;
     Lecturer.duration := Some 60 |}.

Definition data2500 : Lecture.Data :=
  {| Lecture.d_lecturerId := 7%N; Lecture.d_lecturerName := "Dr A";
     Lecture.d_unitName := "Logic"; Lecture.d_unitCode := "CS101";
     Lecture.d_date := day; Lecture.d_startTime := "25:00";
     Lecture.d_endTime := "10:00"; Lecture.d_venue := "Hall 1";
     Lecture.d_totalStudents := 2; Lecture.d_description := EmptyString;
     Lecture.d_status := Some Lecture.ongoing |}.

Definition issue1 : QRCodeService.Issue :=
  {| QRCodeService.lectureOid := 1%N; QRCodeService.qrOid := 2%N;
     QRCodeService.uuid := "abc";
     QRCodeService.image := "data:image/png;base64,AAAA" |}.

(** the empty database *)
Definition nothing : DB := mkDB ∅ ∅ ∅.

(** a lookup that fails *)
Definition lostConnection (id : ObjectId) : M (option (Document Lecture.t)) :=
  throw (mkError "MongoNetworkError" None "connection lost").

(** ** The rest of the service and of the lecturer's routes *)

(** *** models/Lecture.js: the virtual [duration]

    [start = this.startTime.split(':').map(Number)], the same for the end,
    and the minutes of the end less the minutes of the start.  A part that
    is missing or is no number makes the result NaN ([None]). *)
Definition minutesOf (time : string) : option Z :=
  let parts := map Number (split time) in
  h ← mjoin (nth_error parts 0);
  m ← mjoin (nth_error parts 1);
  Some (h * 60 + m).

Definition Lecture_duration (l : Lecture.t) : option Z :=
  startMinutes ← minutesOf (Lecture.startTime l);
  endMinutes ← minutesOf (Lecture.endTime l);
  Some (endMinutes - startMinutes).

(** *** services/qrCodeService.js: [getQRCodeStats] *)

Module Stats.

(** [avgScanRate]: the number 0 when there is no code, else the text of
    [sum / count] with two decimals, kept as the two numbers *)
Inductive Average :=
| NoCodes
| Fixed2 (sum count : Z).

Record t := mk {
  totalQRCodes : Z;
  activeQRCodes : Z;
  totalScans : Z;
  avgScanRate : Average
}.

End Stats.

(** the documents of a collection *)
Definition documents {T} (m : gmap ObjectId T) : list (Document T) :=
  (fun kv => hydrate (fst kv) (snd kv)) <$> map_to_list m.

(** [Lecture.find({ lecturerId })] *)
Definition Lecture_find (lecturerId : ObjectId) : M (list (Document Lecture.t)) :=
  let* db := get in
  ret (List.filter (fun d => N.eqb (Lecture.lecturerId (this d)) lecturerId)
         (documents (lectures db))).

(** [QRCodeModel.find({ lectureId: { $in: lectureIds } })] *)
Definition QRCodeModel_findIn (lectureIds : list ObjectId)
    : M (list (Document QRCodeModel.t)) :=
  let* db := get in
  ret (List.filter (fun d => existsb (N.eqb (QRCodeModel.lectureId (this d))) lectureIds)
         (documents (qrcodes db))).

(** [qr.isActive && qr.expiresAt > new Date()] *)
Definition stillActive (now : Date) (qr : Document QRCodeModel.t) : bool :=
  QRCodeModel.isActive (this qr) && (now <? QRCodeModel.expiresAt (this qr)).

(** [qrCodes.reduce((sum, qr) => sum + qr.scanCount, 0)] *)
Definition sumScans (qrCodes : list (Document QRCodeModel.t)) : Z :=
  fold_left (fun sum qr => sum + QRCodeModel.scanCount (this qr)) qrCodes 0.

(** [getQRCodeStats(lecturerId)] at the instant [now] *)
Definition getQRCodeStats (lecturerId : ObjectId) (now : Date) : M Stats.t :=
  try_catch
    (let* lectures := Lecture_find lecturerId in
     let lectureIds := map _id lectures in
     let* qrCodes := QRCodeModel_findIn lectureIds in
     ret {| Stats.totalQRCodes := Z.of_nat (length qrCodes);
            Stats.activeQRCodes := Z.of_nat (length (List.filter (stillActive now) qrCodes));
            Stats.totalScans := sumScans qrCodes;
            Stats.avgScanRate :=
              if (0 <? Z.of_nat (length qrCodes))
              then Stats.Fixed2 (sumScans qrCodes) (Z.of_nat (length qrCodes))
              else Stats.NoCodes |})
    (fun error => throw (Error ("Failed to get QR code statistics: " ++ message error))).

(** *** routes/lecturer.js: [DELETE /lectures/:id] *)

(** [lecture.isActive = false; lecture.status = 'cancelled'] *)
Definition cancel (l : Lecture.t) : Lecture.t :=
  Lecture.mk (Lecture.lecturerId l) (Lecture.lecturerName l)
    (Lecture.unitName l) (Lecture.unitCode l) (Lecture.date l) (Lecture.startTime l)
    (Lecture.endTime l) (Lecture.venue l) (Lecture.qrCodeId l) Lecture.cancelled
    (Lecture.attendanceCount l) (Lecture.totalStudents l)
    (Lecture.description l) false.

(** [Lecture.findOne({ _id: lectureId, lecturerId })] *)
Definition Lecture_findOwned (lectureId lecturerId : ObjectId)
    : M (option (Document Lecture.t)) :=
  let* db := get in
  ret (match lectures db !! lectureId with
       | Some l =>
           if N.eqb (Lecture.lecturerId l) lecturerId
           then Some (hydrate lectureId l) else None
       | None => None
       end).

(** the handler of [DELETE /api/lecturer/lectures/:id] at the instant [now] *)
Definition deleteLecture (user : User) (lectureId : ObjectId) (now : Date)
    : M (Response unit) :=
  try_catch
    (let* lecture := Lecture_findOwned lectureId (user_id user) in
     match lecture with
     | None => ret (mkResponse 404 (Failure "Lecture not found or access denied"))
     | Some lecture =>
         let* lecture := Lecture_save (assign cancel lecture) in
         match Lecture.qrCodeId (this lecture) with
         | Some qrCodeId => QRCodeService.deactivateQRCode qrCodeId now;; ret tt
         | None => ret tt
         end;;
         ret (mkResponse 200 (Success "Lecture deactivated successfully" tt))
     end)
    (fun error => ret (mkResponse 400 (Failure (message error)))).

(** *** middleware/errorHandler.js *)

Module ErrorHandler.

(** What the handler reads of the error it is given: [name], [code],
    [message] and [stack]; the messages of the values of [err.errors] and
    the keys of [err.keyPattern], when the error has them; and its own
    properties [statusCode] and [error], which the copy [{ ...err }] keeps. *)
Record Err := mkErr {
  err_name : string;
  err_code : option Z;
  err_message : string;
  err_stack : option string;
  err_errors : option (list string);
  err_keyPattern : option (list string);
  err_statusCode : option Z;
  err_error : option string
}.

(** an error object that has nothing but its name, code and message *)
Definition plain (e : JSError) (stack : option string) : Err :=
  mkErr (name e) (code e) (message e) stack None None None None.

Record Answer := mkAnswer {
  status : Z;
  error : string;
  stack : option string
}.

(** [strings.join(', ')] *)
Fixpoint join (l : list string) : string :=
  match l with
  | [] => EmptyString
  | [s] => s
  | s :: r => s ++ ", " ++ join r
  end.

(** [field.charAt(0).toUpperCase() + field.slice(1)] *)
Definition capitalize (field : string) : string :=
  match field with
  | EmptyString => EmptyString
  | String c r => String (upper c) r
  end.

Definition TypeError (msg : string) : JSError := mkError "TypeError" None msg.

(** The object [error] after the five tests: the status code and the text
    it carries, if any.  Each test that applies replaces what the earlier
    ones left. *)
Definition classify (err : Err) : Outcome (option Z * option string) :=
  let start := (err_statusCode err, err_error err) in
  let afterValidation :=
    if String.eqb (err_name err) "ValidationError" then
      match err_errors err with
      | Some messages => Return (Some 400, Some (join messages))
      | None => Throw (TypeError "Cannot convert undefined or null to object")
      end
    else Return start in
  match afterValidation with
  | Throw e => Throw e
  | Return current =>
      let afterDuplicate :=
        if bool_decide (err_code err = Some 11000) then
          match err_keyPattern err with
          | Some (field :: _) =>
              Return (Some 400, Some (capitalize field ++ " already exists"))
          | Some [] =>
              Throw (TypeError "Cannot read properties of undefined (reading 'charAt')")
          | None => Throw (TypeError "Cannot convert undefined or null to object")
          end
        else Return current in
      match afterDuplicate with
      | Throw e => Throw e
      | Return current =>
          let current :=
            if String.eqb (err_name err) "CastError"
            then (Some 404, Some "Resource not found") else current in
          let current :=
            if String.eqb (err_name err) "JsonWebTokenError"
            then (Some 401, Some "Invalid token") else current in
          let current :=
            if String.eqb (err_name err) "TokenExpiredError"
            then (Some 401, Some "Token expired") else current in
          Return current
      end
  end.

(** [x || y]: a status code that is missing or 0, a text that is missing
    or empty, gives way to the default *)
Definition statusOr (x : option Z) (y : Z) : Z :=
  match x with
  | Some n => if n =? 0 then y else n
  | None => y
  end.

Definition textOr (x : option string) (y : string) : string :=
  match x with
  | Some s => if String.eqb s EmptyString then y else s
  | None => y
  end.

(** [errorHandler(err, req, res, next)]; [production] is
    [process.env.NODE_ENV === 'production'] *)
Definition errorHandler (production : bool) (err : Err) : Outcome Answer :=
  match classify err with
  | Throw e => Throw e
  | Return (statusCode, text) =>
      Return {| status := statusOr statusCode 500;
                error := textOr text "Server Error";
                stack := if production then None else err_stack err |}
  end.

End ErrorHandler.

(** ** Auxiliary definitions of the further statements *)

(** no two entries of one student for one lecture *)
Definition onePerPair (db : DB) : Prop :=
  forall k1 k2 a1 a2,
    attendances db !! k1 = Some a1 ->
    attendances db !! k2 = Some a2 ->
    Attendance.studentId a1 = Attendance.studentId a2 ->
    Attendance.lectureId a1 = Attendance.lectureId a2 ->
    k1 = k2.


(** whether the lecture of a token is stored and is the lecturer's *)
Definition owns (db : DB) (lecturerId : ObjectId) (q : QRCodeModel.t) : bool :=
  match lectures db !! QRCodeModel.lectureId q with
  | Some l => N.eqb (Lecture.lecturerId l) lecturerId
  | None => false
  end.

(** 1 for true, 0 for false *)
Definition ind (b : bool) : Z := if b then 1 else 0.

(** a lecture as the route builds it *)
Definition data0900 : Lecture.Data :=
  {| Lecture.d_lecturerId := 7%N; Lecture.d_lecturerName := "Dr A";
     Lecture.d_unitName := "Logic"; Lecture.d_unitCode := "CS101";
     Lecture.d_date := day; Lecture.d_startTime := "09:00";
     Lecture.d_endTime := "10:00"; Lecture.d_venue := "Hall 1";
     Lecture.d_totalStudents := 0; Lecture.d_description := EmptyString;
     Lecture.d_status := Some Lecture.ongoing |}.


Definition issue3 : QRCodeService.Issue :=
  {| QRCodeService.lectureOid := 3%N; QRCodeService.qrOid := 4%N;
     QRCodeService.uuid := "abc";
     QRCodeService.image := "data:image/png;base64,BBBB" |}.

(** errors as the driver and the query layer raise them *)
Definition duplicatePair : ErrorHandler.Err :=
  ErrorHandler.mkErr "MongoServerError" (Some 11000) "E11000 duplicate key error" None None
    (Some ["studentId"; "lectureId"]) None None.

Definition badId : ErrorHandler.Err :=
  ErrorHandler.mkErr "CastError" None "Cast to ObjectId failed" None None None None None.




(** * Properties *)

(** ** Saving over what was loaded *)

Lemma delta_same {A} `{EqDecision A} (was now : A) : delta was now was = now.
Proof. unfold delta. destruct (decide (now = was)); congruence. Qed.

Lemma Lecture_merge_same was now : Lecture.merge was now was = now.
Proof. destruct now. unfold Lecture.merge. simpl. by rewrite !delta_same. Qed.

Lemma QRCode_merge_same was now : QRCodeModel.merge was now was = now.
Proof. destruct now. unfold QRCodeModel.merge. simpl. by rewrite !delta_same. Qed.

Lemma Attendance_merge_same was now : Attendance.merge was now was = now.
Proof. destruct now. unfold Attendance.merge. simpl. by rewrite !delta_same. Qed.

(** ** Searching a collection *)

Lemma findFirst_Some {T} (p : T -> bool) (m : gmap ObjectId T) d :
  findFirst p m = Some d ->
  isNew d = false /\ loaded d = this d /\ m !! _id d = Some (this d) /\ p (this d) = true.
Proof.
  unfold findFirst. destruct (List.find _ _) as [[k v]|] eqn:E; [|done].
  intros [= <-]. apply find_some in E as [Hin Hp]. simpl in *.
  repeat split; try done.
  apply list_elem_of_In in Hin. by apply elem_of_map_to_list in Hin.
Qed.

Lemma findFirst_None {T} (p : T -> bool) (m : gmap ObjectId T) :
  findFirst p m = None <-> forall k v, m !! k = Some v -> p v = false.
Proof.
  unfold findFirst. split.
  - destruct (List.find _ _) eqn:E; [done|]. intros _ k v Hkv.
    apply (find_none _ _ E (k, v)).
    apply list_elem_of_In. by apply elem_of_map_to_list.
  - intros H. destruct (List.find _ _) as [[k v]|] eqn:E; [|done].
    apply find_some in E as [Hin Hp]. simpl in *.
    apply list_elem_of_In, elem_of_map_to_list in Hin.
    rewrite (H _ _ Hin) in Hp. done.
Qed.

(** ** The lookup of [validateQRCode] *)

Lemma activeCode_does_not_cast code now :
  QRCodeModel.castFilter (QRCodeService.activeCode code now) = Some lookupError.
Proof. reflexivity. Qed.

Lemma validateQRCode_throws code studentId now db :
  QRCodeService.validateQRCode code studentId now db
  = (Throw (Error ("QR code validation failed: " ++ message lookupError)), db).
Proof.
  unfold QRCodeService.validateQRCode, try_catch, bind, QRCodeModel_findOne.
  rewrite activeCode_does_not_cast. reflexivity.
Qed.

Lemma scan_answers_400 req db :
  Student.scan req db
  = (Return (mkResponse 400 (Failure ("QR code validation failed: " ++ message lookupError))), db).
Proof.
  unfold Student.scan, try_catch, bind. rewrite validateQRCode_throws. reflexivity.
Qed.

Lemma scans_unchanged reqs db : Student.scans reqs db = db.
Proof.
  induction reqs as [|r reqs IH]; cbn [Student.scans]; [done|].
  rewrite scan_answers_400. apply IH.
Qed.

(** ** What the lookups by id do *)

Lemma Lecture_findById_reads id db :
  Lecture_findById id db = (Return (hydrate id <$> lectures db !! id), db).
Proof. reflexivity. Qed.

Lemma QRCodeModel_findById_reads id db :
  QRCodeModel_findById id db = (Return (hydrate id <$> qrcodes db !! id), db).
Proof. reflexivity. Qed.

Lemma Attendance_findById_reads id db :
  Attendance_findById id db = (Return (hydrate id <$> attendances db !! id), db).
Proof. reflexivity. Qed.

(** ** What the saves do *)

Lemma QRCodeModel_save_loaded id was now db :
  QRCodeModel_save (mkDocument id false was now) db =
  match QRCodeModel.validate now with
  | [] =>
      if decide (now = was) then (Return (mkDocument id false was now), db)
      else match qrcodes db !! id with
           | None => (Throw (DocumentNotFoundError "QRCode"), db)
           | Some stored =>
               (Return (hydrate id now), withQRCode db id (QRCodeModel.merge was now stored))
           end
  | e :: es => (Throw (ValidationError "QRCode" (e :: es)), db)
  end.
Proof.
  unfold QRCodeModel_save, bind, validated, get, put, ret, throw; simpl.
  destruct (QRCodeModel.validate now); [|done].
  destruct (decide (now = was)); [done|].
  by destruct (qrcodes db !! id).
Qed.

Lemma Lecture_save_loaded id was now db :
  Lecture_save (mkDocument id false was now) db =
  match Lecture.validate now with
  | [] =>
      if decide (now = was) then (Return (mkDocument id false was now), db)
      else match lectures db !! id with
           | None => (Throw (DocumentNotFoundError "Lecture"), db)
           | Some stored =>
               (Return (hydrate id now), withLecture db id (Lecture.merge was now stored))
           end
  | e :: es => (Throw (ValidationError "Lecture" (e :: es)), db)
  end.
Proof.
  unfold Lecture_save, bind, validated, get, put, ret, throw; simpl.
  destruct (Lecture.validate now); [|done].
  destruct (decide (now = was)); [done|].
  by destruct (lectures db !! id).
Qed.

Lemma Lecture_save_new id v db :
  Lecture_save (fresh id v) db =
  match Lecture.validate v with
  | [] =>
      match lectures db !! id with
      | Some _ => (Throw (DuplicateKeyError "lectures" "_id_"), db)
      | None => (Return (hydrate id v), withLecture db id v)
      end
  | e :: es => (Throw (ValidationError "Lecture" (e :: es)), db)
  end.
Proof.
  unfold Lecture_save, bind, validated, get, put, ret, throw; simpl.
  destruct (Lecture.validate v); [|done].
  by destruct (lectures db !! id).
Qed.

Lemma Attendance_write_loaded id was now db :
  Attendance_write (mkDocument id false was now) db =
  if decide (now = was) then (Return (mkDocument id false was now), db)
  else match attendances db !! id with
       | None => (Throw (DocumentNotFoundError "Attendance"), db)
       | Some stored =>
           (Return (hydrate id now), withAttendance db id (Attendance.merge was now stored))
       end.
Proof.
  unfold Attendance_write, bind, get, put, ret, throw; simpl.
  destruct (decide (now = was)); [done|].
  by destruct (attendances db !! id).
Qed.

Lemma Attendance_write_new id was v db :
  Attendance_write (mkDocument id true was v) db =
  match attendances db !! id with
  | Some _ => (Throw (DuplicateKeyError "attendances" "_id_"), db)
  | None =>
      match findFirst (samePair (Attendance.studentId v) (Attendance.lectureId v))
              (attendances db) with
      | Some _ => (Throw (DuplicateKeyError "attendances" "studentId_1_lectureId_1"), db)
      | None => (Return (hydrate id v), withAttendance db id v)
      end
  end.
Proof.
  unfold Attendance_write, bind, get, put, ret, throw; simpl.
  destruct (attendances db !! id); [done|].
  by destruct (findFirst _ _).
Qed.

(** The hook reads and never throws; on a new document it leaves every
    path but [status] alone. *)
Lemma Attendance_preSave_new id was v db :
  Attendance_preSaveWith Lecture_findById (mkDocument id true was v) db =
  (Return (mkDocument id true was
             match lectures db !! Attendance.lectureId v with
             | Some l =>
                 setStatus (Attendance.classify (Attendance.scanTime v)
                              (Lecture.lectureStart l) (Lecture.lectureEnd l)) v
             | None => v
             end), db).
Proof.
  unfold Attendance_preSaveWith, try_catch, Lecture_findById, bind, get, ret; simpl.
  by destruct (lectures db !! Attendance.lectureId v).
Qed.

Lemma Attendance_preSave_loaded find (d : Document Attendance.t) db :
  isNew d = false -> Attendance_preSaveWith find d db = (Return d, db).
Proof. unfold Attendance_preSaveWith. by intros ->. Qed.

(** A save of an entry writes to the entries only. *)
Lemma Attendance_save_frame d db :
  lectures (snd (Attendance_save d db)) = lectures db
  /\ qrcodes (snd (Attendance_save d db)) = qrcodes db.
Proof.
  unfold Attendance_save, Attendance_saveWith, bind at 1 3, validated.
  destruct (Attendance.validate (this d)); [|done]. simpl.
  destruct d as [id [] was v].
  - unfold bind. rewrite Attendance_preSave_new, Attendance_write_new.
    destruct (attendances db !! id); [done|]. by destruct (findFirst _ _).
  - unfold bind. rewrite Attendance_preSave_loaded by done.
    rewrite Attendance_write_loaded.
    destruct (decide _); [done|]. by destruct (attendances db !! id).
Qed.

Lemma Lecture_save_frame d db :
  qrcodes (snd (Lecture_save d db)) = qrcodes db
  /\ attendances (snd (Lecture_save d db)) = attendances db.
Proof.
  destruct d as [id [] was v].
  - unfold Lecture_save, bind, validated, get, put, ret, throw; simpl.
    destruct (Lecture.validate v); [|done]. by destruct (lectures db !! id).
  - rewrite Lecture_save_loaded.
    destruct (Lecture.validate v); [|done].
    destruct (decide _); [done|]. by destruct (lectures db !! id).
Qed.

(** ** Recording a scan *)

Lemma countScan_changes q : QRCodeService.countScan q <> q.
Proof.
  intros H. apply (f_equal QRCodeModel.scanCount) in H. simpl in H. lia.
Qed.

(** A recording that returns has written the counted token over the one it
    was given, when that is the one stored. *)
Lemma recordAttendance_token oid now qid q lid l student dev db r db' :
  qrcodes db !! qid = Some q ->
  QRCodeService.recordAttendance oid now
    (QRCodeService.Valid (hydrate qid q) (hydrate lid l)) student dev db = (Return r, db') ->
  qrcodes db' = <[qid := QRCodeService.countScan q]> (qrcodes db).
Proof.
  intros Hq. unfold QRCodeService.recordAttendance, try_catch.
  unfold bind at 1.
  pose proof (Attendance_save_frame
    (Attendance.new oid student (_id (hydrate lid l)) (_id (hydrate qid q)) dev now) db)
    as [_ Hq1].
  destruct (Attendance_save _ db) as [[a|e] db1]; [|done]. simpl in Hq1.
  unfold bind at 1.
  change (assign QRCodeService.countScan (hydrate qid q))
    with (mkDocument qid false q (QRCodeService.countScan q)).
  rewrite QRCodeModel_save_loaded.
  destruct (QRCodeModel.validate _); [|done].
  destruct (decide _) as [E|_]; [by apply countScan_changes in E|].
  rewrite Hq1, Hq. rewrite QRCode_merge_same.
  unfold bind at 1.
  pose proof (Lecture_save_frame (assign QRCodeService.countAttendance (hydrate lid l))
    (withQRCode db1 qid (QRCodeService.countScan q))) as [Hq2 _].
  destruct (Lecture_save _ _) as [[l'|e] db2]; [|done]. simpl in Hq2.
  intros [= _ <-]. by rewrite Hq2, <- Hq1.
Qed.

(** Whether it returns or throws, a recording leaves the tokens as they
    were or has written the counted token. *)
Lemma recordAttendance_tokens oid now qid q lid l student dev db :
  qrcodes db !! qid = Some q ->
  forall db',
    db' = snd (QRCodeService.recordAttendance oid now
                 (QRCodeService.Valid (hydrate qid q) (hydrate lid l)) student dev db) ->
    qrcodes db' = qrcodes db
    \/ qrcodes db' = <[qid := QRCodeService.countScan q]> (qrcodes db).
Proof.
  intros Hq db'. unfold QRCodeService.recordAttendance, try_catch.
  unfold bind at 1.
  pose proof (Attendance_save_frame
    (Attendance.new oid student (_id (hydrate lid l)) (_id (hydrate qid q)) dev now) db)
    as [_ Hq1].
  destruct (Attendance_save _ db) as [[a|e] db1]; simpl in Hq1;
    [|intros ->; by left].
  unfold bind at 1.
  change (assign QRCodeService.countScan (hydrate qid q))
    with (mkDocument qid false q (QRCodeService.countScan q)).
  rewrite QRCodeModel_save_loaded.
  destruct (QRCodeModel.validate _); [|intros ->; by left].
  destruct (decide _) as [E|_]; [by apply countScan_changes in E|].
  rewrite Hq1, Hq. rewrite QRCode_merge_same.
  unfold bind at 1.
  pose proof (Lecture_save_frame (assign QRCodeService.countAttendance (hydrate lid l))
    (withQRCode db1 qid (QRCodeService.countScan q))) as [Hq2 _].
  destruct (Lecture_save _ _) as [[l'|e] db2]; unfold ret, throw; simpl in *;
    intros ->; right; by rewrite Hq2, <- Hq1.
Qed.

Lemma withinBudget_countScan db qid q (m : gmap ObjectId QRCodeModel.t) :
  qrcodes db !! qid = Some q ->
  QRCodeModel.scanCount q < QRCodeModel.maxScans q ->
  withinBudget db ->
  forall id q', <[qid := QRCodeService.countScan q]> (qrcodes db) !! id = Some q' ->
    QRCodeModel.scanCount q' <= QRCodeModel.maxScans q'.
Proof.
  intros Hq Hlt Hb id q' Hq'.
  destruct (decide (qid = id)) as [->|Hne].
  - rewrite lookup_insert_eq in Hq'. injection Hq' as <-. simpl. lia.
  - rewrite lookup_insert_ne in Hq' by done. by apply Hb in Hq'.
Qed.

Lemma QRCodeModel_save_new id v db :
  QRCodeModel_save (fresh id v) db =
  match QRCodeModel.validate v with
  | [] =>
      match qrcodes db !! id with
      | Some _ => (Throw (DuplicateKeyError "qrcodes" "_id_"), db)
      | None =>
          match findFirst (fun q => String.eqb (QRCodeModel.uniqueCode q)
                                      (QRCodeModel.uniqueCode v)) (qrcodes db) with
          | Some _ => (Throw (DuplicateKeyError "qrcodes" "uniqueCode_1"), db)
          | None => (Return (hydrate id v), withQRCode db id v)
          end
      end
  | e :: es => (Throw (ValidationError "QRCode" (e :: es)), db)
  end.
Proof.
  unfold QRCodeModel_save, bind, validated, get, put, ret, throw; simpl.
  destruct (QRCodeModel.validate v); [|done].
  destruct (qrcodes db !! id); [done|]. by destruct (findFirst _ _).
Qed.

Lemma valid_token_has_room q :
  QRCodeModel.validate q = [] -> 0 <= QRCodeModel.scanCount q /\ 1 <= QRCodeModel.maxScans q.
Proof.
  unfold QRCodeModel.validate. intros H.
  apply app_eq_nil in H as [_ H]. apply app_eq_nil in H as [_ H].
  apply app_eq_nil in H as [H0 H1]. unfold check in H0, H1.
  destruct (0 <=? QRCodeModel.scanCount q) eqn:E0; [|done].
  destruct (1 <=? QRCodeModel.maxScans q) eqn:E1; [|done].
  apply Z.leb_le in E0, E1. done.
Qed.

(** An issuance leaves the tokens as they were or adds a token that has
    no scan yet and room for one at least. *)
Lemma generateQRCode_tokens env now data duration db db' :
  db' = snd (QRCodeService.generateQRCode env now data duration db) ->
  forall id q, qrcodes db' !! id = Some q ->
    qrcodes db !! id = Some q
    \/ (QRCodeModel.scanCount q = 0 /\ 1 <= QRCodeModel.maxScans q).
Proof.
  unfold QRCodeService.generateQRCode, try_catch. unfold bind at 1.
  pose proof (Lecture_save_frame (Lecture.new (QRCodeService.lectureOid env) data) db)
    as [Hq1 _].
  destruct (Lecture_save _ db) as [[lecture|e] db1]; simpl in Hq1;
    [|intros -> id q Hq; left; by rewrite <- Hq1].
  unfold bind at 1. unfold QRCodeModel.new. rewrite QRCodeModel_save_new.
  destruct (QRCodeModel.validate _) eqn:Hv;
    [|intros -> id q Hq; left; by rewrite <- Hq1].
  apply valid_token_has_room in Hv as [_ Hmax]. simpl in Hmax.
  destruct (qrcodes db1 !! QRCodeService.qrOid env);
    [intros -> id q Hq; left; by rewrite <- Hq1|].
  destruct (findFirst _ _);
    [intros -> id q Hq; left; by rewrite <- Hq1|].
  unfold bind at 1.
  match goal with
  | |- context [Lecture_save ?d ?s] =>
      pose proof (Lecture_save_frame d s) as [Hq2 _];
      destruct (Lecture_save d s) as [[lecture'|e] db2]
  end; unfold ret, throw; simpl in *; intros -> id q Hq; rewrite Hq2 in Hq.
  all: destruct (decide (QRCodeService.qrOid env = id)) as [<-|Hne];
    [ rewrite lookup_insert_eq in Hq; injection Hq as <-; right; by split
    | rewrite lookup_insert_ne in Hq by done; left; by rewrite <- Hq1 ].
Qed.

(** A revocation leaves the tokens as they were or has written a token
    with the counts of the one stored. *)
Lemma deactivateQRCode_tokens qrCodeId now db db' :
  db' = snd (QRCodeService.deactivateQRCode qrCodeId now db) ->
  forall id q, qrcodes db' !! id = Some q ->
    exists q0, qrcodes db !! id = Some q0
               /\ QRCodeModel.scanCount q = QRCodeModel.scanCount q0
               /\ QRCodeModel.maxScans q = QRCodeModel.maxScans q0.
Proof.
  unfold QRCodeService.deactivateQRCode, try_catch. unfold bind at 1.
  rewrite QRCodeModel_findById_reads.
  destruct (qrcodes db !! qrCodeId) as [q0|] eqn:Hq0; simpl;
    [|intros -> id q Hq; by exists q].
  unfold bind at 1.
  change (assign (QRCodeService.expireNow now) (hydrate qrCodeId q0))
    with (mkDocument qrCodeId false q0 (QRCodeService.expireNow now q0)).
  rewrite QRCodeModel_save_loaded.
  destruct (QRCodeModel.validate _); [|intros -> id q Hq; by exists q].
  destruct (decide _); [intros -> id q Hq; by exists q|].
  rewrite Hq0, QRCode_merge_same. simpl. intros -> id q Hq. simpl in Hq.
  destruct (decide (qrCodeId = id)) as [<-|Hne].
  - rewrite lookup_insert_eq in Hq. injection Hq as <-. by exists q0.
  - rewrite lookup_insert_ne in Hq by done. by exists q.
Qed.

(** An override writes to the entries only. *)
Lemma updateStatus_tokens user attendanceId status notes db :
  qrcodes (snd (Lecturer.updateStatus user attendanceId status notes db)) = qrcodes db.
Proof.
  unfold Lecturer.updateStatus, try_catch. unfold bind at 1.
  rewrite Attendance_findById_reads.
  destruct (attendances db !! attendanceId) as [a|]; simpl; [|done].
  unfold bind at 1. rewrite Lecture_findById_reads.
  destruct (lectures db !! Attendance.lectureId a) as [l|]; simpl; [|done].
  destruct (negb _); [done|]. unfold bind at 1.
  pose proof (Attendance_save_frame
    (assign (Lecturer.override status notes) (hydrate attendanceId a)) db) as [_ Hq].
  by destruct (Attendance_save _ db) as [[saved|e] db1].
Qed.

Lemma step_withinBudget db db' : step db db' -> withinBudget db -> withinBudget db'.
Proof.
  intros [req db0 | oid now qid q lid l student dev db0 Hq Hlt
          | env now data duration db0 | qrCodeId now db0
          | user attendanceId status notes db0] Hb.
  - by rewrite scan_answers_400.
  - destruct (recordAttendance_tokens oid now qid q lid l student dev db0 Hq _ eq_refl)
      as [E|E]; intros id q' Hq'; rewrite E in Hq'.
    + by apply Hb in Hq'.
    + by apply (withinBudget_countScan db0 qid q (qrcodes db0) Hq Hlt Hb id).
  - intros id q Hq.
    destruct (generateQRCode_tokens env now data duration db0 _ eq_refl id q Hq)
      as [H|[H0 H1]]; [by apply Hb in H|lia].
  - intros id q Hq.
    destruct (deactivateQRCode_tokens qrCodeId now db0 _ eq_refl id q Hq)
      as (q0 & H0 & -> & ->). by apply Hb in H0.
  - intros id q Hq. rewrite updateStatus_tokens in Hq. by apply Hb in Hq.
Qed.

(** C1. Token budget invariant: along every run of the system (scan
    requests served by the handler, recordings on validated tokens,
    issuances, revocations, overrides) no token's [scanCount] exceeds its
    [maxScans]; and the recording of a validated token stores its count
    plus one, and when that reaches the limit the same write has set
    [isActive] to false. *)
Theorem token_budget_invariant :
  (forall db db', rtc step db db' -> withinBudget db -> withinBudget db')
  /\ (forall reqs db, withinBudget db -> withinBudget (Student.scans reqs db))
  /\ (forall oid now qid q lid l student dev db r db',
        qrcodes db !! qid = Some q ->
        QRCodeModel.scanCount q < QRCodeModel.maxScans q ->
        QRCodeService.recordAttendance oid now
          (QRCodeService.Valid (hydrate qid q) (hydrate lid l)) student dev db
        = (Return r, db') ->
        exists q',
          qrcodes db' !! qid = Some q'
          /\ QRCodeModel.scanCount q' = QRCodeModel.scanCount q + 1
          /\ QRCodeModel.maxScans q' = QRCodeModel.maxScans q
          /\ QRCodeModel.scanCount q' <= QRCodeModel.maxScans q'
          /\ (QRCodeModel.scanCount q' = QRCodeModel.maxScans q' ->
              QRCodeModel.isActive q' = false)).
Proof.
  split; [|split].
  - intros db db' Hrun. induction Hrun as [|db1 db2 db3 Hstep _ IH]; [done|].
    intros Hb. apply IH. by apply (step_withinBudget db1).
  - intros reqs db H. by rewrite scans_unchanged.
  - intros oid now qid q lid l student dev db r db' Hq Hlt Hrec.
    pose proof (recordAttendance_token _ _ _ _ _ _ _ _ _ _ _ Hq Hrec) as Hdb'.
    exists (QRCodeService.countScan q). rewrite Hdb'.
    split; [apply lookup_insert_eq|].
    simpl. repeat split; try lia.
    intros E. destruct (_ <=? _) eqn:Hle; [done|]. lia.
Qed.

(** ** Times that pass the schema are instants *)

Lemma digit_in_range lo hi c :
  (48 <= nat_of_ascii lo)%nat -> (nat_of_ascii hi <= 57)%nat ->
  inRange lo hi c = true ->
  exists d, digit c = Some d
            /\ Z.of_nat (nat_of_ascii lo) - 48 <= d <= Z.of_nat (nat_of_ascii hi) - 48
            /\ Ascii.eqb c ":" = false
            /\ forall r, Number (String c r) = digits 0 (String c r).
Proof.
  intros Hlo Hhi. unfold inRange. rewrite andb_true_iff, !Nat.leb_le. intros [H1 H2].
  exists (Z.of_nat (nat_of_ascii c) - 48).
  assert (forall x, (nat_of_ascii x < 48 \/ 57 < nat_of_ascii x)%nat -> Ascii.eqb c x = false) as Hne.
  { intros x Hx. destruct (Ascii.eqb_spec c x) as [->|]; [lia|done]. }
  repeat split; try lia.
  - unfold digit.
    assert ((48 <=? Z.of_nat (nat_of_ascii c)) && (Z.of_nat (nat_of_ascii c) <=? 57) = true) as ->
      by (rewrite andb_true_iff, !Z.leb_le; lia).
    done.
  - apply Hne. right. vm_compute. lia.
  - intros r. unfold Number.
    rewrite (Hne "-"%char), (Hne "+"%char); [done| |]; left; vm_compute; lia.
Qed.

Lemma matchesHHMM_atTime day s :
  matchesHHMM s = true ->
  exists h m, 0 <= h <= 23 /\ 0 <= m <= 59
              /\ atTime day s = Some (day / msPerDay * msPerDay + h * msPerHour + m * msPerMinute).
Proof.
  destruct s as [|c1 [|c2 [|c3 [|c4 [|c5 [|c6 r]]]]]]; try discriminate.
  - (* H:MM *)
    simpl. rewrite !andb_true_iff. intros [[[Hh Hc] Hm1] Hm2].
    apply Ascii.eqb_eq in Hc as ->.
    destruct (digit_in_range "0" "9" c1) as (dh & Edh & Bh & Nh & Uh); [vm_compute; lia..|done|].
    destruct (digit_in_range "0" "5" c3) as (d1 & Ed1 & B1 & N1 & U1); [vm_compute; lia..|done|].
    destruct (digit_in_range "0" "9" c4) as (d2 & Ed2 & B2 & N2 & U2); [vm_compute; lia..|done|].
    exists dh, (10 * d1 + d2).
    change (Z.of_nat (nat_of_ascii "0")) with 48 in *.
    change (Z.of_nat (nat_of_ascii "9")) with 57 in *.
    change (Z.of_nat (nat_of_ascii "5")) with 53 in *.
    split; [lia|]. split; [lia|].
    unfold atTime, split. simpl split_colon. rewrite Nh, N1, N2.
    cbn [nth_error mbind option_bind]. cbv [append]. rewrite Uh, U1.
    cbn [digits]. rewrite Edh, Ed1, Ed2. cbn [digits setHours]. f_equal; lia.
  - (* HH:MM *)
    simpl. rewrite !andb_true_iff, orb_true_iff, !andb_true_iff.
    intros [[[Hh Hc] Hm1] Hm2].
    apply Ascii.eqb_eq in Hc as ->.
    destruct (digit_in_range "0" "5" c4) as (d1 & Ed1 & B1 & N1 & U1); [vm_compute; lia..|done|].
    destruct (digit_in_range "0" "9" c5) as (d2 & Ed2 & B2 & N2 & U2); [vm_compute; lia..|done|].
    assert (exists e1 e2, digit c1 = Some e1 /\ digit c2 = Some e2
              /\ 0 <= 10 * e1 + e2 <= 23
              /\ Ascii.eqb c1 ":" = false /\ Ascii.eqb c2 ":" = false
              /\ forall r, Number (String c1 r) = digits 0 (String c1 r))
      as (e1 & e2 & Ee1 & Ee2 & Bh & Nc1 & Nc2 & Uh).
    { destruct Hh as [[H1 H2]|[H1 H2]].
      - destruct (digit_in_range "0" "1" c1) as (e1 & ? & ? & ? & ?); [vm_compute; lia..|done|].
        destruct (digit_in_range "0" "9" c2) as (e2 & ? & ? & ? & ?); [vm_compute; lia..|done|].
        change (Z.of_nat (nat_of_ascii "0")) with 48 in *.
        change (Z.of_nat (nat_of_ascii "1")) with 49 in *.
        change (Z.of_nat (nat_of_ascii "9")) with 57 in *.
        exists e1, e2. repeat split; try done; lia.
      - apply Ascii.eqb_eq in H1 as ->.
        destruct (digit_in_range "0" "3" c2) as (e2 & ? & ? & ? & ?); [vm_compute; lia..|done|].
        change (Z.of_nat (nat_of_ascii "0")) with 48 in *.
        change (Z.of_nat (nat_of_ascii "3")) with 51 in *.
        exists 2, e2. repeat split; try done; lia. }
    exists (10 * e1 + e2), (10 * d1 + d2).
    change (Z.of_nat (nat_of_ascii "0")) with 48 in *.
    change (Z.of_nat (nat_of_ascii "9")) with 57 in *.
    change (Z.of_nat (nat_of_ascii "5")) with 53 in *.
    split; [lia|]. split; [lia|].
    unfold atTime, split. simpl split_colon. rewrite Nc1, Nc2, N1, N2.
    cbn [nth_error mbind option_bind]. cbv [append]. rewrite Uh, U1.
    cbn [digits]. rewrite Ee1, Ee2, Ed1, Ed2. cbn [digits setHours]. f_equal; lia.
Qed.

(** A lecture that passes the schema has a start and an end. *)
Lemma valid_lecture_has_instants l :
  Lecture.validate l = [] ->
  exists st en, Lecture.lectureStart l = Some st /\ Lecture.lectureEnd l = Some en.
Proof.
  unfold Lecture.validate. intros H.
  do 3 apply app_eq_nil in H as [_ H].
  apply app_eq_nil in H as [Hs1 H]. apply app_eq_nil in H as [Hs2 H].
  apply app_eq_nil in H as [He1 H]. apply app_eq_nil in H as [He2 _].
  unfold required, check, Lecture.matchTime in *.
  destruct (String.eqb (Lecture.startTime l) EmptyString); [done|].
  destruct (String.eqb (Lecture.endTime l) EmptyString); [done|].
  destruct (matchesHHMM (Lecture.startTime l)) eqn:Ms; [|done].
  destruct (matchesHHMM (Lecture.endTime l)) eqn:Me; [|done].
  destruct (matchesHHMM_atTime (Lecture.date l) _ Ms) as (h & m & _ & _ & Hst).
  destruct (matchesHHMM_atTime (Lecture.date l) _ Me) as (h' & m' & _ & _ & Hen).
  eexists _, _. split; [exact Hst|exact Hen].
Qed.

(** ** Validation *)

(** C2. A token that is stored, active, unexpired and exhausted (2 scans of
    2): the lookup of [validateQRCode] rejects with the cast error of the
    operand ['$maxScans'], so the call throws; it does not return the
    rejection [{ valid: false, message: msgExhausted }]. *)
Theorem exhausted_token_lookup_throws :
  let db := campus morning (token 2 2 true) in
  QRCodeService.validateQRCode "abc" 50%N (at_ 9 5) db
  = (Throw (Error ("QR code validation failed: " ++ message lookupError)), db)
  /\ fst (QRCodeService.validateQRCode "abc" 50%N (at_ 9 5) db)
     <> Return (QRCodeService.Invalid QRCodeService.msgExhausted).
Proof.
  cbv zeta. rewrite validateQRCode_throws. split; [reflexivity|]. simpl. discriminate.
Qed.

Lemma Attendance_findOne_reads student lecture db :
  Attendance_findOne student lecture db
  = (Return (findFirst (samePair student lecture) (attendances db)), db).
Proof. reflexivity. Qed.

Lemma checkFound_reads studentId now qrCode lecture db :
  snd (QRCodeService.checkFound studentId now qrCode lecture db) = db.
Proof.
  unfold QRCodeService.checkFound.
  destruct lecture as [lecture|]; [|done].
  destruct (negb _); [done|].
  unfold bind. rewrite Attendance_findOne_reads.
  destruct (findFirst _ _); [done|]. by destruct (QRCodeService.outsideScanWindow _ _).
Qed.

Lemma QRCodeModel_findOne_reads f db : snd (QRCodeModel_findOne f db) = db.
Proof. unfold QRCodeModel_findOne. by destruct (QRCodeModel.castFilter f). Qed.

(** C6. [validateQRCode] is a check: whatever it answers, the database after
    the call is the database before it; so are the checks it makes on a
    token it found, the duplicate check among them. *)
Theorem validateQRCode_mutates_nothing :
  (forall code studentId now db,
     snd (QRCodeService.validateQRCode code studentId now db) = db)
  /\ (forall studentId now qrCode lecture db,
        snd (QRCodeService.checkFound studentId now qrCode lecture db) = db).
Proof.
  split; [|apply checkFound_reads].
  intros code studentId now db.
  unfold QRCodeService.validateQRCode, try_catch, bind.
  pose proof (QRCodeModel_findOne_reads (QRCodeService.activeCode code now) db) as Hfind.
  destruct (QRCodeModel_findOne _ db) as [[[qrCode|]|e] db1]; simpl in Hfind; subst db1;
    [|done|done].
  rewrite Lecture_findById_reads.
  pose proof (checkFound_reads studentId now qrCode
    (hydrate (QRCodeModel.lectureId (this qrCode))
       <$> lectures db !! QRCodeModel.lectureId (this qrCode)) db) as Hcheck.
  by destruct (QRCodeService.checkFound _ _ _ _ db) as [[v|e] db2].
Qed.

(** C5. The lecture from 09:00 to 10:00 with its token (stored, active,
    unexpired, no scan of 2) and no entry of student 50.  The window test
    of the code runs from 08:30 to 10:15: it lets 08:30 and 10:15 pass and
    stops one second after 10:15.  But a scan at exactly 08:30 and one at
    exactly 10:15 are not accepted, and a scan one second after 10:15 is
    not rejected with the message of the scan window: at each of the three
    instants the lookup of [validateQRCode] rejects with the cast error of
    the operand ['$maxScans'] and the call throws, before the time-window
    check is reached. *)
Theorem scan_at_window_bounds_throws :
  let db := campus morning (token 0 2 true) in
  Lecture.lectureStart morning = Some (at_ 9 0)
  /\ Lecture.lectureEnd morning = Some (at_ 10 0)
  /\ at_ 8 30 = at_ 9 0 - 30 * msPerMinute
  /\ at_ 10 15 = at_ 10 0 + 15 * msPerMinute
  /\ QRCodeService.outsideScanWindow (at_ 8 30) morning = false
  /\ QRCodeService.outsideScanWindow (at_ 10 15) morning = false
  /\ QRCodeService.outsideScanWindow (at_ 10 15 + 1000) morning = true
  /\ QRCodeService.validateQRCode "abc" 50%N (at_ 8 30) db
     = (Throw (Error ("QR code validation failed: " ++ message lookupError)), db)
  /\ QRCodeService.validateQRCode "abc" 50%N (at_ 10 15) db
     = (Throw (Error ("QR code validation failed: " ++ message lookupError)), db)
  /\ QRCodeService.validateQRCode "abc" 50%N (at_ 10 15 + 1000) db
     = (Throw (Error ("QR code validation failed: " ++ message lookupError)), db).
Proof.
  intros db.
  split; [vm_compute; reflexivity|]. split; [vm_compute; reflexivity|].
  split; [reflexivity|]. split; [reflexivity|].
  split; [vm_compute; reflexivity|]. split; [vm_compute; reflexivity|].
  split; [vm_compute; reflexivity|].
  repeat split; apply validateQRCode_throws.
Qed.

(** ** Classification *)

Lemma classify_spec scan st en :
  Attendance.classify scan (Some st) (Some en)
  = if en <? scan then Attendance.absent
    else if st + 15 * msPerMinute <? scan then Attendance.late
    else Attendance.present.
Proof. reflexivity. Qed.

(** The classification claim as stated fails on a lecture from 09:00 to
    09:10: a scan at exactly
    its end is present, not late, and a scan at exactly its start plus 15
    minutes is absent, not present. *)
Lemma short_lecture_boundaries :
  Lecture.lectureStart short = Some (at_ 9 0)
  /\ Lecture.lectureEnd short = Some (at_ 9 10)
  /\ Attendance.classify (at_ 9 10) (Lecture.lectureStart short) (Lecture.lectureEnd short)
     = Attendance.present
  /\ Attendance.classify (at_ 9 0 + 15 * msPerMinute)
       (Lecture.lectureStart short) (Lecture.lectureEnd short)
     = Attendance.absent.
Proof. repeat split; vm_compute; reflexivity. Qed.

(** C4, amended. The status the pre-save hook gives a new entry whose
    lecture is found is a function of the scan time and the lecture's start
    and end: absent after the end, else late after the start plus 15
    minutes, else present.  A scan at exactly the start plus 15 minutes is
    present when that instant is not after the end, and a scan at exactly
    the end is late when the end is after the start plus 15 minutes. *)
Theorem classification_rule id was entry l db st en :
  lectures db !! Attendance.lectureId entry = Some l ->
  Lecture.lectureStart l = Some st ->
  Lecture.lectureEnd l = Some en ->
  exists saved,
    Attendance_preSaveWith Lecture_findById (mkDocument id true was entry) db
    = (Return saved, db)
    /\ Attendance.status (this saved)
       = Attendance.classify (Attendance.scanTime entry) (Some st) (Some en)
    /\ Attendance.status (this saved)
       = (if en <? Attendance.scanTime entry then Attendance.absent
          else if st + 15 * msPerMinute <? Attendance.scanTime entry then Attendance.late
          else Attendance.present)
    /\ (Attendance.scanTime entry = st + 15 * msPerMinute ->
        st + 15 * msPerMinute <= en ->
        Attendance.status (this saved) = Attendance.present)
    /\ (Attendance.scanTime entry = en ->
        st + 15 * msPerMinute < en ->
        Attendance.status (this saved) = Attendance.late).
Proof.
  intros Hl Hs He. rewrite Attendance_preSave_new, Hl, Hs, He.
  eexists. split; [reflexivity|]. simpl. rewrite classify_spec.
  repeat split.
  - intros -> Hle.
    destruct (en <? _) eqn:E1; [apply Z.ltb_lt in E1; lia|].
    by rewrite Z.ltb_irrefl.
  - intros -> Hlt. rewrite Z.ltb_irrefl.
    destruct (_ <? en) eqn:E2; [done|]. apply Z.ltb_ge in E2. lia.
Qed.

(** ** Recording an entry that exists *)

Lemma Attendance_new_valid oid student lecture qr dev time :
  Attendance.validate (this (Attendance.new oid student lecture qr dev time)) = [].
Proof. reflexivity. Qed.

Lemma findFirst_exists {T} (p : T -> bool) (m : gmap ObjectId T) k v :
  m !! k = Some v -> p v = true -> exists d, findFirst p m = Some d.
Proof.
  intros Hk Hp. destruct (findFirst p m) as [d|] eqn:E; [by exists d|].
  rewrite findFirst_None in E. rewrite (E k v Hk) in Hp. done.
Qed.

(** The duplicate-at-write claim as stated fails: with the entry of student
    50 stored, a recording for
    student 50 throws a plain [Error] that has no code, as does a recording
    that fails because the token it was handed is not stored; the two
    differ in their message only. *)
Lemma duplicate_at_write_is_a_plain_error :
  let db := attended morning (token 1 2 true) in
  let lecture := hydrate 1%N morning in
  QRCodeService.recordAttendance 10%N (at_ 9 20)
    (QRCodeService.Valid (hydrate 2%N (token 1 2 true)) lecture) 50%N Attendance.noDevice db
  = (Throw {| name := "Error"; code := None;
              message := "Failed to record attendance: E11000 duplicate key error collection: attendances index: studentId_1_lectureId_1" |},
     db)
  /\ fst (QRCodeService.recordAttendance 10%N (at_ 9 20)
            (QRCodeService.Valid (hydrate 3%N (token 1 2 true)) lecture) 51%N
            Attendance.noDevice db)
     = Throw {| name := "Error"; code := None;
                message := "Failed to record attendance: No document found for query on model QRCode" |}.
Proof. split; vm_compute; reflexivity. Qed.

(** C3, amended. When an entry of the student for the lecture is stored at
    the time of the write, [recordAttendance] throws an [Error] whose
    message is the prefix of the service followed by the message of the
    store's duplicate-key error, and leaves the database as it was: the
    stored entry is not overwritten and nothing is counted. *)
Theorem duplicate_entry_rejected_at_write
    oid now qrCode lecture student dev db k (a : Attendance.t) :
  attendances db !! k = Some a ->
  samePair student (_id lecture) a = true ->
  exists index,
    QRCodeService.recordAttendance oid now (QRCodeService.Valid qrCode lecture)
      student dev db
    = (Throw (Error ("Failed to record attendance: "
                     ++ message (DuplicateKeyError "attendances" index))), db).
Proof.
  intros Hk Hp.
  destruct (findFirst_exists _ _ _ _ Hk Hp) as [d Hd].
  unfold QRCodeService.recordAttendance, try_catch. unfold bind at 1.
  unfold Attendance_save, Attendance_saveWith. unfold bind at 1.
  rewrite Attendance_new_valid. simpl validated. unfold ret at 1.
  unfold bind at 1. unfold Attendance.new, fresh.
  rewrite Attendance_preSave_new. simpl.
  rewrite Attendance_write_new.
  destruct (attendances db !! oid).
  - by exists "_id_".
  - exists "studentId_1_lectureId_1".
    destruct (lectures db !! _id lecture); simpl; by rewrite Hd.
Qed.

(** ** Revocation *)

Lemma withQRCode_same db id q : qrcodes db !! id = Some q -> withQRCode db id q = db.
Proof.
  intros H. destruct db as [ls qs als]. unfold withQRCode. simpl in *.
  by rewrite insert_id.
Qed.

Lemma withQRCode_twice db id q q' :
  withQRCode (withQRCode db id q) id q' = withQRCode db id q'.
Proof. unfold withQRCode. simpl. by rewrite insert_insert_eq. Qed.

Lemma deactivateQRCode_stored id q now db :
  qrcodes db !! id = Some q ->
  QRCodeModel.validate q = [] ->
  QRCodeService.deactivateQRCode id now db
  = (Return true, withQRCode db id (QRCodeService.expireNow now q)).
Proof.
  intros Hq Hv.
  unfold QRCodeService.deactivateQRCode, try_catch. unfold bind at 1.
  rewrite QRCodeModel_findById_reads, Hq. simpl. unfold bind at 1.
  change (assign (QRCodeService.expireNow now) (hydrate id q))
    with (mkDocument id false q (QRCodeService.expireNow now q)).
  rewrite QRCodeModel_save_loaded.
  change (QRCodeModel.validate (QRCodeService.expireNow now q))
    with (QRCodeModel.validate q).
  rewrite Hv. destruct (decide _) as [E|_].
  - rewrite E. by rewrite withQRCode_same.
  - by rewrite Hq, QRCode_merge_same.
Qed.

(** The idempotence claim as stated fails: a token revoked at 09:30 is inactive and expires at
    09:30; revoking it again at 09:40 succeeds and moves its expiration to
    09:40, so the second revocation is not a no-op and the state after two
    revocations is not the state after one. *)
Lemma revoking_again_moves_the_expiration :
  let once := snd (QRCodeService.deactivateQRCode 2%N (at_ 9 30)
                     (campus morning (token 0 2 true))) in
  let again := QRCodeService.deactivateQRCode 2%N (at_ 9 40) once in
  qrcodes once !! 2%N = Some (QRCodeService.expireNow (at_ 9 30) (token 0 2 true))
  /\ fst again = Return true
  /\ qrcodes (snd again) !! 2%N = Some (QRCodeService.expireNow (at_ 9 40) (token 0 2 true))
  /\ snd again <> once.
Proof.
  cbv zeta.
  rewrite (deactivateQRCode_stored 2%N (token 0 2 true)) by reflexivity.
  cbn [snd].
  rewrite (deactivateQRCode_stored 2%N (QRCodeService.expireNow (at_ 9 30) (token 0 2 true)))
    by reflexivity.
  cbn [fst snd]. repeat split; try reflexivity.
  intros H. apply (f_equal (fun d => QRCodeModel.expiresAt <$> qrcodes d !! 2%N)) in H.
  vm_compute in H. discriminate.
Qed.

Lemma deactivateQRCode_missing id now db :
  qrcodes db !! id = None ->
  QRCodeService.deactivateQRCode id now db
  = (Throw (Error "Failed to deactivate QR code: QR code not found"), db).
Proof.
  intros Hq. unfold QRCodeService.deactivateQRCode, try_catch. unfold bind at 1.
  by rewrite QRCodeModel_findById_reads, Hq.
Qed.

(** C7, amended. Revoking a stored (valid) token, active or not, succeeds
    and stores it inactive with its expiration at the instant of the call,
    every other path as it was; revoking it again succeeds and stores the
    instant of the second call as its expiration, so the state after two
    revocations is the state after one at the later instant, and the same
    as after the first when the two instants are equal. *)
Theorem revocation_twice id q t1 t2 db :
  qrcodes db !! id = Some q ->
  QRCodeModel.validate q = [] ->
  let once := withQRCode db id (QRCodeService.expireNow t1 q) in
  QRCodeService.deactivateQRCode id t1 db = (Return true, once)
  /\ QRCodeModel.isActive (QRCodeService.expireNow t1 q) = false
  /\ QRCodeModel.expiresAt (QRCodeService.expireNow t1 q) = t1
  /\ QRCodeService.deactivateQRCode id t2 once
     = (Return true, withQRCode db id (QRCodeService.expireNow t2 q))
  /\ QRCodeService.deactivateQRCode id t2 once = QRCodeService.deactivateQRCode id t2 db
  /\ (t2 = t1 -> QRCodeService.deactivateQRCode id t2 once = (Return true, once)).
Proof.
  intros Hq Hv once.
  assert (QRCodeService.deactivateQRCode id t2 once
          = (Return true, withQRCode db id (QRCodeService.expireNow t2 q))) as H2.
  { unfold once.
    rewrite (deactivateQRCode_stored id (QRCodeService.expireNow t1 q)).
    - by rewrite withQRCode_twice.
    - simpl. apply lookup_insert_eq.
    - exact Hv. }
  repeat split; try done.
  - by apply deactivateQRCode_stored.
  - rewrite H2. symmetry. by apply deactivateQRCode_stored.
  - intros ->. exact H2.
Qed.

(** ** Issuance *)

Lemma startTime_fails_validation id data :
  matchesHHMM (Lecture.d_startTime data) = false ->
  exists e es,
    Lecture.validate (this (Lecture.new id data)) = e :: es
    /\ In "startTime" (map fst (e :: es)).
Proof.
  intros Hm.
  assert (In "startTime" (map fst (Lecture.validate (this (Lecture.new id data))))) as Hin.
  { unfold Lecture.validate. simpl. rewrite !map_app, !in_app_iff.
    unfold Lecture.matchTime, required.
    destruct (String.eqb (Lecture.d_startTime data) EmptyString).
    - do 3 right. left. simpl. by left.
    - do 4 right. left. rewrite Hm. simpl. by left. }
  destruct (Lecture.validate _) as [|e es]; [done|]. by exists e, es.
Qed.

(** C8. Issuing with a [startTime] that is not an HH:MM time, "25:00" for
    one, fails on validation and writes nothing.  The route answers 400
    with the list of failed rules, [startTime] among them, and the handler
    does not run; the service, called with such a lecture, has its first
    save rejected with the [ValidationError] of the Lecture model, rethrows
    it under its own prefix and returns no result.  In both cases the
    database after the call is the database before it. *)
Theorem malformed_startTime_persists_nothing :
  matchesHHMM "25:00" = false
  /\ (forall env now configured user b db,
        matchesHHMM (Lecturer.startTime b) = false ->
        exists errors,
          Lecturer.generateQR env now configured user b db
          = (Return (mkResponse 400 (Rejected errors)), db)
          /\ In ("startTime", "Valid start time is required") errors)
  /\ (forall env now data duration db,
        matchesHHMM (Lecture.d_startTime data) = false ->
        exists errors,
          In "startTime" (map fst errors)
          /\ Lecture_save (Lecture.new (QRCodeService.lectureOid env) data) db
             = (Throw (ValidationError "Lecture" errors), db)
          /\ QRCodeService.generateQRCode env now data duration db
             = (Throw (Error ("Failed to generate QR code: "
                              ++ message (ValidationError "Lecture" errors))), db)).
Proof.
  split; [reflexivity|split].
  - intros env now configured user b db Hm.
    assert (In ("startTime", "Valid start time is required")
              (Lecturer.generateQRValidation b)) as Hin.
    { unfold Lecturer.generateQRValidation. rewrite Hm, !in_app_iff.
      do 3 right. left. simpl. by left. }
    unfold Lecturer.generateQR.
    destruct (Lecturer.generateQRValidation b) as [|e es]; [done|].
    exists (e :: es). split; [reflexivity|exact Hin].
  - intros env now data duration db Hm.
    destruct (startTime_fails_validation (QRCodeService.lectureOid env) data Hm)
      as (e & es & Hv & Hin).
    exists (e :: es). split; [done|].
    assert (Lecture_save (Lecture.new (QRCodeService.lectureOid env) data) db
            = (Throw (ValidationError "Lecture" (e :: es)), db)) as Hsave.
    { unfold Lecture.new. rewrite Lecture_save_new.
      unfold Lecture.new in Hv. simpl in Hv. by rewrite Hv. }
    split; [done|].
    unfold QRCodeService.generateQRCode, try_catch. unfold bind at 1.
    by rewrite Hsave.
Qed.

(** ** The pre-save hook when the lecture is not to be had *)

(** C9. A new entry, as [recordAttendance] builds it, whose lecture the hook
    does not find, or whose lookup throws: the save goes through (no entry
    of the same id or of the same student and lecture being stored), the
    entry is written, and its status is the default, present.  The lookup
    [find] is any that reads; with the model's own [findById] this is the
    case of a lecture that is not stored. *)
Theorem lookup_failure_defaults_to_present
    (find : ObjectId -> M (option (Document Lecture.t)))
    oid student lecture qr dev time db :
  (find lecture db = (Return None, db) \/ exists e, find lecture db = (Throw e, db)) ->
  attendances db !! oid = None ->
  findFirst (samePair student lecture) (attendances db) = None ->
  let new := Attendance.new oid student lecture qr dev time in
  Attendance_saveWith find new db
  = (Return (hydrate oid (this new)), withAttendance db oid (this new))
  /\ Attendance.status (this new) = Attendance.present
  /\ (lectures db !! lecture = None ->
      Attendance_save new db
      = (Return (hydrate oid (this new)), withAttendance db oid (this new))).
Proof.
  intros Hfind Hid Hpair new.
  assert (forall f, (f lecture db = (Return None, db) \/ exists e, f lecture db = (Throw e, db)) ->
            Attendance_saveWith f new db
            = (Return (hydrate oid (this new)), withAttendance db oid (this new))) as Hsave.
  { intros f Hf. unfold Attendance_saveWith. unfold bind at 1.
    unfold new at 1. rewrite Attendance_new_valid. simpl validated. unfold ret at 1.
    unfold bind at 1.
    assert (Attendance_preSaveWith f new db = (Return new, db)) as ->.
    { unfold Attendance_preSaveWith, try_catch, bind. simpl.
      destruct Hf as [-> | [e ->]]; reflexivity. }
    unfold new, Attendance.new, fresh. rewrite Attendance_write_new. simpl.
    by rewrite Hid, Hpair. }
  split; [by apply Hsave|]. split; [reflexivity|].
  intros Hl. apply Hsave. left. by rewrite Lecture_findById_reads, Hl.
Qed.

(** When the lecture is gone for good the entry is written all the same,
    present; it is the later [lecture.save()] of the recording that fails. *)
Example entry_outlives_missing_lecture :
  let db := mkDB ∅ {[ 2%N := token 0 2 true ]} ∅ in
  let run := QRCodeService.recordAttendance 9%N (at_ 9 40)
               (QRCodeService.Valid (hydrate 2%N (token 0 2 true)) (hydrate 1%N morning))
               50%N Attendance.noDevice db in
  fst run = Throw (Error "Failed to record attendance: No document found for query on model Lecture")
  /\ attendances (snd run) !! 9%N = Some (entry 50%N (at_ 9 40) Attendance.present).
Proof. split; vm_compute; reflexivity. Qed.

(** ** The override of a status *)

Lemma withAttendance_same db id a :
  attendances db !! id = Some a -> withAttendance db id a = db.
Proof.
  intros H. destruct db as [ls qs als]. unfold withAttendance. simpl in *.
  by rewrite insert_id.
Qed.

Lemma Attendance_save_loaded find id was now db :
  Attendance.validate now = [] ->
  attendances db !! id = Some was ->
  Attendance_saveWith find (mkDocument id false was now) db
  = (Return (hydrate id now), withAttendance db id now).
Proof.
  intros Hv Hs. unfold Attendance_saveWith. unfold bind at 1. simpl this.
  rewrite Hv. simpl validated. unfold ret at 1. unfold bind at 1.
  rewrite Attendance_preSave_loaded by done.
  rewrite Attendance_write_loaded.
  destruct (decide _) as [->|_].
  - by rewrite withAttendance_same.
  - by rewrite Hs, Attendance_merge_same.
Qed.

(** C10. The override route as it is mounted.  The route hands Express the
    factory [validate] where the middleware [validate(rules)] belongs, so
    a request stops there: for every request no answer is sent, the
    handler is not run and the database stays as it is.  On the entry 9 of
    student 50 (present, verified) and the request of the lecturer of its
    lecture to mark it excused: the handler, called by itself, answers 200
    and stores the entry excused and unverified; the route leaves the
    entry present and verified. *)
Theorem status_override_is_not_reached :
  (forall user id status notes db,
     Lecturer.putAttendanceStatus user id status notes db
     = (Return Express.NoAnswer, db))
  /\ (let db := attended morning (token 1 2 true) in
      let stored := entry 50%N (at_ 9 5) Attendance.present in
      let overridden := Lecturer.override Attendance.excused (Some "sick note") stored in
      attendances db !! 9%N = Some stored
      /\ Attendance.isVerified stored = true
      /\ Lecturer.updateStatus lecturer 9%N Attendance.excused (Some "sick note") db
         = (Return (mkResponse 200
                      (Success "Attendance status updated successfully" overridden)),
            withAttendance db 9%N overridden)
      /\ Attendance.status overridden = Attendance.excused
      /\ Attendance.isVerified overridden = false
      /\ attendances
           (snd (Lecturer.putAttendanceStatus lecturer 9%N Attendance.excused
                   (Some "sick note") db)) !! 9%N
         = Some stored).
Proof.
  split; [reflexivity|].
  intros db stored overridden.
  split; [reflexivity|]. split; [reflexivity|].
  split; [vm_compute; reflexivity|]. split; [reflexivity|]. split; reflexivity.
Qed.

(** ** Instances on the sample data *)

(** A token with 1 scan of 2: the recording of the second scan stores 2 of
    2 and the token inactive. *)
Lemma token_budget_invariant_witness :
  let q := token 1 2 true in
  let db := campus morning q in
  let run := QRCodeService.recordAttendance 10%N (at_ 9 20)
               (QRCodeService.Valid (hydrate 2%N q) (hydrate 1%N morning))
               51%N Attendance.noDevice db in
  qrcodes db !! 2%N = Some q
  /\ QRCodeModel.scanCount q < QRCodeModel.maxScans q
  /\ withinBudget db
  /\ withinBudget (snd run)
  /\ exists q',
       qrcodes (snd run) !! 2%N = Some q'
       /\ QRCodeModel.scanCount q' = QRCodeModel.scanCount q + 1
       /\ QRCodeModel.maxScans q' = QRCodeModel.maxScans q
       /\ QRCodeModel.scanCount q' <= QRCodeModel.maxScans q'
       /\ (QRCodeModel.scanCount q' = QRCodeModel.maxScans q' ->
           QRCodeModel.isActive q' = false).
Proof.
  intros q db run.
  assert (qrcodes db !! 2%N = Some q) as Hq by reflexivity.
  assert (QRCodeModel.scanCount q < QRCodeModel.maxScans q) as Hlt by reflexivity.
  assert (withinBudget db) as Hb.
  { intros id q' H. unfold db, campus in H. simpl in H.
    apply lookup_singleton_Some in H as [_ <-]. simpl. lia. }
  destruct token_budget_invariant as (Hrun & _ & Hrec).
  split; [exact Hq|]. split; [exact Hlt|]. split; [exact Hb|]. split.
  - apply (Hrun db (snd run)); [|exact Hb].
    apply rtc_once. exact (step_record 10%N (at_ 9 20) 2%N q 1%N morning 51%N
                             Attendance.noDevice db Hq Hlt).
  - apply (Hrec 10%N (at_ 9 20) 2%N q 1%N morning 51%N Attendance.noDevice db
             (QRCodeService.mkRecorded 10%N 1%N (at_ 9 20) Attendance.late) (snd run) Hq Hlt).
    vm_compute. reflexivity.
Defined.

(** The lecture from 09:00 to 10:00: a scan at 09:15 is present. *)
Lemma classification_rule_witness :
  let db := campus morning (token 0 2 true) in
  let new := entry 50%N (at_ 9 15) Attendance.present in
  lectures db !! Attendance.lectureId new = Some morning
  /\ Lecture.lectureStart morning = Some (at_ 9 0)
  /\ Lecture.lectureEnd morning = Some (at_ 10 0)
  /\ exists saved,
       Attendance_preSaveWith Lecture_findById (mkDocument 9%N true new new) db
       = (Return saved, db)
       /\ Attendance.status (this saved) = Attendance.present.
Proof.
  intros db new.
  assert (lectures db !! Attendance.lectureId new = Some morning) as Hl by reflexivity.
  assert (Lecture.lectureStart morning = Some (at_ 9 0)) as Hs by (vm_compute; reflexivity).
  assert (Lecture.lectureEnd morning = Some (at_ 10 0)) as He by (vm_compute; reflexivity).
  split; [exact Hl|]. split; [exact Hs|]. split; [exact He|].
  destruct (classification_rule 9%N new new morning db _ _ Hl Hs He)
    as (saved & Hsave & _ & _ & Hpresent & _).
  exists saved. split; [exact Hsave|].
  apply Hpresent; vm_compute; [reflexivity|discriminate].
Defined.

(** Student 50 has an entry for lecture 1: a second recording throws and
    changes nothing. *)
Lemma duplicate_entry_rejected_at_write_witness :
  let db := attended morning (token 1 2 true) in
  let stored := entry 50%N (at_ 9 5) Attendance.present in
  attendances db !! 9%N = Some stored
  /\ samePair 50%N 1%N stored = true
  /\ exists index,
       QRCodeService.recordAttendance 10%N (at_ 9 20)
         (QRCodeService.Valid (hydrate 2%N (token 1 2 true)) (hydrate 1%N morning))
         50%N Attendance.noDevice db
       = (Throw (Error ("Failed to record attendance: "
                        ++ message (DuplicateKeyError "attendances" index))), db).
Proof.
  intros db stored.
  assert (attendances db !! 9%N = Some stored) as Hk by reflexivity.
  assert (samePair 50%N (_id (hydrate 1%N morning)) stored = true) as Hp by reflexivity.
  split; [exact Hk|]. split; [exact Hp|].
  exact (duplicate_entry_rejected_at_write 10%N (at_ 9 20) (hydrate 2%N (token 1 2 true))
           (hydrate 1%N morning) 50%N Attendance.noDevice db 9%N stored Hk Hp).
Defined.

(** A token revoked at 09:30 and again at 09:40. *)
Lemma revocation_twice_witness :
  let q := token 0 2 true in
  let db := campus morning q in
  let once := withQRCode db 2%N (QRCodeService.expireNow (at_ 9 30) q) in
  qrcodes db !! 2%N = Some q
  /\ QRCodeModel.validate q = []
  /\ QRCodeService.deactivateQRCode 2%N (at_ 9 30) db = (Return true, once)
  /\ QRCodeService.deactivateQRCode 2%N (at_ 9 40) once
     = (Return true, withQRCode db 2%N (QRCodeService.expireNow (at_ 9 40) q)).
Proof.
  intros q db once.
  assert (qrcodes db !! 2%N = Some q) as Hq by reflexivity.
  assert (QRCodeModel.validate q = []) as Hv by reflexivity.
  destruct (revocation_twice 2%N q (at_ 9 30) (at_ 9 40) db Hq Hv)
    as (H1 & _ & _ & H2 & _).
  split; [exact Hq|]. split; [exact Hv|]. split; [exact H1|exact H2].
Defined.

(** Issuing with the start time 25:00 on the empty database. *)
Lemma malformed_startTime_persists_nothing_witness :
  matchesHHMM (Lecturer.startTime body2500) = false
  /\ matchesHHMM (Lecture.d_startTime data2500) = false
  /\ (exists errors,
        Lecturer.generateQR issue1 (at_ 8 0) None lecturer body2500 nothing
        = (Return (mkResponse 400 (Rejected errors)), nothing)
        /\ In ("startTime", "Valid start time is required") errors)
  /\ (exists errors,
        In "startTime" (map fst errors)
        /\ Lecture_save (Lecture.new (QRCodeService.lectureOid issue1) data2500) nothing
           = (Throw (ValidationError "Lecture" errors), nothing)
        /\ QRCodeService.generateQRCode issue1 (at_ 8 0) data2500 60 nothing
           = (Throw (Error ("Failed to generate QR code: "
                            ++ message (ValidationError "Lecture" errors))), nothing)).
Proof.
  assert (matchesHHMM (Lecturer.startTime body2500) = false) as Hb by reflexivity.
  assert (matchesHHMM (Lecture.d_startTime data2500) = false) as Hd by reflexivity.
  destruct malformed_startTime_persists_nothing as (_ & Hroute & Hservice).
  split; [exact Hb|]. split; [exact Hd|]. split.
  - exact (Hroute issue1 (at_ 8 0) None lecturer body2500 nothing Hb).
  - exact (Hservice issue1 (at_ 8 0) data2500 60 nothing Hd).
Defined.

(** A new entry saved while the lookup of its lecture throws. *)
Lemma lookup_failure_defaults_to_present_witness :
  let db := campus morning (token 0 2 true) in
  let new := Attendance.new 9%N 50%N 1%N 2%N Attendance.noDevice (at_ 9 40) in
  (lostConnection 1%N db = (Return None, db)
   \/ exists e, lostConnection 1%N db = (Throw e, db))
  /\ attendances db !! 9%N = None
  /\ findFirst (samePair 50%N 1%N) (attendances db) = None
  /\ Attendance_saveWith lostConnection new db
     = (Return (hydrate 9%N (this new)), withAttendance db 9%N (this new))
  /\ Attendance.status (this new) = Attendance.present.
Proof.
  intros db new.
  assert (lostConnection 1%N db = (Return None, db)
          \/ exists e, lostConnection 1%N db = (Throw e, db)) as Hfind
    by (right; eexists; reflexivity).
  assert (attendances db !! 9%N = None) as Hid by reflexivity.
  assert (findFirst (samePair 50%N 1%N) (attendances db) = None) as Hpair
    by (vm_compute; reflexivity).
  destruct (lookup_failure_defaults_to_present lostConnection 9%N 50%N 1%N 2%N
              Attendance.noDevice (at_ 9 40) db Hfind Hid Hpair) as (Hsave & Hstatus & _).
  split; [exact Hfind|]. split; [exact Hid|]. split; [exact Hpair|].
  split; [exact Hsave|exact Hstatus].
Defined.

(** * Further properties *)

(** ** Issuance *)


Lemma Lecture_new_unlinked id data : Lecture.qrCodeId (this (Lecture.new id data)) = None.
Proof. reflexivity. Qed.




Lemma QRCodeModel_save_new_throws id v db e db' :
  QRCodeModel_save (fresh id v) db = (Throw e, db') -> db' = db.
Proof.
  rewrite QRCodeModel_save_new.
  destruct (QRCodeModel.validate v); [|by intros [= _ <-]].
  destruct (qrcodes db !! id); [by intros [= _ <-]|].
  destruct (findFirst _ _); [by intros [= _ <-]|done].
Qed.

(** X2. An issuance is not all or nothing: when the lecture has been saved
    and the save of the token throws (its id or its code is taken, or a
    path is invalid), the call throws under its own prefix and the
    database keeps the lecture, without a token reference. *)
Theorem failed_token_save_keeps_the_lecture env now data durationMinutes db e db' :
  let lecture := this (Lecture.new (QRCodeService.lectureOid env) data) in
  Lecture.validate lecture = [] ->
  lectures db !! QRCodeService.lectureOid env = None ->
  QRCodeModel_save
    (QRCodeModel.new (QRCodeService.qrOid env) (QRCodeService.lectureOid env)
       (QRCodeService.uuid env) (QRCodeService.image env)
       (now + durationMinutes * msPerMinute)
       (if Lecture.totalStudents lecture =? 0 then 100 else Lecture.totalStudents lecture))
    (withLecture db (QRCodeService.lectureOid env) lecture) = (Throw e, db') ->
  QRCodeService.generateQRCode env now data durationMinutes db
  = (Throw (Error ("Failed to generate QR code: " ++ message e)),
     withLecture db (QRCodeService.lectureOid env) lecture)
  /\ Lecture.qrCodeId lecture = None.
Proof.
  intros lecture Hvalid Hlid Hsave. split; [|reflexivity].
  pose proof (QRCodeModel_save_new_throws _ _ _ _ _ Hsave) as ->.
  unfold QRCodeService.generateQRCode, try_catch. unfold bind at 1.
  change (Lecture.new (QRCodeService.lectureOid env) data)
    with (fresh (QRCodeService.lectureOid env) lecture).
  rewrite Lecture_save_new, Hvalid, Hlid. cbn [_id this hydrate].
  unfold bind at 1. by rewrite Hsave.
Qed.

(** ** Recording *)

Lemma countAttendance_changes l : QRCodeService.countAttendance l <> l.
Proof.
  intros H. apply (f_equal Lecture.attendanceCount) in H. simpl in H. lia.
Qed.

(** the entry a recording writes *)
Lemma Attendance_save_new oid student lid qid dev now db :
  attendances db !! oid = None ->
  findFirst (samePair student lid) (attendances db) = None ->
  let status :=
    match lectures db !! lid with
    | Some l => Attendance.classify now (Lecture.lectureStart l) (Lecture.lectureEnd l)
    | None => Attendance.present
    end in
  let a := Attendance.mk student lid qid now status dev true None in
  Attendance_save (Attendance.new oid student lid qid dev now) db
  = (Return (hydrate oid a), withAttendance db oid a).
Proof.
  intros Hoid Hpair status a.
  unfold Attendance_save, Attendance_saveWith. unfold bind at 1.
  rewrite Attendance_new_valid. simpl validated. unfold ret at 1.
  unfold bind at 1. unfold Attendance.new, fresh.
  rewrite Attendance_preSave_new. cbn [Attendance.lectureId Attendance.scanTime].
  rewrite Attendance_write_new.
  unfold a, status.
  destruct (lectures db !! lid); simpl; by rewrite Hoid, Hpair.
Qed.

(** X3. A recording that goes through: on the stored token and the stored
    lecture of an accepting validation, with the entry's id free, no entry
    of the student for the lecture and both documents valid after their
    counts are raised, the call returns the status the hook computed from
    the scan time, and the database has gained exactly the entry (verified,
    with that status), the token with one scan more (inactive once the
    limit is reached) and the lecture with one attendance more. *)
Theorem recording_writes_entry_token_and_lecture oid now qid q lid l student dev db :
  qrcodes db !! qid = Some q ->
  lectures db !! lid = Some l ->
  attendances db !! oid = None ->
  findFirst (samePair student lid) (attendances db) = None ->
  QRCodeModel.validate (QRCodeService.countScan q) = [] ->
  Lecture.validate (QRCodeService.countAttendance l) = [] ->
  let status := Attendance.classify now (Lecture.lectureStart l) (Lecture.lectureEnd l) in
  QRCodeService.recordAttendance oid now
    (QRCodeService.Valid (hydrate qid q) (hydrate lid l)) student dev db
  = (Return (QRCodeService.mkRecorded oid lid now status),
     mkDB (<[lid := QRCodeService.countAttendance l]> (lectures db))
          (<[qid := QRCodeService.countScan q]> (qrcodes db))
          (<[oid := Attendance.mk student lid qid now status dev true None]>
             (attendances db))).
Proof.
  intros Hq Hl Hoid Hpair Hqv Hlv status.
  unfold QRCodeService.recordAttendance, try_catch. unfold bind at 1.
  change (_id (hydrate lid l)) with lid. change (_id (hydrate qid q)) with qid.
  rewrite (Attendance_save_new oid student lid qid dev now db Hoid Hpair), Hl.
  unfold bind at 1.
  change (assign QRCodeService.countScan (hydrate qid q))
    with (mkDocument qid false q (QRCodeService.countScan q)).
  rewrite QRCodeModel_save_loaded, Hqv.
  destruct (decide _) as [E|_]; [by apply countScan_changes in E|].
  cbn [qrcodes withAttendance]. rewrite Hq, QRCode_merge_same.
  unfold bind at 1.
  change (assign QRCodeService.countAttendance (hydrate lid l))
    with (mkDocument lid false l (QRCodeService.countAttendance l)).
  rewrite Lecture_save_loaded, Hlv.
  destruct (decide _) as [E|_]; [by apply countAttendance_changes in E|].
  cbn [lectures withAttendance withQRCode]. rewrite Hl, Lecture_merge_same.
  reflexivity.
Qed.

(** X4. A recording is not all or nothing: when the token it was handed is
    no longer stored, the entry has been written by the time the save of
    the token throws; the call throws under its own prefix, the entry
    stays, and no count is raised. *)
Theorem recording_keeps_entry_when_token_is_gone oid now qid q lid l student dev db :
  qrcodes db !! qid = None ->
  attendances db !! oid = None ->
  findFirst (samePair student lid) (attendances db) = None ->
  QRCodeModel.validate (QRCodeService.countScan q) = [] ->
  exists a,
    QRCodeService.recordAttendance oid now
      (QRCodeService.Valid (hydrate qid q) (hydrate lid l)) student dev db
    = (Throw (Error ("Failed to record attendance: "
                     ++ message (DocumentNotFoundError "QRCode"))),
       withAttendance db oid a)
    /\ Attendance.studentId a = student /\ Attendance.lectureId a = lid.
Proof.
  intros Hq Hoid Hpair Hqv.
  unfold QRCodeService.recordAttendance, try_catch. unfold bind at 1.
  change (_id (hydrate lid l)) with lid. change (_id (hydrate qid q)) with qid.
  rewrite (Attendance_save_new oid student lid qid dev now db Hoid Hpair).
  unfold bind at 1.
  change (assign QRCodeService.countScan (hydrate qid q))
    with (mkDocument qid false q (QRCodeService.countScan q)).
  rewrite QRCodeModel_save_loaded, Hqv.
  destruct (decide _) as [E|_]; [by apply countScan_changes in E|].
  cbn [qrcodes withAttendance]. rewrite Hq.
  eexists. split; [reflexivity|]. by split.
Qed.

(** ** The scan route *)

(** X6. No scan is recorded through the scan route.  As it is mounted, the
    route hands Express the factory [validate] where the middleware
    belongs: every request is left without an answer, the handler is not
    run and nothing is written.  The handler, called by itself, answers
    every request with 400 and the text of the failed lookup, and writes
    nothing either: it answers no request with 200. *)
Theorem scan_route_records_nothing req db :
  Student.postScan req db = (Return Express.NoAnswer, db)
  /\ Student.scan req db
     = (Return (mkResponse 400
                  (Failure ("QR code validation failed: " ++ message lookupError))), db).
Proof.
  split; [reflexivity|].
  unfold Student.scan, try_catch, bind. by rewrite validateQRCode_throws.
Qed.

(** ** What each operation writes *)

Lemma QRCodeModel_save_frame d db :
  lectures (snd (QRCodeModel_save d db)) = lectures db
  /\ attendances (snd (QRCodeModel_save d db)) = attendances db.
Proof.
  destruct d as [id [] was v].
  - change (mkDocument id true was v) with (mkDocument id true was v).
    unfold QRCodeModel_save, bind, validated, get, put, ret, throw; simpl.
    destruct (QRCodeModel.validate v); [|done].
    destruct (qrcodes db !! id); [done|]. by destruct (findFirst _ _).
  - rewrite QRCodeModel_save_loaded.
    destruct (QRCodeModel.validate v); [|done].
    destruct (decide _); [done|]. by destruct (qrcodes db !! id).
Qed.

Lemma deactivateQRCode_effect id now db db' :
  db' = snd (QRCodeService.deactivateQRCode id now db) ->
  db' = db
  \/ exists q, qrcodes db !! id = Some q
               /\ db' = withQRCode db id (QRCodeService.expireNow now q).
Proof.
  unfold QRCodeService.deactivateQRCode, try_catch. unfold bind at 1.
  rewrite QRCodeModel_findById_reads.
  destruct (qrcodes db !! id) as [q|] eqn:Hq; simpl; [|intros ->; by left].
  unfold bind at 1.
  change (assign (QRCodeService.expireNow now) (hydrate id q))
    with (mkDocument id false q (QRCodeService.expireNow now q)).
  rewrite QRCodeModel_save_loaded.
  destruct (QRCodeModel.validate _); [|intros ->; by left].
  destruct (decide _); [intros ->; by left|].
  rewrite Hq, QRCode_merge_same. simpl. intros ->. right. by exists q.
Qed.

Lemma generateQRCode_effect env now data duration db db' :
  db' = snd (QRCodeService.generateQRCode env now data duration db) ->
  attendances db' = attendances db
  /\ (qrcodes db' = qrcodes db
      \/ (qrcodes db !! QRCodeService.qrOid env = None
          /\ exists v, qrcodes db' = <[QRCodeService.qrOid env := v]> (qrcodes db))).
Proof.
  unfold QRCodeService.generateQRCode, try_catch. unfold bind at 1.
  pose proof (Lecture_save_frame (Lecture.new (QRCodeService.lectureOid env) data) db)
    as [Hq1 Ha1].
  destruct (Lecture_save _ db) as [[lecture|e] db1]; simpl in Hq1, Ha1;
    [|intros ->; split; [done|by left]].
  unfold bind at 1. unfold QRCodeModel.new. rewrite QRCodeModel_save_new.
  destruct (QRCodeModel.validate _); [|intros ->; split; [done|by left]].
  destruct (qrcodes db1 !! QRCodeService.qrOid env) eqn:Hfree;
    [intros ->; split; [done|by left]|].
  destruct (findFirst _ _); [intros ->; split; [done|by left]|].
  unfold bind at 1.
  match goal with
  | |- context [Lecture_save ?d ?s] =>
      pose proof (Lecture_save_frame d s) as [Hq2 Ha2];
      destruct (Lecture_save d s) as [[lecture'|e] db2]
  end; unfold ret, throw; simpl in *; intros ->.
  all: split; [congruence|]; right; rewrite <- Hq1; split; [done|]; eexists;
    rewrite Hq2; by rewrite Hq1.
Qed.

Lemma recordAttendance_entries oid now qid q lid l student dev db db' :
  db' = snd (QRCodeService.recordAttendance oid now
               (QRCodeService.Valid (hydrate qid q) (hydrate lid l)) student dev db) ->
  attendances db' = attendances db
  \/ (attendances db !! oid = None
      /\ findFirst (samePair student lid) (attendances db) = None
      /\ exists a, Attendance.studentId a = student /\ Attendance.lectureId a = lid
                   /\ attendances db' = <[oid := a]> (attendances db)).
Proof.
  unfold QRCodeService.recordAttendance, try_catch. unfold bind at 1.
  change (_id (hydrate lid l)) with lid. change (_id (hydrate qid q)) with qid.
  destruct (attendances db !! oid) eqn:Hoid.
  { unfold Attendance_save, Attendance_saveWith. unfold bind at 1.
    rewrite Attendance_new_valid. simpl validated. unfold ret at 1.
    unfold bind at 1. unfold Attendance.new, fresh.
    rewrite Attendance_preSave_new, Attendance_write_new, Hoid.
    intros ->. by left. }
  destruct (findFirst (samePair student lid) (attendances db)) eqn:Hpair.
  { unfold Attendance_save, Attendance_saveWith. unfold bind at 1.
    rewrite Attendance_new_valid. simpl validated. unfold ret at 1.
    unfold bind at 1. unfold Attendance.new, fresh.
    rewrite Attendance_preSave_new, Attendance_write_new, Hoid.
    cbn [Attendance.studentId Attendance.lectureId Attendance.scanTime].
    destruct (lectures db !! lid);
      cbn [Attendance.studentId Attendance.lectureId setStatus];
      rewrite Hpair; intros ->; by left. }
  rewrite (Attendance_save_new oid student lid qid dev now db Hoid Hpair).
  intros ->. right. split; [done|]. split; [done|].
  eexists. split; [|split]; [| |].
  3:{ unfold bind at 1.
      match goal with
      | |- context [QRCodeModel_save ?d ?s] =>
          pose proof (QRCodeModel_save_frame d s) as [_ Ha1];
          destruct (QRCodeModel_save d s) as [[q'|e] db1]
      end; simpl in Ha1; [|simpl; exact Ha1].
      unfold bind at 1.
      match goal with
      | |- context [Lecture_save ?d ?s] =>
          pose proof (Lecture_save_frame d s) as [_ Ha2];
          destruct (Lecture_save d s) as [[l'|e] db2]
      end; simpl in Ha2; unfold ret, throw; simpl; by rewrite Ha2, Ha1. }
  all: reflexivity.
Qed.

Lemma updateStatus_entries user attendanceId status notes db db' :
  db' = snd (Lecturer.updateStatus user attendanceId status notes db) ->
  attendances db' = attendances db
  \/ exists a, attendances db !! attendanceId = Some a
               /\ attendances db'
                  = <[attendanceId := Lecturer.override status notes a]> (attendances db).
Proof.
  unfold Lecturer.updateStatus, try_catch. unfold bind at 1.
  rewrite Attendance_findById_reads.
  destruct (attendances db !! attendanceId) as [a|] eqn:Ha; simpl; [|intros ->; by left].
  unfold bind at 1. rewrite Lecture_findById_reads.
  destruct (lectures db !! Attendance.lectureId a) as [l|]; simpl; [|intros ->; by left].
  destruct (negb _); [intros ->; by left|]. unfold bind at 1.
  change (assign (Lecturer.override status notes) (hydrate attendanceId a))
    with (mkDocument attendanceId false a (Lecturer.override status notes a)).
  unfold Attendance_save, Attendance_saveWith. unfold bind at 1. simpl this.
  destruct (Attendance.validate _); simpl validated; [|intros ->; by left].
  unfold ret at 1. unfold bind at 1.
  rewrite Attendance_preSave_loaded by done. rewrite Attendance_write_loaded.
  destruct (decide _); [intros ->; by left|].
  rewrite Ha, Attendance_merge_same. simpl. intros ->. right. by exists a.
Qed.

(** X7. A revocation writes to one token at most: the lectures, the
    entries and every other token are as before, and of the token itself
    only [isActive] and [expiresAt] can differ; for an id that is not
    stored the call throws "QR code not found" under the prefix of the
    service and nothing is written. *)
Theorem revocation_writes_one_token id now db :
  lectures (snd (QRCodeService.deactivateQRCode id now db)) = lectures db
  /\ attendances (snd (QRCodeService.deactivateQRCode id now db)) = attendances db
  /\ (forall k, k <> id ->
        qrcodes (snd (QRCodeService.deactivateQRCode id now db)) !! k = qrcodes db !! k)
  /\ (forall q, qrcodes db !! id = Some q ->
        exists q', qrcodes (snd (QRCodeService.deactivateQRCode id now db)) !! id = Some q'
                   /\ QRCodeModel.scanCount q' = QRCodeModel.scanCount q
                   /\ QRCodeModel.maxScans q' = QRCodeModel.maxScans q
                   /\ QRCodeModel.uniqueCode q' = QRCodeModel.uniqueCode q
                   /\ QRCodeModel.lectureId q' = QRCodeModel.lectureId q
                   /\ QRCodeModel.qrCodeImage q' = QRCodeModel.qrCodeImage q)
  /\ (qrcodes db !! id = None ->
      QRCodeService.deactivateQRCode id now db
      = (Throw (Error "Failed to deactivate QR code: QR code not found"), db)).
Proof.
  destruct (deactivateQRCode_effect id now db _ eq_refl) as [->|(q0 & Hq0 & ->)].
  - repeat split; try done.
    + intros q Hq. by exists q.
    + apply deactivateQRCode_missing.
  - repeat split; try done.
    + intros k Hk. simpl. by rewrite lookup_insert_ne.
    + intros q Hq. rewrite Hq0 in Hq. injection Hq as <-.
      eexists. simpl. rewrite lookup_insert_eq. by repeat split.
    + apply deactivateQRCode_missing.
Qed.

(** ** Invariants of the runs *)

Lemma onePerPair_insert_new db oid a (m : gmap ObjectId Attendance.t) :
  m = attendances db ->
  onePerPair db ->
  m !! oid = None ->
  findFirst (samePair (Attendance.studentId a) (Attendance.lectureId a)) m = None ->
  forall db', attendances db' = <[oid := a]> m -> onePerPair db'.
Proof.
  intros -> Hone Hoid Hpair db' Hdb' k1 k2 a1 a2 H1 H2 Hs Hl.
  rewrite Hdb' in H1, H2. rewrite findFirst_None in Hpair.
  assert (forall k v, attendances db !! k = Some v ->
            Attendance.studentId v = Attendance.studentId a ->
            Attendance.lectureId v = Attendance.lectureId a -> False) as Hno.
  { intros k v Hk E1 E2. specialize (Hpair k v Hk). unfold samePair in Hpair.
    rewrite E1, E2, !N.eqb_refl in Hpair. done. }
  destruct (decide (oid = k1)) as [<-|N1]; destruct (decide (oid = k2)) as [<-|N2];
    try done.
  - rewrite lookup_insert_eq in H1. injection H1 as <-.
    rewrite lookup_insert_ne in H2 by done. exfalso. by apply (Hno k2 a2).
  - rewrite lookup_insert_eq in H2. injection H2 as <-.
    rewrite lookup_insert_ne in H1 by done. exfalso. by apply (Hno k1 a1).
  - rewrite lookup_insert_ne in H1, H2 by done. by apply (Hone k1 k2 a1 a2).
Qed.

Lemma onePerPair_same (db db' : DB) :
  attendances db' = attendances db -> onePerPair db -> onePerPair db'.
Proof. intros E H k1 k2 a1 a2. rewrite E. apply H. Qed.

Lemma step_onePerPair db db' : step db db' -> onePerPair db -> onePerPair db'.
Proof.
  intros [req db0 | oid now qid q lid l student dev db0 Hq Hlt
          | env now data duration db0 | qrCodeId now db0
          | user attendanceId status notes db0] Hone.
  - by rewrite scan_answers_400.
  - destruct (recordAttendance_entries oid now qid q lid l student dev db0 _ eq_refl)
      as [E|(Hoid & Hpair & a & <- & <- & E)].
    + by apply (onePerPair_same db0).
    + by apply (onePerPair_insert_new db0 oid a (attendances db0)).
  - destruct (generateQRCode_effect env now data duration db0 _ eq_refl) as [E _].
    by apply (onePerPair_same db0).
  - destruct (deactivateQRCode_effect qrCodeId now db0 _ eq_refl) as [->|(q0 & _ & ->)];
      by apply (onePerPair_same db0).
  - destruct (updateStatus_entries user attendanceId status notes db0 _ eq_refl)
      as [E|(a & Ha & E)].
    + by apply (onePerPair_same db0).
    + intros k1 k2 a1 a2 H1 H2. rewrite E in H1, H2.
      assert (forall k v, <[attendanceId := Lecturer.override status notes a]>
                            (attendances db0) !! k = Some v ->
                exists v0, attendances db0 !! k = Some v0
                           /\ Attendance.studentId v = Attendance.studentId v0
                           /\ Attendance.lectureId v = Attendance.lectureId v0) as Hback.
      { intros k v Hk. destruct (decide (attendanceId = k)) as [<-|N].
        - rewrite lookup_insert_eq in Hk. injection Hk as <-. by exists a.
        - rewrite lookup_insert_ne in Hk by done. by exists v. }
      destruct (Hback _ _ H1) as (v1 & Hv1 & -> & ->).
      destruct (Hback _ _ H2) as (v2 & Hv2 & -> & ->).
      by apply (Hone k1 k2 v1 v2).
Qed.

(** X8. One entry per student and lecture: a database in which no student
    has two entries for one lecture stays so along every run of the
    system (scan requests, recordings on validated tokens, issuances,
    revocations, overrides). *)
Theorem one_entry_per_student_and_lecture db db' :
  rtc step db db' -> onePerPair db -> onePerPair db'.
Proof.
  intros Hrun. induction Hrun as [|db1 db2 db3 Hstep _ IH]; [done|].
  intros Hone. apply IH. by apply (step_onePerPair db1).
Qed.

Lemma step_keeps_tokens db db' :
  step db db' ->
  forall id q, qrcodes db !! id = Some q ->
    exists q', qrcodes db' !! id = Some q'
               /\ QRCodeModel.scanCount q <= QRCodeModel.scanCount q'
               /\ QRCodeModel.maxScans q' = QRCodeModel.maxScans q
               /\ QRCodeModel.uniqueCode q' = QRCodeModel.uniqueCode q
               /\ QRCodeModel.lectureId q' = QRCodeModel.lectureId q.
Proof.
  assert (forall (m : gmap ObjectId QRCodeModel.t) k v v0 id q,
            m !! k = Some v0 ->
            QRCodeModel.scanCount v0 <= QRCodeModel.scanCount v ->
            QRCodeModel.maxScans v = QRCodeModel.maxScans v0 ->
            QRCodeModel.uniqueCode v = QRCodeModel.uniqueCode v0 ->
            QRCodeModel.lectureId v = QRCodeModel.lectureId v0 ->
            m !! id = Some q ->
            exists q', <[k := v]> m !! id = Some q'
                       /\ QRCodeModel.scanCount q <= QRCodeModel.scanCount q'
                       /\ QRCodeModel.maxScans q' = QRCodeModel.maxScans q
                       /\ QRCodeModel.uniqueCode q' = QRCodeModel.uniqueCode q
                       /\ QRCodeModel.lectureId q' = QRCodeModel.lectureId q) as Hupd.
  { intros m k v v0 id q Hk H1 H2 H3 H4 Hid.
    destruct (decide (k = id)) as [->|N].
    - rewrite Hk in Hid. injection Hid as <-. exists v. by rewrite lookup_insert_eq.
    - exists q. rewrite lookup_insert_ne by done. repeat split; (done || lia). }
  intros [req db0 | oid now qid q0 lid l student dev db0 Hq Hlt
          | env now data duration db0 | qrCodeId now db0
          | user attendanceId status notes db0] id q Hid.
  - rewrite scan_answers_400. exists q. repeat split; (done || lia).
  - destruct (recordAttendance_tokens oid now qid q0 lid l student dev db0 Hq _ eq_refl)
      as [E|E]; rewrite E.
    + exists q. repeat split; (done || lia).
    + apply (Hupd _ _ _ q0); try done; simpl; lia.
  - destruct (generateQRCode_effect env now data duration db0 _ eq_refl)
      as [_ [E|(Hfree & v & E)]]; rewrite E.
    + exists q. repeat split; (done || lia).
    + exists q. rewrite lookup_insert_ne by congruence. repeat split; (done || lia).
  - destruct (deactivateQRCode_effect qrCodeId now db0 _ eq_refl) as [->|(q1 & Hq1 & ->)].
    + exists q. repeat split; (done || lia).
    + simpl. apply (Hupd _ _ _ q1); try done; simpl; lia.
  - rewrite updateStatus_tokens. exists q. repeat split; (done || lia).
Qed.

(** X9. Tokens are kept and their budget only fills: along every run of the
    system a stored token stays stored with the same code, lecture and
    [maxScans], and its [scanCount] never goes down. *)
Theorem tokens_are_kept_and_counts_only_grow db db' :
  rtc step db db' ->
  forall id q, qrcodes db !! id = Some q ->
    exists q', qrcodes db' !! id = Some q'
               /\ QRCodeModel.scanCount q <= QRCodeModel.scanCount q'
               /\ QRCodeModel.maxScans q' = QRCodeModel.maxScans q
               /\ QRCodeModel.uniqueCode q' = QRCodeModel.uniqueCode q
               /\ QRCodeModel.lectureId q' = QRCodeModel.lectureId q.
Proof.
  intros Hrun. induction Hrun as [|db1 db2 db3 Hstep _ IH]; intros id q Hid.
  - exists q. repeat split; (done || lia).
  - destruct (step_keeps_tokens db1 db2 Hstep id q Hid) as (q2 & H2 & Hc & Hm & Hu & Hl).
    destruct (IH id q2 H2) as (q3 & H3 & Hc3 & Hm3 & Hu3 & Hl3).
    exists q3. repeat split; (done || lia || congruence).
Qed.

(** ** Times *)

Lemma matchesHHMM_parts s :
  matchesHHMM s = true ->
  exists a b h m, split s = [a; b] /\ Number a = Some h /\ Number b = Some m
                  /\ 0 <= h <= 23 /\ 0 <= m <= 59.
Proof.
  destruct s as [|c1 [|c2 [|c3 [|c4 [|c5 [|c6 r]]]]]]; try discriminate.
  - simpl. rewrite !andb_true_iff. intros [[[Hh Hc] Hm1] Hm2].
    apply Ascii.eqb_eq in Hc as ->.
    destruct (digit_in_range "0" "9" c1) as (dh & Edh & Bh & Nh & Uh); [vm_compute; lia..|done|].
    destruct (digit_in_range "0" "5" c3) as (d1 & Ed1 & B1 & N1 & U1); [vm_compute; lia..|done|].
    destruct (digit_in_range "0" "9" c4) as (d2 & Ed2 & B2 & N2 & U2); [vm_compute; lia..|done|].
    change (Z.of_nat (nat_of_ascii "0")) with 48 in *.
    change (Z.of_nat (nat_of_ascii "9")) with 57 in *.
    change (Z.of_nat (nat_of_ascii "5")) with 53 in *.
    exists (String c1 EmptyString), (String c3 (String c4 EmptyString)), dh, (10 * d1 + d2).
    split; [|split; [|split]].
    + unfold split. simpl split_colon. rewrite Nh, N1, N2. by cbv [append].
    + rewrite Uh. cbn [digits]. rewrite Edh. f_equal; lia.
    + rewrite U1. cbn [digits]. rewrite Ed1, Ed2. f_equal; lia.
    + lia.
  - simpl. rewrite !andb_true_iff, orb_true_iff, !andb_true_iff.
    intros [[[Hh Hc] Hm1] Hm2].
    apply Ascii.eqb_eq in Hc as ->.
    destruct (digit_in_range "0" "5" c4) as (d1 & Ed1 & B1 & N1 & U1); [vm_compute; lia..|done|].
    destruct (digit_in_range "0" "9" c5) as (d2 & Ed2 & B2 & N2 & U2); [vm_compute; lia..|done|].
    assert (exists e1 e2, digit c1 = Some e1 /\ digit c2 = Some e2
              /\ 0 <= 10 * e1 + e2 <= 23
              /\ Ascii.eqb c1 ":" = false /\ Ascii.eqb c2 ":" = false
              /\ forall r, Number (String c1 r) = digits 0 (String c1 r))
      as (e1 & e2 & Ee1 & Ee2 & Bh & Nc1 & Nc2 & Uh).
    { destruct Hh as [[H1 H2]|[H1 H2]].
      - destruct (digit_in_range "0" "1" c1) as (e1 & ? & ? & ? & ?); [vm_compute; lia..|done|].
        destruct (digit_in_range "0" "9" c2) as (e2 & ? & ? & ? & ?); [vm_compute; lia..|done|].
        change (Z.of_nat (nat_of_ascii "0")) with 48 in *.
        change (Z.of_nat (nat_of_ascii "1")) with 49 in *.
        change (Z.of_nat (nat_of_ascii "9")) with 57 in *.
        exists e1, e2. repeat split; try done; lia.
      - apply Ascii.eqb_eq in H1 as ->.
        destruct (digit_in_range "0" "3" c2) as (e2 & ? & ? & ? & ?); [vm_compute; lia..|done|].
        change (Z.of_nat (nat_of_ascii "0")) with 48 in *.
        change (Z.of_nat (nat_of_ascii "3")) with 51 in *.
        exists 2, e2. repeat split; try done; lia. }
    change (Z.of_nat (nat_of_ascii "0")) with 48 in *.
    change (Z.of_nat (nat_of_ascii "9")) with 57 in *.
    change (Z.of_nat (nat_of_ascii "5")) with 53 in *.
    exists (String c1 (String c2 EmptyString)), (String c4 (String c5 EmptyString)),
      (10 * e1 + e2), (10 * d1 + d2).
    split; [|split; [|split]].
    + unfold split. simpl split_colon. rewrite Nc1, Nc2, N1, N2. by cbv [append].
    + rewrite Uh. cbn [digits]. rewrite Ee1, Ee2. f_equal; lia.
    + rewrite U1. cbn [digits]. rewrite Ed1, Ed2. f_equal; lia.
    + lia.
Qed.

(** X10. A time that the schema's pattern accepts names a minute of the
    day: on any day it is a valid instant, a whole number of minutes after
    the start of that day and before the start of the next. *)
Theorem accepted_time_is_a_minute_of_the_day day s :
  matchesHHMM s = true ->
  exists minutes,
    0 <= minutes < 24 * 60
    /\ minutesOf s = Some minutes
    /\ atTime day s = Some (day / msPerDay * msPerDay + minutes * msPerMinute).
Proof.
  intros Hm. destruct (matchesHHMM_parts s Hm) as (a & b & h & m & Hs & Ha & Hb & Bh & Bm).
  exists (h * 60 + m). split; [lia|]. split.
  - unfold minutesOf. rewrite Hs. simpl. by rewrite Ha, Hb.
  - unfold atTime. rewrite Hs. simpl. rewrite Ha, Hb. simpl.
    f_equal. unfold msPerHour, msPerMinute. lia.
Qed.

(** X11. For a lecture that passes the schema, the virtual [duration] is
    the distance in minutes from the start the scan path computes to the
    end it computes; it lies strictly between minus and plus a day, and it
    is negative exactly when the end time is earlier than the start time,
    as for a lecture that runs over midnight. *)
Theorem duration_is_end_less_start l :
  Lecture.validate l = [] ->
  exists d st en,
    Lecture_duration l = Some d
    /\ Lecture.lectureStart l = Some st
    /\ Lecture.lectureEnd l = Some en
    /\ en - st = d * msPerMinute
    /\ - (24 * 60) < d < 24 * 60
    /\ (d < 0 <-> en < st).
Proof.
  unfold Lecture.validate. intros H.
  do 3 apply app_eq_nil in H as [_ H].
  apply app_eq_nil in H as [Hs1 H]. apply app_eq_nil in H as [Hs2 H].
  apply app_eq_nil in H as [He1 H]. apply app_eq_nil in H as [He2 _].
  unfold required, check, Lecture.matchTime in *.
  destruct (String.eqb (Lecture.startTime l) EmptyString); [done|].
  destruct (String.eqb (Lecture.endTime l) EmptyString); [done|].
  destruct (matchesHHMM (Lecture.startTime l)) eqn:Ms; [|done].
  destruct (matchesHHMM (Lecture.endTime l)) eqn:Me; [|done].
  destruct (matchesHHMM_parts _ Ms) as (a & b & h & m & Hs & Ha & Hb & Bh & Bm).
  destruct (matchesHHMM_parts _ Me) as (a' & b' & h' & m' & Hs' & Ha' & Hb' & Bh' & Bm').
  exists (h' * 60 + m' - (h * 60 + m)).
  exists (Lecture.date l / msPerDay * msPerDay + h * msPerHour + m * msPerMinute).
  exists (Lecture.date l / msPerDay * msPerDay + h' * msPerHour + m' * msPerMinute).
  split; [|split; [|split]].
  - unfold Lecture_duration, minutesOf. rewrite Hs, Hs'. simpl.
    by rewrite Ha, Hb, Ha', Hb'.
  - unfold Lecture.lectureStart, atTime. rewrite Hs. simpl. by rewrite Ha, Hb.
  - unfold Lecture.lectureEnd, atTime. rewrite Hs'. simpl. by rewrite Ha', Hb'.
  - unfold msPerHour, msPerMinute. lia.
Qed.

(** ** Statistics *)

Lemma documents_In {T} (m : gmap ObjectId T) d :
  In d (documents m) <-> isNew d = false /\ loaded d = this d /\ m !! _id d = Some (this d).
Proof.
  unfold documents. rewrite <- list_elem_of_In, list_elem_of_fmap. split.
  - intros ([k v] & -> & Hin). apply elem_of_map_to_list in Hin. by simpl.
  - intros (Hn & Hl & Hm). destruct d as [id n was v]. simpl in *. subst.
    exists (id, v). split; [done|]. by apply elem_of_map_to_list.
Qed.

Lemma owned_ids db (lecturerId x : ObjectId) :
  existsb (N.eqb x)
    (map _id (List.filter (fun d => N.eqb (Lecture.lecturerId (this d)) lecturerId)
                (documents (lectures db))))
  = match lectures db !! x with
    | Some l => N.eqb (Lecture.lecturerId l) lecturerId
    | None => false
    end.
Proof.
  apply eq_true_iff_eq. rewrite existsb_exists. split.
  - intros (y & Hin & Hy). apply N.eqb_eq in Hy as <-.
    apply in_map_iff in Hin as (d & <- & Hd).
    apply filter_In in Hd as [Hd Hown]. apply documents_In in Hd as (_ & _ & Hd).
    by rewrite Hd.
  - destruct (lectures db !! x) as [l|] eqn:Hl; [|done]. intros Hown.
    exists x. split; [|apply N.eqb_refl].
    apply in_map_iff. exists (hydrate x l). split; [done|].
    apply filter_In. split; [|done]. by apply documents_In.
Qed.

(** the codes of the lectures of a lecturer *)
Lemma getQRCodeStats_value lecturerId now db :
  let qrCodes := List.filter (fun d => owns db lecturerId (this d)) (documents (qrcodes db)) in
  getQRCodeStats lecturerId now db
  = (Return {| Stats.totalQRCodes := Z.of_nat (length qrCodes);
               Stats.activeQRCodes := Z.of_nat (length (List.filter (stillActive now) qrCodes));
               Stats.totalScans := sumScans qrCodes;
               Stats.avgScanRate :=
                 if (0 <? Z.of_nat (length qrCodes))
                 then Stats.Fixed2 (sumScans qrCodes) (Z.of_nat (length qrCodes))
                 else Stats.NoCodes |}, db).
Proof.
  intros qrCodes.
  cbv [getQRCodeStats try_catch bind Lecture_find QRCodeModel_findIn get ret].
  rewrite (filter_ext
             (fun d : Document QRCodeModel.t =>
                existsb (N.eqb (QRCodeModel.lectureId (this d)))
                  (map _id (List.filter
                     (fun d0 : Document Lecture.t =>
                        N.eqb (Lecture.lecturerId (this d0)) lecturerId)
                     (documents (lectures db)))))
             (fun d => owns db lecturerId (this d))
             (fun d => owned_ids db lecturerId (QRCodeModel.lectureId (this d)))).
  reflexivity.
Qed.

Lemma sumScans_from acc l :
  fold_left (fun sum qr => sum + QRCodeModel.scanCount (this qr)) l acc = acc + sumScans l.
Proof.
  unfold sumScans. revert acc. induction l as [|x l IH]; intros acc; simpl; [lia|].
  rewrite IH, (IH (0 + _)). lia.
Qed.

Lemma sumScans_cons x l : sumScans (x :: l) = QRCodeModel.scanCount (this x) + sumScans l.
Proof. unfold sumScans at 1. simpl. by rewrite sumScans_from. Qed.

Lemma sumScans_perm l l' : Permutation l l' -> sumScans l = sumScans l'.
Proof.
  induction 1 as [|x l l' _ IH|x y l|l1 l2 l3 _ IH1 _ IH2]; [done|..].
  - by rewrite !sumScans_cons, IH.
  - rewrite !sumScans_cons. lia.
  - by rewrite IH1.
Qed.

Lemma filter_perm {A} (f : A -> bool) l l' :
  Permutation l l' -> Permutation (List.filter f l) (List.filter f l').
Proof.
  induction 1 as [|x l l' _ IH|x y l|l1 l2 l3 _ IH1 _ IH2]; simpl; [done|..].
  - destruct (f x); [by constructor|done].
  - destruct (f x), (f y); try done. apply perm_swap.
  - by etransitivity.
Qed.

Lemma documents_stored {T} (m : gmap ObjectId T) id v :
  m !! id = Some v -> Permutation (documents m) (hydrate id v :: documents (delete id m)).
Proof.
  intros H. unfold documents. rewrite <- (map_to_list_delete m id v H). done.
Qed.

Lemma documents_replaced {T} (m : gmap ObjectId T) id v :
  Permutation (documents (<[id := v]> m)) (hydrate id v :: documents (delete id m)).
Proof.
  unfold documents. rewrite <- insert_delete_eq.
  rewrite map_to_list_insert by apply lookup_delete_eq. done.
Qed.

(** The three numbers of the statistics when one token is replaced by one
    of the same lecture and the lectures keep their lecturers. *)
Lemma stats_after_replacing lecturerId now db db' id q q' s s' :
  qrcodes db !! id = Some q ->
  qrcodes db' = <[id := q']> (qrcodes db) ->
  QRCodeModel.lectureId q' = QRCodeModel.lectureId q ->
  (forall x, owns db' lecturerId x = owns db lecturerId x) ->
  fst (getQRCodeStats lecturerId now db) = Return s ->
  fst (getQRCodeStats lecturerId now db') = Return s' ->
  Stats.totalQRCodes s' = Stats.totalQRCodes s
  /\ Stats.totalScans s'
     = Stats.totalScans s
       + ind (owns db lecturerId q) * (QRCodeModel.scanCount q' - QRCodeModel.scanCount q)
  /\ Stats.activeQRCodes s'
     = Stats.activeQRCodes s
       + ind (owns db lecturerId q)
         * (ind (stillActive now (hydrate id q')) - ind (stillActive now (hydrate id q))).
Proof.
  intros Hq Hdb' Hlec Howns. rewrite !getQRCodeStats_value. cbn [fst].
  intros [= <-] [= <-]. cbn [Stats.totalQRCodes Stats.totalScans Stats.activeQRCodes].
  assert (List.filter (fun d => owns db' lecturerId (this d)) (documents (qrcodes db'))
          = List.filter (fun d => owns db lecturerId (this d)) (documents (qrcodes db'))) as ->.
  { apply filter_ext. intros d. apply Howns. }
  rewrite Hdb'.
  pose proof (filter_perm (fun d => owns db lecturerId (this d)) _ _
                (documents_stored (qrcodes db) id q Hq)) as P.
  pose proof (filter_perm (fun d => owns db lecturerId (this d)) _ _
                (documents_replaced (qrcodes db) id q')) as P'.
  rewrite (Permutation_length P), (Permutation_length P').
  rewrite (sumScans_perm _ _ P), (sumScans_perm _ _ P').
  rewrite (Permutation_length (filter_perm (stillActive now) _ _ P)).
  rewrite (Permutation_length (filter_perm (stillActive now) _ _ P')).
  cbn [List.filter this hydrate].
  assert (owns db lecturerId q' = owns db lecturerId q) as -> by (unfold owns; by rewrite Hlec).
  destruct (owns db lecturerId q); cbn [ind List.filter].
  - rewrite !sumScans_cons.
    destruct (stillActive now (hydrate id q')), (stillActive now (hydrate id q));
      cbn [length this hydrate ind]; lia.
  - rewrite !Z.mul_0_l, !Z.add_0_r. done.
Qed.

Lemma filter_none {A} (f : A -> bool) l :
  (forall x, In x l -> f x = false) -> List.filter f l = [].
Proof.
  induction l as [|x l IH]; [done|]. intros H. simpl.
  rewrite (H x) by (by left). apply IH. intros y Hy. apply H. by right.
Qed.

Lemma sumScans_nonneg l :
  (forall d, In d l -> 0 <= QRCodeModel.scanCount (this d)) -> 0 <= sumScans l.
Proof.
  induction l as [|x l IH]; intros H; [done|]. rewrite sumScans_cons.
  assert (0 <= QRCodeModel.scanCount (this x)) by (apply H; by left).
  assert (0 <= sumScans l) by (apply IH; intros d Hd; apply H; by right). lia.
Qed.

(** X12. The statistics of a lecturer are read, not written: on a store
    that answers the two queries, the call returns and leaves the database
    as it was, and nothing it computes can throw.  The active
    codes are among the codes counted; the average is formed exactly when
    there is a code, from the total of the scans and the number of codes,
    so nothing is divided by zero; a lecturer without a stored lecture has
    0 codes, 0 active, 0 scans and the average 0, whatever codes are
    stored; and the total is not negative when no count is. *)
Theorem statistics_are_read_and_consistent lecturerId now db :
  exists s,
    getQRCodeStats lecturerId now db = (Return s, db)
    /\ 0 <= Stats.activeQRCodes s <= Stats.totalQRCodes s
    /\ (Stats.avgScanRate s = Stats.NoCodes <-> Stats.totalQRCodes s = 0)
    /\ (forall sum count,
          Stats.avgScanRate s = Stats.Fixed2 sum count ->
          sum = Stats.totalScans s /\ count = Stats.totalQRCodes s /\ 0 < count)
    /\ ((forall id l, lectures db !! id = Some l -> Lecture.lecturerId l <> lecturerId) ->
        s = Stats.mk 0 0 0 Stats.NoCodes)
    /\ ((forall id q, qrcodes db !! id = Some q -> 0 <= QRCodeModel.scanCount q) ->
        0 <= Stats.totalScans s).
Proof.
  eexists. split; [apply getQRCodeStats_value|].
  cbn [Stats.totalQRCodes Stats.activeQRCodes Stats.totalScans Stats.avgScanRate].
  set (qrCodes := List.filter (fun d => owns db lecturerId (this d)) (documents (qrcodes db))).
  pose proof (filter_length_le (stillActive now) qrCodes) as Hle.
  split; [lia|]. split; [|split; [|split]].
  - destruct (0 <? Z.of_nat (length qrCodes)) eqn:E.
    + apply Z.ltb_lt in E. split; [done|lia].
    + apply Z.ltb_ge in E. split; [lia|done].
  - intros sum count. destruct (0 <? Z.of_nat (length qrCodes)) eqn:E; [|done].
    apply Z.ltb_lt in E. intros [= <- <-]. by repeat split.
  - intros Hnone.
    assert (qrCodes = []) as ->; [|done].
    apply filter_none. intros d _. unfold owns.
    destruct (lectures db !! QRCodeModel.lectureId (this d)) as [l|] eqn:Hl; [|done].
    apply N.eqb_neq. by apply (Hnone _ _ Hl).
  - intros Hcounts. apply sumScans_nonneg. intros d Hd.
    apply filter_In in Hd as [Hd _]. apply documents_In in Hd as (_ & _ & Hd).
    by apply (Hcounts _ _ Hd).
Qed.

(** X13. Revocation in the statistics: after a stored (valid) token is
    revoked, the lecturer's statistics at any instant count the same codes
    and the same scans, and one active code less exactly when the token
    is of a lecture of the lecturer and was active and unexpired at that
    instant. *)
Theorem revocation_in_the_statistics lecturerId seenAt id q revokedAt db :
  qrcodes db !! id = Some q ->
  QRCodeModel.validate q = [] ->
  exists s s',
    fst (getQRCodeStats lecturerId seenAt db) = Return s
    /\ fst (getQRCodeStats lecturerId seenAt
              (snd (QRCodeService.deactivateQRCode id revokedAt db))) = Return s'
    /\ Stats.totalQRCodes s' = Stats.totalQRCodes s
    /\ Stats.totalScans s' = Stats.totalScans s
    /\ Stats.activeQRCodes s'
       = Stats.activeQRCodes s
         - ind (owns db lecturerId q && stillActive seenAt (hydrate id q)).
Proof.
  intros Hq Hv. rewrite (deactivateQRCode_stored id q revokedAt db Hq Hv). cbn [snd].
  eexists _, _. split; [by rewrite getQRCodeStats_value|].
  split; [by rewrite getQRCodeStats_value|].
  edestruct (stats_after_replacing lecturerId seenAt db
               (withQRCode db id (QRCodeService.expireNow revokedAt q)) id q
               (QRCodeService.expireNow revokedAt q)) as (H1 & H2 & H3);
    [exact Hq|reflexivity|reflexivity|intros; reflexivity
    |by rewrite getQRCodeStats_value|by rewrite getQRCodeStats_value|].
  split; [exact H1|]. split.
  - rewrite H2. simpl. lia.
  - rewrite H3.
    change (stillActive seenAt (hydrate id (QRCodeService.expireNow revokedAt q)))
      with false.
    destruct (owns db lecturerId q), (stillActive seenAt (hydrate id q));
      cbn [ind andb]; lia.
Qed.

Lemma recordAttendance_lecturers oid now qid q lid l student dev db db' :
  db' = snd (QRCodeService.recordAttendance oid now
               (QRCodeService.Valid (hydrate qid q) (hydrate lid l)) student dev db) ->
  forall k, Lecture.lecturerId <$> lectures db' !! k = Lecture.lecturerId <$> lectures db !! k.
Proof.
  unfold QRCodeService.recordAttendance, try_catch. unfold bind at 1.
  pose proof (Attendance_save_frame
    (Attendance.new oid student (_id (hydrate lid l)) (_id (hydrate qid q)) dev now) db)
    as [Hl1 _].
  destruct (Attendance_save _ db) as [[a|e] db1]; simpl in Hl1;
    [|intros -> k; simpl; by rewrite Hl1].
  unfold bind at 1.
  match goal with
  | |- context [QRCodeModel_save ?d ?s] =>
      pose proof (QRCodeModel_save_frame d s) as [Hl2 _];
      destruct (QRCodeModel_save d s) as [[q'|e] db2]
  end; simpl in Hl2; [|intros -> k; simpl; by rewrite Hl2, Hl1].
  unfold bind at 1.
  change (assign QRCodeService.countAttendance (hydrate lid l))
    with (mkDocument lid false l (QRCodeService.countAttendance l)).
  rewrite Lecture_save_loaded.
  destruct (Lecture.validate _); [|intros -> k; simpl; by rewrite Hl2, Hl1].
  destruct (decide _); [intros -> k; simpl; by rewrite Hl2, Hl1|].
  destruct (lectures db2 !! lid) as [stored|] eqn:Hs;
    [|intros -> k; simpl; by rewrite Hl2, Hl1].
  intros -> k. simpl. rewrite <- Hl1, <- Hl2.
  destruct (decide (lid = k)) as [<-|N].
  - rewrite lookup_insert_eq, Hs. simpl. unfold delta. by destruct (decide _).
  - by rewrite lookup_insert_ne.
Qed.

(** X14. A recording in the statistics: after a recording on a stored token
    has returned, the lecturer's statistics count the same codes and, when the
    token is of a lecture of the lecturer, one scan more; the token leaves
    the active codes when this scan exhausts it, and the active codes never
    grow. *)
Theorem recording_in_the_statistics lecturerId seenAt oid now qid q lid l student dev db r db' :
  qrcodes db !! qid = Some q ->
  QRCodeService.recordAttendance oid now
    (QRCodeService.Valid (hydrate qid q) (hydrate lid l)) student dev db = (Return r, db') ->
  exists s s',
    fst (getQRCodeStats lecturerId seenAt db) = Return s
    /\ fst (getQRCodeStats lecturerId seenAt db') = Return s'
    /\ Stats.totalQRCodes s' = Stats.totalQRCodes s
    /\ Stats.totalScans s' = Stats.totalScans s + ind (owns db lecturerId q)
    /\ Stats.activeQRCodes s'
       = Stats.activeQRCodes s
         - ind (owns db lecturerId q && stillActive seenAt (hydrate qid q)
                && (QRCodeModel.maxScans q <=? QRCodeModel.scanCount q + 1))
    /\ Stats.activeQRCodes s' <= Stats.activeQRCodes s.
Proof.
  intros Hq Hrec.
  pose proof (recordAttendance_token _ _ _ _ _ _ _ _ _ _ _ Hq Hrec) as Htok.
  assert (forall x, owns db' lecturerId x = owns db lecturerId x) as Howns.
  { intros x. unfold owns.
    pose proof (recordAttendance_lecturers oid now qid q lid l student dev db db') as H.
    rewrite Hrec in H. specialize (H eq_refl (QRCodeModel.lectureId x)).
    destruct (lectures db' !! _), (lectures db !! _); simpl in H; congruence. }
  eexists _, _. split; [by rewrite getQRCodeStats_value|].
  split; [by rewrite getQRCodeStats_value|].
  edestruct (stats_after_replacing lecturerId seenAt db db' qid q
               (QRCodeService.countScan q)) as (H1 & H2 & H3);
    [exact Hq|exact Htok|reflexivity|exact Howns
    |by rewrite getQRCodeStats_value|by rewrite getQRCodeStats_value|].
  split; [exact H1|].
  assert (ind (stillActive seenAt (hydrate qid (QRCodeService.countScan q)))
          - ind (stillActive seenAt (hydrate qid q))
          = - ind (stillActive seenAt (hydrate qid q)
                   && (QRCodeModel.maxScans q <=? QRCodeModel.scanCount q + 1))) as E.
  { unfold stillActive. simpl.
    by destruct (QRCodeModel.isActive q), (seenAt <? QRCodeModel.expiresAt q),
      (QRCodeModel.maxScans q <=? QRCodeModel.scanCount q + 1). }
  rewrite E in H3.
  split; [rewrite H2; simpl; destruct (owns db lecturerId q); cbn [ind]; lia|].
  split; rewrite H3;
    destruct (owns db lecturerId q), (stillActive seenAt (hydrate qid q)),
      (QRCodeModel.maxScans q <=? QRCodeModel.scanCount q + 1); cbn [ind andb]; lia.
Qed.

(** ** Deleting a lecture *)

Lemma Lecture_findOwned_reads lectureId lecturerId db :
  Lecture_findOwned lectureId lecturerId db
  = (Return match lectures db !! lectureId with
            | Some l =>
                if N.eqb (Lecture.lecturerId l) lecturerId
                then Some (hydrate lectureId l) else None
            | None => None
            end, db).
Proof. reflexivity. Qed.

Lemma withLecture_same db id l : lectures db !! id = Some l -> withLecture db id l = db.
Proof.
  intros H. destruct db as [ls qs als]. unfold withLecture. simpl in *.
  by rewrite insert_id.
Qed.

Lemma Lecture_save_cancel id l db :
  lectures db !! id = Some l ->
  Lecture.validate l = [] ->
  Lecture_save (assign cancel (hydrate id l)) db
  = (Return (mkDocument id false (if decide (cancel l = l) then l else cancel l) (cancel l)),
     withLecture db id (cancel l)).
Proof.
  intros Hl Hv.
  change (assign cancel (hydrate id l)) with (mkDocument id false l (cancel l)).
  rewrite Lecture_save_loaded.
  change (Lecture.validate (cancel l)) with (Lecture.validate l). rewrite Hv.
  destruct (decide _) as [E|_].
  - rewrite E at 3. by rewrite withLecture_same.
  - by rewrite Hl, Lecture_merge_same.
Qed.

(** X15. The lecturer deletes a lecture of theirs (stored, valid, its token
    if it has one stored and valid): the answer is 200; the lecture stays
    stored, now inactive and cancelled, every other path as it was; its
    token is revoked at the instant of the call, so it is inactive and
    the lookup of a scan, which asks for an active token, does not match
    it; no entry is removed or changed. *)
Theorem deleted_lecture_is_kept_inactive user lectureId now l db :
  lectures db !! lectureId = Some l ->
  Lecture.lecturerId l = user_id user ->
  Lecture.validate l = [] ->
  match Lecture.qrCodeId l with
  | Some qrCodeId =>
      exists q, qrcodes db !! qrCodeId = Some q /\ QRCodeModel.validate q = []
  | None => True
  end ->
  exists db',
    deleteLecture user lectureId now db
    = (Return (mkResponse 200 (Success "Lecture deactivated successfully" tt)), db')
    /\ lectures db' = <[lectureId := cancel l]> (lectures db)
    /\ attendances db' = attendances db
    /\ Lecture.isActive (cancel l) = false
    /\ Lecture.status (cancel l) = Lecture.cancelled
    /\ match Lecture.qrCodeId l with
       | Some qrCodeId =>
           exists q, qrcodes db !! qrCodeId = Some q
                     /\ qrcodes db' = <[qrCodeId := QRCodeService.expireNow now q]> (qrcodes db)
                     /\ QRCodeModel.expiresAt (QRCodeService.expireNow now q) = now
                     /\ QRCodeModel.holds (QRCodeService.expireNow now q)
                          (QRCodeModel.isActive_eq true) = false
       | None => qrcodes db' = qrcodes db
       end.
Proof.
  intros Hl Hown Hv Htoken.
  unfold deleteLecture, try_catch. unfold bind at 1.
  rewrite Lecture_findOwned_reads, Hl, Hown, N.eqb_refl.
  unfold bind at 1. rewrite (Lecture_save_cancel lectureId l db Hl Hv).
  cbn [this]. change (Lecture.qrCodeId (cancel l)) with (Lecture.qrCodeId l).
  destruct (Lecture.qrCodeId l) as [qrCodeId|].
  - destruct Htoken as (q & Hq & Hqv).
    unfold bind at 1. unfold bind at 1.
    rewrite (deactivateQRCode_stored qrCodeId q now (withLecture db lectureId (cancel l)))
      by done.
    eexists. split; [reflexivity|]. simpl.
    repeat split; try done. by exists q.
  - eexists. split; [reflexivity|]. simpl. by repeat split.
Qed.

(** X16. What the deletion refuses.  For a lecture that is not stored or is
    another lecturer's the answer is 404 and nothing is written.  For a
    lecture of the lecturer whose token reference points to no stored
    token the answer is 400 with the text of the service, but the lecture
    has been cancelled by then. *)
Theorem deletion_refusals user lectureId now db :
  (match lectures db !! lectureId with
   | Some l => Lecture.lecturerId l <> user_id user
   | None => True
   end ->
   deleteLecture user lectureId now db
   = (Return (mkResponse 404 (Failure "Lecture not found or access denied")), db))
  /\ (forall l qrCodeId,
        lectures db !! lectureId = Some l ->
        Lecture.lecturerId l = user_id user ->
        Lecture.validate l = [] ->
        Lecture.qrCodeId l = Some qrCodeId ->
        qrcodes db !! qrCodeId = None ->
        deleteLecture user lectureId now db
        = (Return (mkResponse 400
                     (Failure "Failed to deactivate QR code: QR code not found")),
           withLecture db lectureId (cancel l))).
Proof.
  split.
  - intros H. unfold deleteLecture, try_catch. unfold bind at 1.
    rewrite Lecture_findOwned_reads.
    destruct (lectures db !! lectureId) as [l|]; [|done].
    apply N.eqb_neq in H. by rewrite H.
  - intros l qrCodeId Hl Hown Hv Hqr Hq.
    unfold deleteLecture, try_catch. unfold bind at 1.
    rewrite Lecture_findOwned_reads, Hl, Hown, N.eqb_refl.
    unfold bind at 1. rewrite (Lecture_save_cancel lectureId l db Hl Hv).
    cbn [this]. change (Lecture.qrCodeId (cancel l)) with (Lecture.qrCodeId l).
    rewrite Hqr. unfold bind at 1. unfold bind at 1.
    by rewrite (deactivateQRCode_missing qrCodeId now (withLecture db lectureId (cancel l))).
Qed.

(** ** The error handler *)

Lemma rethrown_is_plain {A} (m : M A) (prefix : string) db e db' :
  try_catch m (fun error => throw (Error (prefix ++ message error))) db = (Throw e, db') ->
  exists text, e = Error text.
Proof.
  unfold try_catch, throw. destruct (m db) as [[a|e0] db0]; [done|].
  intros [= <- _]. by eexists.
Qed.

Lemma plain_Error_is_a_server_error production text stack :
  ErrorHandler.errorHandler production (ErrorHandler.plain (Error text) stack)
  = Return (ErrorHandler.mkAnswer 500 "Server Error" (if production then None else stack)).
Proof. reflexivity. Qed.

(** X17. Every error the service throws is a server error to the error
    handler: whatever [generateQRCode], [validateQRCode],
    [recordAttendance], [deactivateQRCode] or [getQRCodeStats] throw,
    the handler answers 500 with the text "Server Error"; the message of
    the error, its cause included, is not sent. *)
Theorem service_errors_are_server_errors (production : bool) (stack : option string) :
  (forall env now data duration db e db',
     QRCodeService.generateQRCode env now data duration db = (Throw e, db') ->
     ErrorHandler.errorHandler production (ErrorHandler.plain e stack)
     = Return (ErrorHandler.mkAnswer 500 "Server Error" (if production then None else stack)))
  /\ (forall code studentId now db e db',
     QRCodeService.validateQRCode code studentId now db = (Throw e, db') ->
     ErrorHandler.errorHandler production (ErrorHandler.plain e stack)
     = Return (ErrorHandler.mkAnswer 500 "Server Error" (if production then None else stack)))
  /\ (forall oid now validation studentId deviceInfo db e db',
     QRCodeService.recordAttendance oid now validation studentId deviceInfo db = (Throw e, db') ->
     ErrorHandler.errorHandler production (ErrorHandler.plain e stack)
     = Return (ErrorHandler.mkAnswer 500 "Server Error" (if production then None else stack)))
  /\ (forall qrCodeId now db e db',
     QRCodeService.deactivateQRCode qrCodeId now db = (Throw e, db') ->
     ErrorHandler.errorHandler production (ErrorHandler.plain e stack)
     = Return (ErrorHandler.mkAnswer 500 "Server Error" (if production then None else stack)))
  /\ (forall lecturerId now db e db',
     getQRCodeStats lecturerId now db = (Throw e, db') ->
     ErrorHandler.errorHandler production (ErrorHandler.plain e stack)
     = Return (ErrorHandler.mkAnswer 500 "Server Error" (if production then None else stack))).
Proof.
  repeat split; intros.
  all: match goal with
       | H : _ = (Throw ?e, _) |- _ =>
           apply rethrown_is_plain in H as [text ->]
       end; apply plain_Error_is_a_server_error.
Qed.

(** X18. The answers of the error handler.  For an error that has no
    [statusCode] of its own the status is 400, 401, 404 or 500.  The later
    tests win over the earlier ones: whenever the handler answers, an
    error named CastError gets 404 "Resource not found", one named
    JsonWebTokenError 401 "Invalid token" and one named TokenExpiredError
    401 "Token expired", whatever its code and its other properties. *)
Theorem error_handler_answers production err answer :
  ErrorHandler.errorHandler production err = Return answer ->
  (ErrorHandler.err_statusCode err = None ->
   ErrorHandler.status answer = 400 \/ ErrorHandler.status answer = 401
   \/ ErrorHandler.status answer = 404 \/ ErrorHandler.status answer = 500)
  /\ (ErrorHandler.err_name err = "CastError" ->
      ErrorHandler.status answer = 404 /\ ErrorHandler.error answer = "Resource not found")
  /\ (ErrorHandler.err_name err = "JsonWebTokenError" ->
      ErrorHandler.status answer = 401 /\ ErrorHandler.error answer = "Invalid token")
  /\ (ErrorHandler.err_name err = "TokenExpiredError" ->
      ErrorHandler.status answer = 401 /\ ErrorHandler.error answer = "Token expired").
Proof.
  unfold ErrorHandler.errorHandler, ErrorHandler.classify.
  destruct (String.eqb_spec (ErrorHandler.err_name err) "ValidationError") as [Ev|Ev].
  - rewrite Ev. simpl.
    destruct (ErrorHandler.err_errors err); [|done].
    destruct (bool_decide _).
    + destruct (ErrorHandler.err_keyPattern err) as [[|f r]|]; [done| |done].
      intros [= <-]. simpl. repeat split; try done. intros _. by left.
    + intros [= <-]. simpl. repeat split; try done. intros _. by left.
  - destruct (bool_decide _).
    + destruct (ErrorHandler.err_keyPattern err) as [[|f r]|]; [done| |done].
      destruct (String.eqb_spec (ErrorHandler.err_name err) "CastError") as [->|E1];
        [intros [= <-]; simpl; repeat split; try done; intros _; tauto|].
      destruct (String.eqb_spec (ErrorHandler.err_name err) "JsonWebTokenError") as [->|E2];
        [intros [= <-]; simpl; repeat split; try done; intros _; tauto|].
      destruct (String.eqb_spec (ErrorHandler.err_name err) "TokenExpiredError") as [->|E3];
        [intros [= <-]; simpl; repeat split; try done; intros _; tauto|].
      intros [= <-]. simpl. repeat split; try done. intros _. by left.
    + destruct (String.eqb_spec (ErrorHandler.err_name err) "CastError") as [->|E1];
        [intros [= <-]; simpl; repeat split; try done; intros _; tauto|].
      destruct (String.eqb_spec (ErrorHandler.err_name err) "JsonWebTokenError") as [->|E2];
        [intros [= <-]; simpl; repeat split; try done; intros _; tauto|].
      destruct (String.eqb_spec (ErrorHandler.err_name err) "TokenExpiredError") as [->|E3];
        [intros [= <-]; simpl; repeat split; try done; intros _; tauto|].
      intros [= <-]. simpl. repeat split; try done. intros ->. simpl. tauto.
Qed.

(** X19. Duplicate keys in the error handler.  A driver error with the code
    11000 and a key pattern is answered 400 with the first key of the
    pattern, its first letter in upper case, followed by " already
    exists"; when the error has the code but no key pattern, or an empty
    one, the handler itself throws a TypeError and answers nothing. *)
Theorem duplicate_key_answers production err :
  ErrorHandler.err_name err = "MongoServerError" ->
  ErrorHandler.err_code err = Some 11000 ->
  match ErrorHandler.err_keyPattern err with
  | Some (field :: _) =>
      ErrorHandler.errorHandler production err
      = Return (ErrorHandler.mkAnswer 400
                  (ErrorHandler.capitalize field ++ " already exists")
                  (if production then None else ErrorHandler.err_stack err))
  | _ => exists msg,
      ErrorHandler.errorHandler production err = Throw (ErrorHandler.TypeError msg)
  end.
Proof.
  intros Hname Hcode.
  unfold ErrorHandler.errorHandler, ErrorHandler.classify. rewrite Hname, Hcode. simpl.
  destruct (ErrorHandler.err_keyPattern err) as [[|field r]|]; [by eexists| |by eexists].
  simpl. f_equal. f_equal.
  unfold ErrorHandler.textOr.
  destruct (ErrorHandler.capitalize field); reflexivity.
Qed.


(** ** The issuing route on a body the middleware accepts *)

(** The route as it is mounted answers what [generateQR] answers: here
    the middleware is [validate(generateQRValidation)], the factory
    called with the rules. *)
Lemma postGenerateQR_answers env now configured user b db :
  Lecturer.postGenerateQR env now configured user b db
  = match Lecturer.generateQR env now configured user b db with
    | (Return r, db') => (Return (Express.Answered r), db')
    | (Throw e, db') => (Throw e, db')
    end.
Proof.
  unfold Lecturer.postGenerateQR, Lecturer.generateQR.
  destruct (Lecturer.generateQRValidation b) as [|e es]; [|reflexivity].
  cbn [Express.route Express.validate]. unfold bind at 1. cbn [ret].
  unfold bind, ret.
  by destruct (Lecturer.generateQRHandler env now configured user b db) as [[r|e] db'].
Qed.


























(** ** Instances of the further statements on the sample data *)


(** The code abc is taken: the token is refused, the lecture 3 stays. *)
Lemma failed_token_save_keeps_the_lecture_witness :
  exists e,
    QRCodeService.generateQRCode issue3 (at_ 8 0) data0900 60
      (campus morning (token 0 2 true))
    = (Throw (Error ("Failed to generate QR code: " ++ message e)),
       withLecture (campus morning (token 0 2 true)) 3%N (this (Lecture.new 3%N data0900)))
    /\ Lecture.qrCodeId (this (Lecture.new 3%N data0900)) = None.
Proof.
  eexists.
  eapply (failed_token_save_keeps_the_lecture issue3 (at_ 8 0) data0900 60
            (campus morning (token 0 2 true))).
  - vm_compute. reflexivity.
  - reflexivity.
  - vm_compute. reflexivity.
Defined.

(** The second scan of 2 at 09:20: the entry is late, the token is used up. *)
Lemma recording_writes_entry_token_and_lecture_witness :
  QRCodeService.recordAttendance 10%N (at_ 9 20)
    (QRCodeService.Valid (hydrate 2%N (token 1 2 true)) (hydrate 1%N morning))
    51%N Attendance.noDevice (campus morning (token 1 2 true))
  = (Return (QRCodeService.mkRecorded 10%N 1%N (at_ 9 20) Attendance.late),
     mkDB (<[1%N := QRCodeService.countAttendance morning]> {[ 1%N := morning ]})
          (<[2%N := QRCodeService.countScan (token 1 2 true)]> {[ 2%N := token 1 2 true ]})
          (<[10%N := Attendance.mk 51%N 1%N 2%N (at_ 9 20) Attendance.late
                       Attendance.noDevice true None]> ∅))
  /\ QRCodeModel.isActive (QRCodeService.countScan (token 1 2 true)) = false.
Proof.
  split; [|reflexivity].
  apply (recording_writes_entry_token_and_lecture 10%N (at_ 9 20) 2%N (token 1 2 true)
           1%N morning 51%N Attendance.noDevice (campus morning (token 1 2 true)));
    vm_compute; reflexivity.
Defined.

(** The token 2 has been removed from the store: the entry 10 is written. *)
Lemma recording_keeps_entry_when_token_is_gone_witness :
  exists a,
    QRCodeService.recordAttendance 10%N (at_ 9 20)
      (QRCodeService.Valid (hydrate 2%N (token 1 2 true)) (hydrate 1%N morning))
      51%N Attendance.noDevice (mkDB {[ 1%N := morning ]} ∅ ∅)
    = (Throw (Error ("Failed to record attendance: "
                     ++ message (DocumentNotFoundError "QRCode"))),
       withAttendance (mkDB {[ 1%N := morning ]} ∅ ∅) 10%N a)
    /\ Attendance.studentId a = 51%N /\ Attendance.lectureId a = 1%N.
Proof.
  apply (recording_keeps_entry_when_token_is_gone 10%N (at_ 9 20) 2%N (token 1 2 true)
           1%N morning 51%N Attendance.noDevice (mkDB {[ 1%N := morning ]} ∅ ∅));
    vm_compute; reflexivity.
Defined.

(** Revoking the token 2 keeps its counts, code, lecture and image. *)
Lemma revocation_writes_one_token_witness :
  exists q',
    qrcodes (snd (QRCodeService.deactivateQRCode 2%N (at_ 9 30)
                    (campus morning (token 1 2 true)))) !! 2%N = Some q'
    /\ QRCodeModel.scanCount q' = 1
    /\ QRCodeModel.maxScans q' = 2
    /\ QRCodeModel.uniqueCode q' = "abc"
    /\ QRCodeModel.lectureId q' = 1%N
    /\ QRCodeModel.qrCodeImage q' = "data:image/png;base64,AAAA".
Proof.
  destruct (revocation_writes_one_token 2%N (at_ 9 30) (campus morning (token 1 2 true)))
    as (_ & _ & _ & H & _).
  exact (H (token 1 2 true) eq_refl).
Defined.

(** The database with one entry, after a recording for another student. *)
Lemma one_entry_per_student_and_lecture_witness :
  onePerPair (attended morning (token 0 2 true))
  /\ onePerPair
       (snd (QRCodeService.recordAttendance 10%N (at_ 9 20)
               (QRCodeService.Valid (hydrate 2%N (token 0 2 true)) (hydrate 1%N morning))
               51%N Attendance.noDevice (attended morning (token 0 2 true)))).
Proof.
  assert (onePerPair (attended morning (token 0 2 true))) as H.
  { intros k1 k2 a1 a2 H1 H2 _ _. unfold attended in H1, H2. simpl in H1, H2.
    apply lookup_singleton_Some in H1 as [<- _].
    by apply lookup_singleton_Some in H2 as [<- _]. }
  split; [exact H|].
  apply (one_entry_per_student_and_lecture (attended morning (token 0 2 true))); [|exact H].
  apply rtc_once.
  exact (step_record 10%N (at_ 9 20) 2%N (token 0 2 true) 1%N morning 51%N
           Attendance.noDevice (attended morning (token 0 2 true)) eq_refl eq_refl).
Defined.

(** The token 2 after a recording: still stored, 1 scan or more. *)
Lemma tokens_are_kept_and_counts_only_grow_witness :
  exists q',
    qrcodes (snd (QRCodeService.recordAttendance 10%N (at_ 9 20)
                    (QRCodeService.Valid (hydrate 2%N (token 1 2 true)) (hydrate 1%N morning))
                    51%N Attendance.noDevice (campus morning (token 1 2 true)))) !! 2%N
    = Some q'
    /\ 1 <= QRCodeModel.scanCount q'
    /\ QRCodeModel.maxScans q' = 2
    /\ QRCodeModel.uniqueCode q' = "abc"
    /\ QRCodeModel.lectureId q' = 1%N.
Proof.
  apply (tokens_are_kept_and_counts_only_grow (campus morning (token 1 2 true)) _
           (rtc_once _ _
              (step_record 10%N (at_ 9 20) 2%N (token 1 2 true) 1%N morning 51%N
                 Attendance.noDevice (campus morning (token 1 2 true)) eq_refl eq_refl))
           2%N (token 1 2 true) eq_refl).
Defined.

(** 23:59 is the last minute of the day. *)
Lemma accepted_time_is_a_minute_of_the_day_witness :
  matchesHHMM "23:59" = true
  /\ exists minutes,
       0 <= minutes < 24 * 60
       /\ minutesOf "23:59" = Some minutes
       /\ atTime day "23:59" = Some (day / msPerDay * msPerDay + minutes * msPerMinute).
Proof.
  split; [reflexivity|].
  apply (accepted_time_is_a_minute_of_the_day day "23:59"). reflexivity.
Defined.

(** The lecture from 23:00 to 01:00 passes the schema. *)
Lemma duration_is_end_less_start_witness :
  Lecture.validate overnight = []
  /\ exists d st en,
       Lecture_duration overnight = Some d
       /\ Lecture.lectureStart overnight = Some st
       /\ Lecture.lectureEnd overnight = Some en
       /\ en - st = d * msPerMinute
       /\ - (24 * 60) < d < 24 * 60
       /\ (d < 0 <-> en < st).
Proof.
  assert (Lecture.validate overnight = []) as H by (vm_compute; reflexivity).
  split; [exact H|]. exact (duration_is_end_less_start overnight H).
Defined.

(** Lecturer 8 has no lecture: the token of lecturer 7 is not counted. *)
Lemma statistics_are_read_and_consistent_witness :
  getQRCodeStats 8%N (at_ 9 0) (campus morning (token 1 2 true))
  = (Return (Stats.mk 0 0 0 Stats.NoCodes), campus morning (token 1 2 true)).
Proof.
  destruct (statistics_are_read_and_consistent 8%N (at_ 9 0)
              (campus morning (token 1 2 true))) as (s & Hs & _ & _ & _ & H & _).
  rewrite Hs. f_equal. f_equal. apply H.
  intros id l Hl. unfold campus in Hl. simpl in Hl.
  apply lookup_singleton_Some in Hl as [_ <-]. discriminate.
Defined.

(** The token 2 of lecturer 7 is revoked at 09:30. *)
Lemma revocation_in_the_statistics_witness :
  exists s s',
    fst (getQRCodeStats 7%N (at_ 9 0) (campus morning (token 1 2 true))) = Return s
    /\ fst (getQRCodeStats 7%N (at_ 9 0)
              (snd (QRCodeService.deactivateQRCode 2%N (at_ 9 30)
                      (campus morning (token 1 2 true))))) = Return s'
    /\ Stats.totalQRCodes s' = Stats.totalQRCodes s
    /\ Stats.totalScans s' = Stats.totalScans s
    /\ Stats.activeQRCodes s' = Stats.activeQRCodes s - 1.
Proof.
  apply (revocation_in_the_statistics 7%N (at_ 9 0) 2%N (token 1 2 true) (at_ 9 30)
           (campus morning (token 1 2 true))).
  - reflexivity.
  - vm_compute. reflexivity.
Defined.

(** The second scan of 2 is recorded on the token of lecturer 7. *)
Lemma recording_in_the_statistics_witness :
  exists s s',
    fst (getQRCodeStats 7%N (at_ 9 0) (campus morning (token 1 2 true))) = Return s
    /\ fst (getQRCodeStats 7%N (at_ 9 0)
              (snd (QRCodeService.recordAttendance 10%N (at_ 9 20)
                      (QRCodeService.Valid (hydrate 2%N (token 1 2 true))
                         (hydrate 1%N morning))
                      51%N Attendance.noDevice (campus morning (token 1 2 true)))))
       = Return s'
    /\ Stats.totalQRCodes s' = Stats.totalQRCodes s
    /\ Stats.totalScans s' = Stats.totalScans s + 1
    /\ Stats.activeQRCodes s' = Stats.activeQRCodes s - 1
    /\ Stats.activeQRCodes s' <= Stats.activeQRCodes s.
Proof.
  apply (recording_in_the_statistics 7%N (at_ 9 0) 10%N (at_ 9 20) 2%N (token 1 2 true)
           1%N morning 51%N Attendance.noDevice (campus morning (token 1 2 true))
           (QRCodeService.mkRecorded 10%N 1%N (at_ 9 20) Attendance.late)).
  - reflexivity.
  - vm_compute. reflexivity.
Defined.

(** Lecturer 7 deletes the lecture 1, whose token is 2. *)
Lemma deleted_lecture_is_kept_inactive_witness :
  exists db',
    deleteLecture lecturer 1%N (at_ 9 30) (campus morning (token 1 2 true))
    = (Return (mkResponse 200 (Success "Lecture deactivated successfully" tt)), db')
    /\ lectures db' = <[1%N := cancel morning]> {[ 1%N := morning ]}
    /\ attendances db' = ∅
    /\ Lecture.isActive (cancel morning) = false
    /\ Lecture.status (cancel morning) = Lecture.cancelled
    /\ (exists q, qrcodes (campus morning (token 1 2 true)) !! 2%N = Some q
                  /\ qrcodes db'
                     = <[2%N := QRCodeService.expireNow (at_ 9 30) q]>
                         {[ 2%N := token 1 2 true ]}
                  /\ QRCodeModel.expiresAt (QRCodeService.expireNow (at_ 9 30) q) = at_ 9 30
                  /\ QRCodeModel.holds (QRCodeService.expireNow (at_ 9 30) q)
                       (QRCodeModel.isActive_eq true) = false).
Proof.
  apply (deleted_lecture_is_kept_inactive lecturer 1%N (at_ 9 30) morning
           (campus morning (token 1 2 true))).
  - reflexivity.
  - reflexivity.
  - vm_compute. reflexivity.
  - exists (token 1 2 true). split; [reflexivity|vm_compute; reflexivity].
Defined.

(** Student 50 asks to delete the lecture 1 of lecturer 7. *)
Lemma deletion_refusals_witness :
  deleteLecture student50 1%N (at_ 9 30) (campus morning (token 1 2 true))
  = (Return (mkResponse 404 (Failure "Lecture not found or access denied")),
     campus morning (token 1 2 true)).
Proof.
  destruct (deletion_refusals student50 1%N (at_ 9 30) (campus morning (token 1 2 true)))
    as [H _].
  apply H. vm_compute. intros E. discriminate E.
Defined.

(** The lookup of a scan throws; the handler answers 500. *)
Lemma service_errors_are_server_errors_witness :
  exists e,
    QRCodeService.validateQRCode "abc" 50%N (at_ 9 5) (campus morning (token 0 2 true))
    = (Throw e, campus morning (token 0 2 true))
    /\ ErrorHandler.errorHandler true (ErrorHandler.plain e (Some "at validateQRCode"))
       = Return (ErrorHandler.mkAnswer 500 "Server Error" None).
Proof.
  eexists. split.
  - vm_compute. reflexivity.
  - destruct (service_errors_are_server_errors true (Some "at validateQRCode"))
      as (_ & H & _).
    apply (H "abc" 50%N (at_ 9 5) (campus morning (token 0 2 true)) _
             (campus morning (token 0 2 true))).
    vm_compute. reflexivity.
Defined.

(** An id that cannot be cast is answered 404. *)
Lemma error_handler_answers_witness :
  ErrorHandler.errorHandler false badId
  = Return (ErrorHandler.mkAnswer 404 "Resource not found" None)
  /\ ErrorHandler.status (ErrorHandler.mkAnswer 404 "Resource not found" None) = 404.
Proof.
  split; [reflexivity|].
  destruct (error_handler_answers false badId
              (ErrorHandler.mkAnswer 404 "Resource not found" None) eq_refl)
    as (_ & H & _).
  exact (proj1 (H eq_refl)).
Defined.

(** The unique index of the entries: the first key of the pattern is named. *)
Lemma duplicate_key_answers_witness :
  ErrorHandler.errorHandler true duplicatePair
  = Return (ErrorHandler.mkAnswer 400 "StudentId already exists" None).
Proof.
  exact (duplicate_key_answers true duplicatePair eq_refl eq_refl).
Defined.

